(** * OpenAI assistant / webhook bridge: the pending-call store, the dispatch
    engine, the correlation protocol, the sweep and the two HTTP routes.

    The development embeds the JavaScript sources

      - services/webhook-handler  (class WebhookHandler),
      - routes                    (POST /ask, POST /webhook-response),
      - middleware/validation     (validateWebhookResponse),
      - config                    (the employee table)

    as Rocq functions and proves the properties the design document states
    about them.  JavaScript strings are sequences of UTF-16 code units,
    JavaScript values are a small inductive type, the [Map] of pending calls is
    a finite map, and everything the code asks of the outside world (the clock,
    the HTTP transport, the conversation provider, [JSON.parse]) is an oracle
    read through a small state-and-exception monad. *)

From Stdlib Require Import ZArith NArith List String Ascii Bool Lia.
From stdpp Require Import gmap strings list fin_maps.

Set Default Proof Using "Type".
Set Warnings "-register-all".
Local Open Scope Z_scope.

(* ===================================================================== *)
(** ** JavaScript strings *)
(* ===================================================================== *)

Module JS.

(** A string is its sequence of UTF-16 code units; [length] is [.length]. *)
Abbreviation jsstring := (list N).

(** An ASCII literal as a JavaScript string. *)
Definition u16 (s : string) : jsstring :=
  List.map N_of_ascii (list_ascii_of_string s).
Arguments u16 : simpl never.

(** WhiteSpace and LineTerminator code points, the ones [trim] strips. *)
Definition is_ws (c : N) : bool :=
  ((9 <=? c) && (c <=? 13) || (c =? 32) || (c =? 160) || (c =? 5760)
   || (8192 <=? c) && (c <=? 8202) || (c =? 8232) || (c =? 8233)
   || (c =? 8239) || (c =? 8287) || (c =? 12288) || (c =? 65279))%N.

Fixpoint trimStart (s : jsstring) : jsstring :=
  match s with
  | c :: s' => if is_ws c then trimStart s' else s
  | [] => []
  end.

Definition trimEnd (s : jsstring) : jsstring := rev (trimStart (rev s)).

(** [String.prototype.trim]. *)
Definition trim (s : jsstring) : jsstring := trimEnd (trimStart s).

(** [s.length]. *)
Definition jslength (s : jsstring) : Z := Z.of_nat (length s).

(** [s.substring(0, n)]. *)
Definition substring0 (s : jsstring) (n : Z) : jsstring := take (Z.to_nat n) s.
Arguments substring0 : simpl never.

Fixpoint startsWith (p s : jsstring) : bool :=
  match p, s with
  | [], _ => true
  | a :: p', b :: s' => (a =? b)%N && startsWith p' s'
  | _ :: _, [] => false
  end.

(** [hay.includes(needle)]. *)
Fixpoint includes (hay needle : jsstring) : bool :=
  startsWith needle hay ||
  match hay with
  | [] => false
  | _ :: hay' => includes hay' needle
  end.

(** [parts.join(sep)]. *)
Fixpoint join (sep : jsstring) (parts : list jsstring) : jsstring :=
  match parts with
  | [] => []
  | [p] => p
  | p :: rest => p ++ sep ++ join sep rest
  end.

(** Decimal digits of a natural number, most significant first. *)
Fixpoint digits_fuel (fuel : nat) (n : N) : jsstring :=
  match fuel with
  | O => []
  | S fuel' =>
      (if (n <? 10)%N then [] else digits_fuel fuel' (n / 10)%N)
        ++ [(48 + n mod 10)%N]
  end.

Definition digits (n : N) : jsstring := digits_fuel (S (N.to_nat (N.log2 n))) n.

(** [String(z)] for an integer-valued number [z] (the numbers this model
    carries, see [jsval]). *)
Definition Number_toString (z : Z) : jsstring :=
  (if z <? 0 then u16 "-" else []) ++ digits (Z.abs_N z).

(* ===================================================================== *)
(** ** JavaScript values *)
(* ===================================================================== *)

(** The values a JSON request body can carry, plus [undefined] for an absent
    property.  Numbers are the integer-valued ones, written in decimal;
    an object is its own enumerable properties in enumeration order. *)
Inductive jsval : Type :=
| JUndefined
| JNull
| JBool (b : bool)
| JNum (z : Z)
| JStr (s : jsstring)
| JArr (items : list jsval)
| JObj (props : list (jsstring * jsval)).

Inductive jstype := TUndefined | TObject | TBoolean | TNumber | TString.

(** [typeof v]. *)
Definition typeof (v : jsval) : jstype :=
  match v with
  | JUndefined => TUndefined
  | JNull => TObject
  | JBool _ => TBoolean
  | JNum _ => TNumber
  | JStr _ => TString
  | JArr _ => TObject
  | JObj _ => TObject
  end.

Definition jstype_eqb (a b : jstype) : bool :=
  match a, b with
  | TUndefined, TUndefined | TObject, TObject | TBoolean, TBoolean
  | TNumber, TNumber | TString, TString => true
  | _, _ => false
  end.

(** ToBoolean: what [!v] negates. *)
Definition truthy (v : jsval) : bool :=
  match v with
  | JUndefined | JNull => false
  | JBool b => b
  | JNum z => negb (z =? 0)
  | JStr s => match s with [] => false | _ => true end
  | JArr _ | JObj _ => true
  end.

Definition is_nullish (v : jsval) : bool :=
  match v with
  | JUndefined | JNull => true
  | _ => false
  end.

(** The string a validated string field holds (the empty string otherwise). *)
Definition str_of (v : jsval) : jsstring :=
  match v with
  | JStr s => s
  | _ => []
  end.

(** [String(v)] for a number or a boolean. *)
Definition String_of (v : jsval) : jsstring :=
  match v with
  | JBool true => u16 "true"
  | JBool false => u16 "false"
  | JNum z => Number_toString z
  | _ => []
  end.

(** [s !== v] for a string [s]: false only when [v] is the same string. *)
Definition differs (s : jsstring) (v : jsval) : bool :=
  match v with
  | JStr s' => negb (bool_decide (s = s'))
  | _ => true
  end.

(* --------------------------------------------------------------------- *)
(** *** JSON.stringify *)
(* --------------------------------------------------------------------- *)

Definition hexdigit (n : N) : N :=
  (if n <? 10 then 48 + n else 87 + n)%N.

(** The four-digit lower-case escape of a code unit. *)
Definition unicode_escape (c : N) : jsstring :=
  u16 "\u" ++ [hexdigit (c / 4096 mod 16)%N; hexdigit (c / 256 mod 16)%N;
              hexdigit (c / 16 mod 16)%N; hexdigit (c mod 16)%N].

Definition is_high_surrogate (c : N) : bool := ((55296 <=? c) && (c <=? 56319))%N.
Definition is_low_surrogate (c : N) : bool := ((56320 <=? c) && (c <=? 57343))%N.

Definition quote_unit (c : N) : jsstring :=
  if (c =? 8)%N then u16 "\b"
  else if (c =? 9)%N then u16 "\t"
  else if (c =? 10)%N then u16 "\n"
  else if (c =? 12)%N then u16 "\f"
  else if (c =? 13)%N then u16 "\r"
  else if (c =? 34)%N then [92; 34]%N
  else if (c =? 92)%N then [92; 92]%N
  else if (c <? 32)%N then unicode_escape c
  else if is_high_surrogate c || is_low_surrogate c then unicode_escape c
  else [c].

(** The body of QuoteJSONString: a well-formed surrogate pair is kept, a lone
    surrogate is escaped. *)
Fixpoint quote_units (s : jsstring) : jsstring :=
  match s with
  | [] => []
  | c :: s' =>
      match s' with
      | d :: s'' =>
          if is_high_surrogate c && is_low_surrogate d
          then c :: d :: quote_units s''
          else quote_unit c ++ quote_units s'
      | [] => quote_unit c
      end
  end.

(** QuoteJSONString. *)
Definition quote (s : jsstring) : jsstring := [34%N] ++ quote_units s ++ [34%N].

Definition newline : jsstring := [10%N].

(** The text of an array or an object from the texts of its members:
    [opening] and [closing] are the brackets, [indent] the indentation of the
    enclosing value, [gap] the indentation unit. *)
Definition wrap (gap indent opening closing : jsstring)
    (parts : list jsstring) : jsstring :=
  let stepback := indent in
  let indent' := indent ++ gap in
  match parts with
  | [] => opening ++ closing
  | _ =>
      match gap with
      | [] => opening ++ join (u16 ",") parts ++ closing
      | _ => opening ++ (newline ++ indent'
             ++ join (u16 "," ++ newline ++ indent') parts
             ++ newline ++ stepback) ++ closing
      end
  end.
Arguments wrap : simpl never.

(** SerializeJSONProperty with the current indentation [indent] and the
    indentation unit [gap]; [None] is the result [undefined]. *)
Fixpoint serialize (gap indent : jsstring) (v : jsval) : option jsstring :=
  let indent' := indent ++ gap in
  match v with
  | JUndefined => None
  | JNull => Some (u16 "null")
  | JBool b => Some (if b then u16 "true" else u16 "false")
  | JNum z => Some (Number_toString z)
  | JStr s => Some (quote s)
  | JArr items =>
      let parts :=
        List.map (fun x => default (u16 "null") (serialize gap indent' x)) items in
      Some (wrap gap indent (u16 "[") (u16 "]") parts)
  | JObj props =>
      let colon := match gap with [] => u16 ":" | _ => u16 ": " end in
      let parts :=
        List.flat_map
          (fun kv => match serialize gap indent' (snd kv) with
                     | Some t => [quote (fst kv) ++ colon ++ t]
                     | None => []
                     end) props in
      Some (wrap gap indent (u16 "{") (u16 "}") parts)
  end.

(** [JSON.stringify(v)]. *)
Definition JSON_stringify (v : jsval) : option jsstring := serialize [] [] v.

(** [JSON.stringify(v, null, 2)]. *)
Definition JSON_stringify_pretty (v : jsval) : option jsstring :=
  serialize (u16 "  ") [] v.

End JS.


(* ===================================================================== *)
(** ** Data model *)
(* ===================================================================== *)

Import JS.

(** An exception: [new Error(message)]. *)
Record JsError := mkError { message : jsstring }.

Inductive result (A : Type) : Type :=
| Ok (a : A)
| Throw (e : JsError).
Arguments Ok {A} a.
Arguments Throw {A} e.

(** One entry of [config.employees]. *)
Module Employee.
Record t := mk {
  assistantId : jsstring;
  name : jsstring;
  role : jsstring;
  specialty : jsstring;
  webhookUrl : jsstring
}.
End Employee.

(** A tool call as the provider hands it over: [toolCall.id],
    [toolCall.function.name] and the JSON text [toolCall.function.arguments]. *)
Module ToolCall.
Record t := mk {
  id : jsstring;
  function_name : jsstring;
  function_arguments : jsstring
}.
End ToolCall.

(** The body posted to an employee's webhook.  Instants are milliseconds since
    the epoch; an ISO timestamp is modelled by the instant it denotes. *)
Module Payload.
Record t := mk {
  tool_call_id : jsstring;
  function_name : jsstring;
  arguments : jsval;
  thread_id : jsstring;
  run_id : jsstring;
  employee_id : jsstring;
  employee_name : jsstring;
  employee_role : jsstring;
  timestamp : Z;
  retry_count : Z
}.
End Payload.

(** A value of the [pendingCalls] map.  The properties the code adds later
    ([lastError], [status], ...) are [None] while absent. *)
Module PendingCall.
Record t := mk {
  threadId : jsstring;
  runId : jsstring;
  employeeId : jsstring;
  functionName : jsstring;
  timestamp : Z;
  arguments : jsval;
  retryCount : Z;
  webhookUrl : jsstring;
  payload : Payload.t;
  lastError : option jsstring;
  lastAttempt : option Z;
  status : option jsstring;
  finalError : option jsstring;
  failedAt : option Z;
  processedAt : option Z
}.

(** [pc.retryCount = n; pc.lastError = e; pc.lastAttempt = at]. *)
Definition noteRetry (pc : t) (n : Z) (e : jsstring) (at_ : Z) : t :=
  mk (threadId pc) (runId pc) (employeeId pc) (functionName pc) (timestamp pc)
     (arguments pc) n (webhookUrl pc) (payload pc)
     (Some e) (Some at_) (status pc) (finalError pc) (failedAt pc)
     (processedAt pc).

(** [pc.status = 'failed'; pc.finalError = e; pc.failedAt = at]. *)
Definition noteFailed (pc : t) (e : jsstring) (at_ : Z) : t :=
  mk (threadId pc) (runId pc) (employeeId pc) (functionName pc) (timestamp pc)
     (arguments pc) (retryCount pc) (webhookUrl pc) (payload pc)
     (lastError pc) (lastAttempt pc) (Some (u16 "failed")) (Some e) (Some at_)
     (processedAt pc).

(** [pc.processedAt = at; pc.status = 'processed']. *)
Definition noteProcessed (pc : t) (at_ : Z) : t :=
  mk (threadId pc) (runId pc) (employeeId pc) (functionName pc) (timestamp pc)
     (arguments pc) (retryCount pc) (webhookUrl pc) (payload pc)
     (lastError pc) (lastAttempt pc) (Some (u16 "processed")) (finalError pc)
     (failedAt pc) (Some at_).
End PendingCall.

(** The body of an inbound webhook response; an absent property is
    [JUndefined]. *)
Module ResponseData.
Record t := mk {
  tool_call_id : jsval;
  output : jsval;
  thread_id : jsval;
  run_id : jsval
}.
End ResponseData.

(** What [processWebhookResponse] returns. *)
Module ProcessedResponse.
Record t := mk {
  tool_call_id : jsval;
  output : jsstring;
  thread_id : jsval;
  run_id : jsval;
  employee_id : jsstring;
  employee_name : option jsstring;
  processed_at : Z;
  output_size : Z;
  validation_passed : bool
}.
End ProcessedResponse.

(** The per-call record [sendToolCalls] collects. *)
Module DeliveryResult.
Inductive t :=
| sent (toolCallId employeeId employeeName webhookUrl : jsstring)
       (response : jsval) (attempt : Z) (response_time : jsstring)
| error (toolCallId employeeId : jsstring) (employeeName : option jsstring)
        (error_message : jsstring) (retryable : option bool).

Definition status (r : t) : jsstring :=
  match r with
  | sent _ _ _ _ _ _ _ => u16 "sent"
  | error _ _ _ _ _ => u16 "error"
  end.

Definition toolCallId (r : t) : jsstring :=
  match r with
  | sent i _ _ _ _ _ _ => i
  | error i _ _ _ _ => i
  end.
End DeliveryResult.

(** What the HTTP transport answers to one request: a response with its
    status, or no response at all. *)
Module Http.
Record response := mk {
  status : Z;
  statusText : jsstring;
  data : jsval;
  x_response_time : option jsstring
}.

Inductive outcome :=
| answered (r : response)
| failed (reason : jsstring).
End Http.

(** The instance state of [class WebhookHandler]. *)
Module Handler.
Record t := mk {
  webhookSecret : option jsstring;
  pendingCalls : gmap jsstring PendingCall.t;
  retryAttempts : Z;
  retryDelay : Z;
  maxRetryDelay : Z
}.

(** The constructor. *)
Definition new (secret : option jsstring) : t := mk secret ∅ 5 2000 10000.

Definition withPendingCalls (h : t) (m : gmap jsstring PendingCall.t) : t :=
  mk (webhookSecret h) m (retryAttempts h) (retryDelay h) (maxRetryDelay h).
End Handler.

(** The conversation provider's view of a run and of a finished poll. *)
Module Run.
Record t := mk {
  id : jsstring;
  status : jsstring
}.
End Run.

Module PollResult.
Record t := mk {
  status : jsstring;
  toolCalls : option (list ToolCall.t)
}.
End PollResult.

(* ===================================================================== *)
(** ** The outside world and the effect monad *)
(* ===================================================================== *)

(** What the process writes to [console.warn] and [console.error] while it
    correlates a response.  ([console.log] lines, and the clock readings made
    only to format them, are not part of the model.) *)
Inductive Signal :=
| ValidationErrors (errors : list jsstring)
| ReceivedData (r : ResponseData.t)
| LargeOutput (size : Z)
| OutputProcessingError (reason : jsstring)
| OriginalOutput (v : jsval)
| NoPendingCallFound (id : jsval)
| AvailablePendingIds (ids : gset jsstring)
| SimilarPendingIds (ids : gset jsstring)
| ProcessingWithoutValidation
| CorrelationMismatch (reason : jsstring).

Inductive Level := LevelWarn | LevelError.

Definition level (s : Signal) : Level :=
  match s with
  | LargeOutput _ | NoPendingCallFound _ | AvailablePendingIds _
  | SimilarPendingIds _ | ProcessingWithoutValidation => LevelWarn
  | ValidationErrors _ | ReceivedData _ | OutputProcessingError _
  | OriginalOutput _ | CorrelationMismatch _ => LevelError
  end.

(** A request to the conversation provider. *)
Inductive ProviderCall :=
| RunsList (threadId : jsstring)
| CreateThread
| AddMessage (threadId message_ : jsstring)
| RunAssistant (threadId assistantId : jsstring)
| PollRunStatus (threadId runId : jsstring) (maxAttempts interval : Z)
| GetLatestAssistantMessage (threadId : jsstring)
| SubmitToolOutputs (threadId runId : jsstring) (tool_call_id : jsval)
                    (output : jsstring).

(** Whether a provider request changes the conversation. *)
Definition mutates (c : ProviderCall) : bool :=
  match c with
  | RunsList _ | PollRunStatus _ _ _ _ | GetLatestAssistantMessage _ => false
  | CreateThread | AddMessage _ _ | RunAssistant _ _
  | SubmitToolOutputs _ _ _ _ => true
  end.

(** The observable effects of a computation, oldest first. *)
Inductive Event :=
| EvConsole (s : Signal)
| EvPost (webhookUrl : jsstring) (payload : Payload.t) (attempt maxAttempts : Z)
| EvSleep (ms : Z)
| EvProvider (c : ProviderCall).

(** Everything the code reads from outside itself.  An oracle indexed by a
    counter answers the n-th reading or request, so that every history of
    answers is some environment. *)
Record Env := mkEnv {
  employees : gmap jsstring Employee.t;
  openaiService : bool;
  clock : nat -> Z;
  JSON_parse : jsstring -> result jsval;
  transport : nat -> jsstring -> Payload.t -> Http.outcome;
  provider_runs_list : nat -> jsstring -> result (list Run.t);
  provider_createThread : nat -> result jsstring;
  provider_addMessage : nat -> jsstring -> jsstring -> result unit;
  provider_runAssistant : nat -> jsstring -> jsstring -> result jsstring;
  provider_pollRunStatus : nat -> jsstring -> jsstring -> result PollResult.t;
  provider_getLatestAssistantMessage : nat -> jsstring -> result jsstring;
  provider_submitToolOutputs :
    nat -> jsstring -> jsstring -> jsval -> jsstring -> result jsstring
}.

(** The mutable state: the handler instance, how many clock readings and
    external requests were made, and the effects so far. *)
Record World := mkWorld {
  handler : Handler.t;
  reads : nat;
  requests : nat;
  trace : list Event
}.

Definition store (w : World) : gmap jsstring PendingCall.t :=
  Handler.pendingCalls (handler w).

Definition M (A : Type) : Type := Env -> World -> result A * World.

Definition ret {A} (a : A) : M A := fun _ w => (Ok a, w).

Definition bind {A B} (m : M A) (k : A -> M B) : M B :=
  fun env w =>
    match m env w with
    | (Ok a, w') => k a env w'
    | (Throw e, w') => (Throw e, w')
    end.

Definition throw {A} (e : JsError) : M A := fun _ w => (Throw e, w).

(** [try { m } catch (error) { h error }]. *)
Definition try_catch {A} (m : M A) (h : JsError -> M A) : M A :=
  fun env w =>
    match m env w with
    | (Ok a, w') => (Ok a, w')
    | (Throw e, w') => h e env w'
    end.

Declare Scope js_scope.
Delimit Scope js_scope with js.
Notation "'let*' x ':=' m 'in' k" := (bind m (fun x => k))
  (at level 10, x pattern, m at level 100, k at level 200) : js_scope.
Notation "m ';;' k" := (bind m (fun _ => k))
  (at level 100, k at level 200, right associativity) : js_scope.
Local Open Scope js_scope.

Definition getEnv : M Env := fun env w => (Ok env, w).

Definition getHandler : M Handler.t := fun _ w => (Ok (handler w), w).

Definition getPending : M (gmap jsstring PendingCall.t) :=
  fun _ w => (Ok (store w), w).

Definition setPending (m : gmap jsstring PendingCall.t) : M unit :=
  fun _ w =>
    (Ok tt, mkWorld (Handler.withPendingCalls (handler w) m)
                    (reads w) (requests w) (trace w)).

(** [Date.now()] / [new Date()]. *)
Definition now : M Z :=
  fun env w =>
    (Ok (clock env (reads w)),
     mkWorld (handler w) (S (reads w)) (requests w) (trace w)).

Definition emit (e : Event) : M unit :=
  fun _ w => (Ok tt, mkWorld (handler w) (reads w) (requests w) (trace w ++ [e])).

Definition warn (s : Signal) : M unit := emit (EvConsole s).

(** [await new Promise(resolve => setTimeout(resolve, ms))]. *)
Definition sleep (ms : Z) : M unit := emit (EvSleep ms).

(** Issue the next external request and hand its index to [k]. *)
Definition request {A} (e : Event) (k : Env -> nat -> result A) : M A :=
  fun env w =>
    (k env (requests w),
     mkWorld (handler w) (reads w) (S (requests w)) (trace w ++ [e])).

(** [axios.post(webhookUrl, payload, axiosConfig)] with
    [validateStatus: status => status < 500]: a response the validator
    refuses, or no response, rejects the promise. *)
Definition axios_post (webhookUrl : jsstring) (payload : Payload.t)
    (attempt maxAttempts : Z) : M Http.response :=
  request (EvPost webhookUrl payload attempt maxAttempts)
    (fun env n =>
       match transport env n webhookUrl payload with
       | Http.answered r =>
           if Http.status r <? 500 then Ok r
           else Throw (mkError (u16 "Request failed with status code "
                                  ++ Number_toString (Http.status r)))
       | Http.failed reason => Throw (mkError reason)
       end).

(* ===================================================================== *)
(** ** class WebhookHandler *)
(* ===================================================================== *)

Module WebhookHandler.

(** [getWebhookUrlForEmployee(employeeId)]. *)
Definition getWebhookUrlForEmployee (employeeId : jsstring) : M jsstring :=
  let* env := getEnv in
  match employees env !! employeeId with
  | None =>
      throw (mkError (u16 "Employee '" ++ employeeId
                        ++ u16 "' not found in configuration"))
  | Some employee =>
      if negb (truthy (JStr (Employee.webhookUrl employee)))
         || includes (Employee.webhookUrl employee) (u16 "placeholder")
      then throw (mkError (u16 "Webhook URL not configured for employee '"
                             ++ Employee.name employee ++ u16 "'"))
      else ret (Employee.webhookUrl employee)
  end.

(** [config.employees[employeeId]] where the code reads a property of it. *)
Definition employeeOf (employeeId : jsstring) : M Employee.t :=
  let* env := getEnv in
  match employees env !! employeeId with
  | Some employee => ret employee
  | None =>
      throw (mkError (u16 "Cannot read properties of undefined (reading 'name')"))
  end.

(** [Math.min(this.retryDelay * Math.pow(2, attempt - 1), this.maxRetryDelay)],
    for [attempt >= 1]. *)
Definition backoffDelay (attempt retryDelay maxRetryDelay : Z) : Z :=
  Z.min (retryDelay * 2 ^ (attempt - 1)) maxRetryDelay.

(** [pendingCall = this.pendingCalls.get(id); if (pendingCall) { update }]:
    the stored object is mutated in place. *)
Definition updatePending (id : jsstring)
    (update : PendingCall.t -> M PendingCall.t) : M unit :=
  let* pending := getPending in
  match pending !! id with
  | Some pendingCall =>
      let* pendingCall' := update pendingCall in
      let* pending' := getPending in
      setPending (<[id := pendingCall']> pending')
  | None => ret tt
  end.

(** [sendWebhookWithRetry(payload, webhookUrl, attempt)].  The method calls
    itself with [attempt + 1] while [attempt < maxAttempts]; [fuel] bounds the
    depth of that recursion. *)
Fixpoint sendWebhookWithRetry_from (fuel : nat) (payload : Payload.t)
    (webhookUrl : jsstring) (attempt : Z) : M DeliveryResult.t :=
  let* this := getHandler in
  let maxAttempts := Handler.retryAttempts this in
  try_catch
    (let delay := backoffDelay attempt (Handler.retryDelay this)
                               (Handler.maxRetryDelay this) in
     let* requestStamp := now in
     let* response := axios_post webhookUrl payload attempt maxAttempts in
     if Http.status response >=? 400
     then throw (mkError (u16 "Webhook returned "
                            ++ Number_toString (Http.status response)
                            ++ u16 ": " ++ Http.statusText response ++ u16 " - "
                            ++ default (u16 "undefined")
                                 (JSON_stringify (Http.data response))))
     else ret (DeliveryResult.sent
                 (Payload.tool_call_id payload) (Payload.employee_id payload)
                 (Payload.employee_name payload) webhookUrl
                 (Http.data response) attempt
                 (match Http.x_response_time response with
                  | Some t => if truthy (JStr t) then t else u16 "unknown"
                  | None => u16 "unknown"
                  end)))
    (fun error =>
       if attempt <? maxAttempts then
         let delay := backoffDelay attempt (Handler.retryDelay this)
                                   (Handler.maxRetryDelay this) in
         updatePending (Payload.tool_call_id payload)
           (fun pendingCall =>
              let* at_ := now in
              ret (PendingCall.noteRetry pendingCall attempt (message error) at_));;
         sleep delay;;
         match fuel with
         | S fuel' =>
             sendWebhookWithRetry_from fuel' payload webhookUrl (attempt + 1)
         | O => throw (mkError (u16 "Maximum call stack size exceeded"))
         end
       else
         updatePending (Payload.tool_call_id payload)
           (fun pendingCall =>
              let* at_ := now in
              ret (PendingCall.noteFailed pendingCall (message error) at_));;
         throw (mkError (Payload.employee_name payload
                           ++ u16 " webhook failed after "
                           ++ Number_toString maxAttempts
                           ++ u16 " attempts: " ++ message error))).

(** The number of nested calls an invocation at [attempt] can need. *)
Definition retryDepth (this : Handler.t) (attempt : Z) : nat :=
  Z.to_nat (Handler.retryAttempts this - attempt).

Definition sendWebhookWithRetry (payload : Payload.t) (webhookUrl : jsstring)
    (attempt : Z) : M DeliveryResult.t :=
  let* this := getHandler in
  sendWebhookWithRetry_from (retryDepth this attempt) payload webhookUrl attempt.

(** One iteration of the [for (const toolCall of toolCalls)] loop. *)
Definition sendToolCall (toolCall : ToolCall.t)
    (threadId runId employeeId webhookUrl : jsstring)
    (results : list DeliveryResult.t) : M (list DeliveryResult.t) :=
  try_catch
    (let* env := getEnv in
     let* arguments :=
       (fun _ w => (JSON_parse env (ToolCall.function_arguments toolCall), w)) in
     let* employee := employeeOf employeeId in
     let* stamp := now in
     let payload :=
       Payload.mk (ToolCall.id toolCall) (ToolCall.function_name toolCall)
                  arguments threadId runId employeeId
                  (Employee.name employee) (Employee.role employee) stamp 0 in
     let* created := now in
     let* pending := getPending in
     setPending
       (<[ToolCall.id toolCall :=
            PendingCall.mk threadId runId employeeId
              (ToolCall.function_name toolCall) created arguments 0 webhookUrl
              payload None None None None None None]> pending);;
     let* result := sendWebhookWithRetry payload webhookUrl 1 in
     ret (results ++ [result]))
    (fun error =>
       ret (results ++ [DeliveryResult.error (ToolCall.id toolCall) employeeId
                          None (message error) (Some true)])).

Fixpoint sendToolCalls_loop (toolCalls : list ToolCall.t)
    (threadId runId employeeId webhookUrl : jsstring)
    (results : list DeliveryResult.t) : M (list DeliveryResult.t) :=
  match toolCalls with
  | [] => ret results
  | toolCall :: rest =>
      let* results' :=
        sendToolCall toolCall threadId runId employeeId webhookUrl results in
      sendToolCalls_loop rest threadId runId employeeId webhookUrl results'
  end.

(** [sendToolCalls(toolCalls, threadId, runId, employeeId)]. *)
Definition sendToolCalls (toolCalls : list ToolCall.t)
    (threadId runId employeeId : jsstring) : M (list DeliveryResult.t) :=
  let* webhookUrl :=
    try_catch
      (let* url := getWebhookUrlForEmployee employeeId in
       let* _ := employeeOf employeeId in
       ret url)
      (fun error => throw error) in
  let* _ := employeeOf employeeId in
  sendToolCalls_loop toolCalls threadId runId employeeId webhookUrl [].

(** The checks at the head of [processWebhookResponse], every failed one
    adding its line. *)
Definition validationErrors (responseData : ResponseData.t) : list jsstring :=
  let tool_call_id := ResponseData.tool_call_id responseData in
  let output := ResponseData.output responseData in
  let thread_id := ResponseData.thread_id responseData in
  let run_id := ResponseData.run_id responseData in
  (if negb (truthy tool_call_id) || negb (jstype_eqb (typeof tool_call_id) TString)
   then [u16 "tool_call_id must be a non-empty string"] else [])
  ++ (if is_nullish output
      then [u16 "output cannot be undefined or null"] else [])
  ++ (if negb (truthy thread_id) || negb (jstype_eqb (typeof thread_id) TString)
      then [u16 "thread_id must be a non-empty string"] else [])
  ++ (if negb (truthy run_id) || negb (jstype_eqb (typeof run_id) TString)
      then [u16 "run_id must be a non-empty string"] else []).

(** The conversion by type of the output ([undefined] is [None]). *)
Definition stringifyOutput (output : jsval) : option jsstring :=
  match typeof output with
  | TObject => JSON_stringify_pretty output
  | TString => Some (trim (str_of output))
  | TNumber | TBoolean => Some (String_of output)
  | TUndefined => JSON_stringify output
  end.

(** The size limit of an output and what is appended when it is exceeded. *)
Definition outputLimit : Z := 100000.

Definition truncationMarker : jsstring :=
  newline ++ newline ++ u16 "[Output truncated due to size limit]".

(** The output-processing block of [processWebhookResponse]: conversion,
    emptiness check, size limit; any exception in it is re-thrown as
    "Invalid output format". *)
Definition processOutput (output : jsval) : M jsstring :=
  try_catch
    (match stringifyOutput output with
     | None => throw (mkError (u16 "Processed output is empty"))
     | Some processedOutput =>
         if negb (truthy (JStr processedOutput))
            || bool_decide (trim processedOutput = [])
         then throw (mkError (u16 "Processed output is empty"))
         else if jslength processedOutput >? outputLimit
         then warn (LargeOutput (jslength processedOutput));;
              ret (substring0 processedOutput outputLimit ++ truncationMarker)
         else ret processedOutput
     end)
    (fun error =>
       warn (OutputProcessingError (message error));;
       warn (OriginalOutput output);;
       throw (mkError (u16 "Invalid output format: " ++ message error))).

(** [this.pendingCalls.get(key)] and [this.pendingCalls.delete(key)] for an
    arbitrary value as key: the keys of the map are strings. *)
Definition mapGet (pending : gmap jsstring PendingCall.t) (key : jsval)
    : option PendingCall.t :=
  match key with
  | JStr id => pending !! id
  | _ => None
  end.

Definition mapDelete (pending : gmap jsstring PendingCall.t) (key : jsval)
    : gmap jsstring PendingCall.t :=
  match key with
  | JStr id => delete id pending
  | _ => pending
  end.

Definition mapSet (pending : gmap jsstring PendingCall.t) (key : jsval)
    (pendingCall : PendingCall.t) : gmap jsstring PendingCall.t :=
  match key with
  | JStr id => <[id := pendingCall]> pending
  | _ => pending
  end.

(** The stored identifiers that share a ten-unit prefix with the inbound one. *)
Definition similarIds (pending : gmap jsstring PendingCall.t)
    (tool_call_id : jsstring) : gset jsstring :=
  filter (fun id => Is_true (includes id (substring0 tool_call_id 10)
                             || includes tool_call_id (substring0 id 10)))
         (dom pending).

(** [processWebhookResponse(responseData)]. *)
Definition processWebhookResponse (responseData : ResponseData.t)
    : M ProcessedResponse.t :=
  let tool_call_id := ResponseData.tool_call_id responseData in
  let output := ResponseData.output responseData in
  let thread_id := ResponseData.thread_id responseData in
  let run_id := ResponseData.run_id responseData in
  let errors := validationErrors responseData in
  (if Z.of_nat (length errors) >? 0
   then warn (ValidationErrors errors);;
        warn (ReceivedData responseData);;
        throw (mkError (u16 "Webhook response validation failed: "
                          ++ join (u16 ", ") errors))
   else ret tt);;
  let* processedOutput := processOutput output in
  let* pending := getPending in
  let pendingCall := mapGet pending tool_call_id in
  match pendingCall with
  | None =>
      warn (NoPendingCallFound tool_call_id);;
      warn (AvailablePendingIds (dom pending));;
      let similar := similarIds pending (str_of tool_call_id) in
      (if bool_decide (similar = ∅) then ret tt
       else warn (SimilarPendingIds similar));;
      warn ProcessingWithoutValidation
  | Some pendingCall =>
      if differs (PendingCall.threadId pendingCall) thread_id then
        let reason := u16 "Thread ID mismatch! Expected: "
                        ++ PendingCall.threadId pendingCall
                        ++ u16 ", Received: " ++ str_of thread_id in
        warn (CorrelationMismatch reason);;
        throw (mkError reason)
      else if differs (PendingCall.runId pendingCall) run_id then
        let reason := u16 "Run ID mismatch! Expected: "
                        ++ PendingCall.runId pendingCall
                        ++ u16 ", Received: " ++ str_of run_id in
        warn (CorrelationMismatch reason);;
        throw (mkError reason)
      else
        let* at_ := now in
        setPending (mapSet pending tool_call_id
                      (PendingCall.noteProcessed pendingCall at_));;
        let* pending' := getPending in
        setPending (mapDelete pending' tool_call_id)
  end;;
  let* env := getEnv in
  let* processed_at := now in
  ret (ProcessedResponse.mk
         tool_call_id processedOutput thread_id run_id
         (match pendingCall with
          | Some pc => if truthy (JStr (PendingCall.employeeId pc))
                       then PendingCall.employeeId pc else u16 "unknown"
          | None => u16 "unknown"
          end)
         (match pendingCall with
          | Some pc => if truthy (JStr (PendingCall.employeeId pc))
                       then Employee.name <$> employees env !! PendingCall.employeeId pc
                       else Some (u16 "unknown")
          | None => Some (u16 "unknown")
          end)
         processed_at (jslength processedOutput) true).

(** One element of what [getPendingCalls] returns: the stored entry with
    the derived properties. *)
Module PendingView.
Record t := mk {
  toolCallId : jsstring;
  call : PendingCall.t;
  employeeName : jsstring;
  age_seconds : Z;
  status : jsstring
}.
End PendingView.

(** [Math.round((now - timestamp) / 1000)]. *)
Definition ageSeconds (now_ timestamp : Z) : Z := (now_ - timestamp + 500) / 1000.

Fixpoint viewEntries (entries : list (jsstring * PendingCall.t))
    : M (list PendingView.t) :=
  match entries with
  | [] => ret []
  | (id, data) :: rest =>
      let* env := getEnv in
      let* now_ := now in
      let view :=
        PendingView.mk id data
          (match Employee.name <$> employees env !! PendingCall.employeeId data with
           | Some n => if truthy (JStr n) then n else u16 "Unknown"
           | None => u16 "Unknown"
           end)
          (ageSeconds now_ (PendingCall.timestamp data))
          (match PendingCall.status data with
           | Some s => if truthy (JStr s) then s else u16 "pending"
           | None => u16 "pending"
           end) in
      let* views := viewEntries rest in
      ret (view :: views)
  end.

(** [getPendingCalls()]; the order of the entries is the map's. *)
Definition getPendingCalls : M (list PendingView.t) :=
  let* pending := getPending in
  viewEntries (map_to_list pending).

Definition twoHours : Z := 2 * 60 * 60 * 1000.
Definition oneDay : Z := 24 * 60 * 60 * 1000.

(** The body of the sweep's loop over [this.pendingCalls.entries()]. *)
Fixpoint cleanup_loop (entries : list (jsstring * PendingCall.t))
    (twoHoursAgo oneDayAgo : Z) (cleanedCount archivedCount : Z) : M (Z * Z) :=
  match entries with
  | [] => ret (cleanedCount, archivedCount)
  | (id, data) :: rest =>
      if PendingCall.timestamp data <? oneDayAgo then
        let* pending := getPending in
        setPending (delete id pending);;
        cleanup_loop rest twoHoursAgo oneDayAgo (cleanedCount + 1) archivedCount
      else if (PendingCall.timestamp data <? twoHoursAgo)
              && bool_decide (PendingCall.status data = Some (u16 "failed")) then
        let* pending := getPending in
        setPending (delete id pending);;
        cleanup_loop rest twoHoursAgo oneDayAgo cleanedCount (archivedCount + 1)
      else
        cleanup_loop rest twoHoursAgo oneDayAgo cleanedCount archivedCount
  end.

(** [cleanupPendingCalls()]. *)
Definition cleanupPendingCalls : M unit :=
  let* t1 := now in
  let twoHoursAgo := t1 - twoHours in
  let* t2 := now in
  let oneDayAgo := t2 - oneDay in
  let* pending := getPending in
  let* counts := cleanup_loop (map_to_list pending) twoHoursAgo oneDayAgo 0 0 in
  ret tt.

End WebhookHandler.

(* ===================================================================== *)
(** ** middleware/validation *)
(* ===================================================================== *)

(** What a handler or a middleware does with a request: it answers with a
    status code and a body, or hands an error to [next]. *)
Inductive ReplyBody :=
| ServiceUnavailable
| EmployeeNotFound (employee : jsstring)
| AssistantNotConfigured (employee : Employee.t)
| ThreadBusyWithToolCalls (thread_id run_id : jsstring)
                          (pending_tool_calls : Z) (employee : Employee.t)
| ThreadBusy (thread_id run_id current_status : jsstring) (employee : Employee.t)
| WebhookNotConfigured (employee : Employee.t)
                       (tool_calls : list (jsstring * jsstring * jsval))
                       (thread_id run_id : jsstring)
| TurnCompleted (message_ thread_id run_id assistant_id : jsstring)
                (employee : Employee.t) (timestamp : Z)
| TurnRequiresAction (thread_id run_id assistant_id : jsstring)
                     (employee : Employee.t)
                     (tool_calls : list (jsstring * jsstring * jsval))
                     (webhook_results : list DeliveryResult.t) (timestamp : Z)
| MissingRequiredFields (missing : list jsstring)
| InvalidFieldTypes
| ResumeCompleted (message_ : jsstring) (r : ProcessedResponse.t) (timestamp : Z)
| ResumeRequiresAction (r : ProcessedResponse.t)
                       (tool_calls : list (jsstring * jsstring * jsval))
                       (timestamp : Z)
| ResumeOther (status current_status : jsstring) (r : ProcessedResponse.t)
              (timestamp : Z).

Inductive Outcome :=
| Respond (statusCode : Z) (body : ReplyBody)
| Next (error details : jsstring).

Module Validation.

(** [validateWebhookResponse(req, res, next)]; [None] is the call of
    [next()]. *)
Definition validateWebhookResponse (body : ResponseData.t) : option Outcome :=
  let requiredFields :=
    [(u16 "tool_call_id", ResponseData.tool_call_id body);
     (u16 "output", ResponseData.output body);
     (u16 "thread_id", ResponseData.thread_id body);
     (u16 "run_id", ResponseData.run_id body)] in
  let missingFields :=
    List.filter (fun item => negb (truthy (snd item))) requiredFields in
  if Z.of_nat (length missingFields) >? 0 then
    Some (Respond 400 (MissingRequiredFields (List.map fst missingFields)))
  else if negb (jstype_eqb (typeof (ResponseData.tool_call_id body)) TString)
          || negb (jstype_eqb (typeof (ResponseData.thread_id body)) TString)
          || negb (jstype_eqb (typeof (ResponseData.run_id body)) TString) then
    Some (Respond 400 InvalidFieldTypes)
  else None.

End Validation.

(* ===================================================================== *)
(** ** routes *)
(* ===================================================================== *)

(** The body of a POST /ask request that passed [validateAskRequest]:
    [message] is a non-empty string; [employee] and [thread_id] may be
    absent. *)
Module AskRequest.
Record t := mk {
  message_ : jsstring;
  employee : option jsstring;
  thread_id : option jsstring
}.
End AskRequest.

Module Routes.
Import WebhookHandler.

(** [while (retries > 0) { try { action; break } catch (error) { retries--;
    ...; if (retries === 0) exhausted; await pause } }], entered with
    [retries = more + 1].  [fatal] is the check some loops make before they
    look at the count. *)
Fixpoint retrying {A} (more : nat) (pause : Z) (action : M A)
    (fatal : JsError -> option JsError) (exhausted : JsError -> M A) : M A :=
  try_catch action
    (fun error =>
       match fatal error with
       | Some error' => throw error'
       | None =>
           match more with
           | O => exhausted error
           | S more' =>
               sleep pause;;
               retrying more' pause action fatal exhausted
           end
       end).

Definition provider {A} (c : ProviderCall) (k : Env -> nat -> result A) : M A :=
  request (EvProvider c) k.

Definition activeStatuses : list jsstring :=
  [u16 "queued"; u16 "in_progress"; u16 "requires_action"].

(** Step 1 of POST /ask when the request names a thread: look at the latest
    run.  [Some] is an answer already sent; [None] lets the turn go on. *)
Definition checkActiveRun (threadId : jsstring) (employeeConfig : Employee.t)
    : M (option Outcome) :=
  try_catch
    (let* runs :=
       provider (RunsList threadId)
         (fun env n => provider_runs_list env n threadId) in
     match runs with
     | latestRun :: _ =>
         if bool_decide (Run.status latestRun ∈ activeStatuses) then
           if bool_decide (Run.status latestRun = u16 "requires_action") then
             let* calls := getPendingCalls in
             let pendingCalls :=
               List.filter
                 (fun view =>
                    bool_decide (PendingCall.threadId (PendingView.call view) = threadId)
                    && bool_decide (PendingCall.runId (PendingView.call view)
                                    = Run.id latestRun))
                 calls in
             if Z.of_nat (length pendingCalls) >? 0 then
               ret (Some (Respond 409
                            (ThreadBusyWithToolCalls threadId (Run.id latestRun)
                               (Z.of_nat (length pendingCalls)) employeeConfig)))
             else ret None
           else
             ret (Some (Respond 409
                          (ThreadBusy threadId (Run.id latestRun)
                             (Run.status latestRun) employeeConfig)))
         else ret None
     | [] => ret None
     end)
    (fun runCheckError => ret None).

(** The test of the message loop for the provider's "a run is active" error. *)
Definition activeRunError (employeeConfig : Employee.t) (error : JsError)
    : option JsError :=
  if truthy (JStr (message error))
     && includes (message error) (u16 "while a run")
     && includes (message error) (u16 "is active")
  then Some (mkError (u16 "Cannot add message to " ++ Employee.name employeeConfig
                        ++ u16 "'s thread while processing. Please wait for the current operation to complete or check for pending tool calls."))
  else None.

Definition noFatal (error : JsError) : option JsError := None.

(** [toolCalls.map(tc => ({ id, function, arguments: JSON.parse(...) }))]. *)
Fixpoint describeToolCalls (toolCalls : list ToolCall.t)
    : M (list (jsstring * jsstring * jsval)) :=
  match toolCalls with
  | [] => ret []
  | tc :: rest =>
      let* env := getEnv in
      let* arguments :=
        (fun _ w => (JSON_parse env (ToolCall.function_arguments tc), w)) in
      let* others := describeToolCalls rest in
      ret ((ToolCall.id tc, ToolCall.function_name tc, arguments) :: others)
  end.

(** [result.toolCalls] where the code calls a method of it. *)
Definition toolCallsOf (result : PollResult.t) : M (list ToolCall.t) :=
  match PollResult.toolCalls result with
  | Some toolCalls => ret toolCalls
  | None =>
      throw (mkError (u16 "Cannot read properties of undefined (reading 'map')"))
  end.

(** Steps 2 to 4 of POST /ask and the branch on the run's status. *)
Definition runTurn (message_ threadId employeeId assistantId : jsstring)
    (employeeConfig : Employee.t) : M Outcome :=
  retrying 2 1000
    (provider (AddMessage threadId message_)
       (fun env n => provider_addMessage env n threadId message_))
    (activeRunError employeeConfig) throw;;
  let* runId :=
    retrying 2 1000
      (provider (RunAssistant threadId assistantId)
         (fun env n => provider_runAssistant env n threadId assistantId))
      noFatal throw in
  let* result :=
    retrying 1 2000
      (provider (PollRunStatus threadId runId 45 2000)
         (fun env n => provider_pollRunStatus env n threadId runId))
      noFatal throw in
  if bool_decide (PollResult.status result = u16 "completed") then
    let* content :=
      retrying 2 1000
        (provider (GetLatestAssistantMessage threadId)
           (fun env n => provider_getLatestAssistantMessage env n threadId))
        noFatal throw in
    let* stamp := now in
    ret (Respond 200
           (TurnCompleted content threadId runId assistantId employeeConfig stamp))
  else if bool_decide (PollResult.status result = u16 "requires_action") then
    if negb (truthy (JStr (Employee.webhookUrl employeeConfig)))
       || includes (Employee.webhookUrl employeeConfig) (u16 "placeholder") then
      let* toolCalls := toolCallsOf result in
      let* described := describeToolCalls toolCalls in
      ret (Respond 503
             (WebhookNotConfigured employeeConfig described threadId runId))
    else
      let* toolCalls := toolCallsOf result in
      let* webhookResults :=
        retrying 2 2000
          (sendToolCalls toolCalls threadId runId employeeId)
          noFatal
          (fun error =>
             ret (List.map
                    (fun tc =>
                       DeliveryResult.error (ToolCall.id tc) employeeId
                         (Some (Employee.name employeeConfig))
                         (u16 "Failed to send to webhook after multiple attempts")
                         None)
                    toolCalls)) in
      let* described := describeToolCalls toolCalls in
      let* stamp := now in
      ret (Respond 200
             (TurnRequiresAction threadId runId assistantId employeeConfig
                described webhookResults stamp))
  else
    throw (mkError (u16 "Unexpected assistant status: " ++ PollResult.status result)).

(** The handler of POST /ask. *)
Definition askHandler (body : AskRequest.t) : M Outcome :=
  try_catch
    (let* env := getEnv in
     if negb (openaiService env) then ret (Respond 503 ServiceUnavailable)
     else
       let message_ := AskRequest.message_ body in
       let employee := default (u16 "brenden") (AskRequest.employee body) in
       let thread_id :=
         match AskRequest.thread_id body with
         | Some t => if truthy (JStr t) then Some t else None
         | None => None
         end in
       match employees env !! employee with
       | None => ret (Respond 404 (EmployeeNotFound employee))
       | Some employeeConfig =>
           let assistantId := Employee.assistantId employeeConfig in
           if includes assistantId (u16 "placeholder") then
             ret (Respond 503 (AssistantNotConfigured employeeConfig))
           else
             match thread_id with
             | Some threadId =>
                 let* busy := checkActiveRun threadId employeeConfig in
                 match busy with
                 | Some answer => ret answer
                 | None =>
                     runTurn message_ threadId employee assistantId employeeConfig
                 end
             | None =>
                 let* threadId :=
                   retrying 2 1000
                     (provider CreateThread
                        (fun env n => provider_createThread env n))
                     noFatal throw in
                 runTurn message_ threadId employee assistantId employeeConfig
             end
       end)
    (fun error => ret (Next (u16 "Request processing failed") (message error))).

(** [openaiService.submitToolOutputs(thread_id, run_id, [{ tool_call_id,
    output }])]. *)
Definition submitRequest (r : ProcessedResponse.t) : M jsstring :=
  provider
    (SubmitToolOutputs (str_of (ProcessedResponse.thread_id r))
       (str_of (ProcessedResponse.run_id r))
       (ProcessedResponse.tool_call_id r) (ProcessedResponse.output r))
    (fun env n =>
       provider_submitToolOutputs env n
         (str_of (ProcessedResponse.thread_id r))
         (str_of (ProcessedResponse.run_id r))
         (ProcessedResponse.tool_call_id r) (ProcessedResponse.output r)).

(** The handler of POST /webhook-response. *)
Definition webhookResponseHandler (body : ResponseData.t) : M Outcome :=
  try_catch
    (let* env := getEnv in
     if negb (openaiService env) then ret (Respond 503 ServiceUnavailable)
     else
       let* pendingBefore := getPendingCalls in
       let* processedResponse :=
         retrying 2 500 (processWebhookResponse body) noFatal throw in
       let* pendingAfter := getPendingCalls in
       let threadId := str_of (ProcessedResponse.thread_id processedResponse) in
       let runId := str_of (ProcessedResponse.run_id processedResponse) in
       let* submitted := retrying 4 2000 (submitRequest processedResponse)
                           noFatal throw in
       let* result :=
         retrying 2 3000
           (provider (PollRunStatus threadId runId 90 2000)
              (fun env n => provider_pollRunStatus env n threadId runId))
           noFatal
           (fun error => ret (PollResult.mk (u16 "unknown") None)) in
       if bool_decide (PollResult.status result = u16 "completed") then
         let* content :=
           retrying 4 1000
             (provider (GetLatestAssistantMessage threadId)
                (fun env n => provider_getLatestAssistantMessage env n threadId))
             noFatal
             (fun error =>
                ret (u16 "Task completed successfully by "
                       ++ default (u16 "undefined")
                            (ProcessedResponse.employee_name processedResponse)
                       ++ u16 ". The tool call has been processed and the assistant has finished the requested operation.")) in
         let* stamp := now in
         ret (Respond 200 (ResumeCompleted content processedResponse stamp))
       else if bool_decide (PollResult.status result = u16 "requires_action") then
         match PollResult.toolCalls result with
         | Some (_ :: _ as toolCalls) =>
             try_catch
               (let* additional :=
                  sendToolCalls toolCalls threadId runId
                    (ProcessedResponse.employee_id processedResponse) in
                ret tt)
               (fun error => ret tt)
         | _ => ret tt
         end;;
         let* described :=
           match PollResult.toolCalls result with
           | Some toolCalls => describeToolCalls toolCalls
           | None => ret []
           end in
         let* stamp := now in
         ret (Respond 200 (ResumeRequiresAction processedResponse described stamp))
       else
         let* stamp := now in
         ret (Respond 200
                (ResumeOther
                   (if bool_decide (PollResult.status result = u16 "unknown")
                    then u16 "processing" else PollResult.status result)
                   (PollResult.status result) processedResponse stamp)))
    (fun error =>
       ret (Next (u16 "Webhook response processing failed") (message error))).

(** [router.post('/webhook-response', validateWebhookResponse, handler)]:
    the handler runs only when the middleware calls [next()]. *)
Definition webhookResponseRoute (body : ResponseData.t) : M Outcome :=
  match Validation.validateWebhookResponse body with
  | Some answer => ret answer
  | None => webhookResponseHandler body
  end.

End Routes.

(** The employee table of config/index.js. *)
Definition config_employees : gmap jsstring Employee.t :=
  {[ u16 "brenden" :=
       Employee.mk (u16 "asst_MvlMZ3IOvQrTkbsENRSzGRwZ") (u16 "AI Brenden")
         (u16 "lead scraper") (u16 "Lead Research Specialist")
         (u16 "https://hook.eu2.make.com/lxa5qab0magprieff0sujnfkfycwu9x7");
     u16 "van" :=
       Employee.mk (u16 "asst_x0WhKHr61IUopNPR7A8No9kK") (u16 "AI Van")
         (u16 "page operator") (u16 "Digital Marketing Designer")
         (u16 "https://hook.eu2.make.com/6e1mvvrxjd2dm5mbdvlgmxc2sut3r3lk");
     u16 "angel" :=
       Employee.mk (u16 "asst_angel_placeholder") (u16 "AI Angel")
         (u16 "voice caller") (u16 "Voice Outreach Manager")
         (u16 "https://hook.eu2.make.com/angel_webhook_placeholder") ]}.

(* ===================================================================== *)
(** ** class WebhookHandler: inspection and removal *)
(* ===================================================================== *)

(** What [isPending] returns; [null] is [None]. *)
Module PendingStatus.
Record t := mk {
  pending : bool;
  status : option jsstring;
  employeeId : option jsstring;
  employeeName : option jsstring;
  age : option Z
}.
End PendingStatus.

(** What [getPendingCall] returns for a stored call: the entry with the
    derived properties. *)
Module PendingDetail.
Record t := mk {
  call : PendingCall.t;
  employeeName : jsstring;
  age_seconds : Z;
  status : jsstring
}.
End PendingDetail.

(** One value of [stats.employees]. *)
Module EmployeeStats.
Record t := mk {
  name : jsstring;
  role : jsstring;
  webhook_configured : bool;
  webhook_url : jsstring;
  pending_calls : Z
}.

Definition bump (e : t) : t :=
  mk (name e) (role e) (webhook_configured e) (webhook_url e) (pending_calls e + 1).
End EmployeeStats.

(** What [getStatistics] returns; the objects used as tables are finite
    maps over their own keys. *)
Module Stats.
Record t := mk {
  total_pending : Z;
  pending_by_employee : gmap jsstring Z;
  pending_by_status : gmap jsstring Z;
  under_1min : Z;
  under_5min : Z;
  under_30min : Z;
  over_30min : Z;
  oldest_call_age : Z;
  employees : gmap jsstring EmployeeStats.t;
  retry_attempts : Z;
  retry_delay : Z;
  max_retry_delay : Z;
  timestamp : Z
}.
End Stats.

Module Inspection.
Import JS WebhookHandler.
Local Open Scope js_scope.

(** [s || fallback] for a property that is a string or absent. *)
Definition orElse (s : option jsstring) (fallback : jsstring) : jsstring :=
  match s with
  | Some v => if truthy (JStr v) then v else fallback
  | None => fallback
  end.

(** [s || null]. *)
Definition orNull (s : option jsstring) : option jsstring :=
  match s with
  | Some v => if truthy (JStr v) then Some v else None
  | None => None
  end.

(** [isPending(toolCallId)]. *)
Definition isPending (toolCallId : jsstring) : M PendingStatus.t :=
  let* env := getEnv in
  let* pending := getPending in
  match pending !! toolCallId with
  | Some pendingCall =>
      let employee := employees env !! PendingCall.employeeId pendingCall in
      let* now_ := now in
      ret (PendingStatus.mk true
             (orNull (PendingCall.status pendingCall))
             (orNull (Some (PendingCall.employeeId pendingCall)))
             (orNull (Employee.name <$> employee))
             (Some (ageSeconds now_ (PendingCall.timestamp pendingCall))))
  | None => ret (PendingStatus.mk false None None None None)
  end.

(** [getPendingCall(toolCallId)]; [None] is [null]. *)
Definition getPendingCall (toolCallId : jsstring) : M (option PendingDetail.t) :=
  let* env := getEnv in
  let* pending := getPending in
  match pending !! toolCallId with
  | None => ret None
  | Some pendingCall =>
      let employee := employees env !! PendingCall.employeeId pendingCall in
      let* now_ := now in
      ret (Some (PendingDetail.mk pendingCall
                   (orElse (Employee.name <$> employee) (u16 "Unknown"))
                   (ageSeconds now_ (PendingCall.timestamp pendingCall))
                   (orElse (PendingCall.status pendingCall) (u16 "pending"))))
  end.

(** [removePendingCall(toolCallId)]: the result is what [Map.delete]
    returns; the line logged for a removed call reads the clock. *)
Definition removePendingCall (toolCallId : jsstring) : M bool :=
  let* pending := getPending in
  let pendingCall := pending !! toolCallId in
  let removed := bool_decide (is_Some pendingCall) in
  setPending (delete toolCallId pending);;
  (if removed then let* age := now in ret tt else ret tt);;
  ret removed.

(** [(table[key] || 0) + 1]. *)
Definition countUp (table : gmap jsstring Z) (key : jsstring) : gmap jsstring Z :=
  <[key := (match table !! key with
            | Some n => if n =? 0 then 0 else n
            | None => 0
            end) + 1]> table.

(** The body of [pendingCalls.forEach(call => ...)] in [getStatistics]. *)
Definition countCall (stats : Stats.t) (call : PendingView.t) : Stats.t :=
  let employeeId := PendingCall.employeeId (PendingView.call call) in
  let counted := truthy (JStr employeeId) in
  let pending_by_employee :=
    if counted then countUp (Stats.pending_by_employee stats) employeeId
    else Stats.pending_by_employee stats in
  let employees :=
    if counted then
      match Stats.employees stats !! employeeId with
      | Some e => <[employeeId := EmployeeStats.bump e]> (Stats.employees stats)
      | None => Stats.employees stats
      end
    else Stats.employees stats in
  let status :=
    if truthy (JStr (PendingView.status call)) then PendingView.status call
    else u16 "pending" in
  let pending_by_status := countUp (Stats.pending_by_status stats) status in
  let ageSeconds := PendingView.age_seconds call in
  let bucket (hit : bool) (n : Z) : Z := if hit then n + 1 else n in
  Stats.mk (Stats.total_pending stats) pending_by_employee pending_by_status
    (bucket (ageSeconds <? 60) (Stats.under_1min stats))
    (bucket (negb (ageSeconds <? 60) && (ageSeconds <? 300))
            (Stats.under_5min stats))
    (bucket (negb (ageSeconds <? 60) && negb (ageSeconds <? 300)
             && (ageSeconds <? 1800))
            (Stats.under_30min stats))
    (bucket (negb (ageSeconds <? 60) && negb (ageSeconds <? 300)
             && negb (ageSeconds <? 1800))
            (Stats.over_30min stats))
    (if ageSeconds >? Stats.oldest_call_age stats then ageSeconds
     else Stats.oldest_call_age stats)
    employees
    (Stats.retry_attempts stats) (Stats.retry_delay stats)
    (Stats.max_retry_delay stats) (Stats.timestamp stats).

(** [getStatistics()]. *)
Definition getStatistics : M Stats.t :=
  let* pendingCalls := getPendingCalls in
  let* now_ := now in
  let* this := getHandler in
  let* env := getEnv in
  let* stamp := now in
  let stats :=
    Stats.mk (Z.of_nat (length pendingCalls)) ∅ ∅ 0 0 0 0 0 ∅
      (Handler.retryAttempts this) (Handler.retryDelay this)
      (Handler.maxRetryDelay this) stamp in
  let stats :=
    Stats.mk (Stats.total_pending stats)
      ((fun _ => 0) <$> employees env) (Stats.pending_by_status stats)
      0 0 0 0 0
      ((fun employee =>
          EmployeeStats.mk (Employee.name employee) (Employee.role employee)
            (truthy (JStr (Employee.webhookUrl employee))
             && negb (includes (Employee.webhookUrl employee) (u16 "placeholder")))
            (Employee.webhookUrl employee) 0) <$> employees env)
      (Stats.retry_attempts stats) (Stats.retry_delay stats)
      (Stats.max_retry_delay stats) (Stats.timestamp stats) in
  ret (fold_left countCall pendingCalls stats).

End Inspection.

(* ===================================================================== *)
(** ** middleware/validation: the other two middlewares *)
(* ===================================================================== *)

(** A JSON answer [{ error, details }] sent with a status code. *)
Module ErrorReply.
Record t := mk {
  statusCode : Z;
  error : jsstring;
  details : jsstring;
  timestamp : option Z
}.
End ErrorReply.

Module Middleware.
Import JS.
Local Open Scope js_scope.

(** [validateAskRequest(req, res, next)] on [req.body.message]; [None] is
    the call of [next()]. *)
Definition validateAskRequest (message_ : jsval) : option ErrorReply.t :=
  if negb (truthy message_)
     || negb (jstype_eqb (typeof message_) TString)
     || (jslength (trim (str_of message_)) =? 0)
  then Some (ErrorReply.mk 400 (u16 "Missing or invalid message field")
               (u16 "Message must be a non-empty string") None)
  else if jslength (str_of message_) >? 4000
  then Some (ErrorReply.mk 400 (u16 "Message too long")
               (u16 "Message must be less than 4000 characters") None)
  else None.

(** The table of [errorHandler]: the first pattern the message includes
    decides the status code, the [error] text and the [details] ([None] is
    [null]). *)
Definition classify (message_ : jsstring) : Z * jsstring * option jsstring :=
  if includes message_ (u16 "OpenAI API authentication failed") then
    (401, u16 "Authentication error",
     Some (u16 "OpenAI API key is invalid or missing. Please check your configuration."))
  else if includes message_ (u16 "OpenAI API rate limit exceeded") then
    (429, u16 "Rate limit exceeded",
     Some (u16 "Too many requests to OpenAI API. Please try again later."))
  else if includes message_ (u16 "Failed to create conversation thread") then
    (503, u16 "Service temporarily unavailable",
     Some (u16 "Unable to connect to OpenAI services"))
  else if includes message_ (u16 "Failed to run assistant") then
    (502, u16 "Assistant service error",
     Some (u16 "Unable to process request with AI assistant"))
  else if includes message_ (u16 "No pending tool call found") then
    (404, u16 "Tool call not found", Some message_)
  else if includes message_ (u16 "mismatch") then
    (400, u16 "Request correlation error", Some message_)
  else if includes message_ (u16 "not properly configured") then
    (503, u16 "Service configuration error",
     Some (u16 "Server is not properly configured. Please check environment variables."))
  else if includes message_ (u16 "timeout") then
    (408, u16 "Request timeout",
     Some (u16 "The request took too long to process. Please try again."))
  else (500, u16 "Internal server error", None).

(** [errorHandler(err, req, res, next)] for a response whose headers have
    not been sent.  [message_] is [err.message] ([None] when [err] has no
    such property); [development] is
    [process.env.NODE_ENV === 'development']. *)
Definition errorHandler (message_ : option jsstring) (development : bool)
    : M ErrorReply.t :=
  match message_ with
  | None =>
      throw (mkError (u16 "Cannot read properties of undefined (reading 'includes')"))
  | Some text =>
      let '(statusCode, error, details) := classify text in
      let fallback :=
        if development then text else u16 "An unexpected error occurred" in
      let* stamp := now in
      ret (ErrorReply.mk statusCode error
             (match details with
              | Some d => if truthy (JStr d) then d else fallback
              | None => fallback
              end)
             (Some stamp))
  end.

(** A request to POST /api/webhook-response as the application serves it:
    the route, then, for what the route hands to [next], [errorHandler].
    The routes call [next] with the object [{ error, details, context }],
    which has no [message], and have sent nothing at that point. *)
Definition serveWebhookResponse (development : bool) (body : ResponseData.t)
    : M (Outcome + ErrorReply.t) :=
  let* outcome := Routes.webhookResponseRoute body in
  match outcome with
  | Respond _ _ => ret (inl outcome)
  | Next error details =>
      let* reply := errorHandler None development in
      ret (inr reply)
  end.

End Middleware.

(* ===================================================================== *)
(** ** routes: GET /debug/pending *)
(* ===================================================================== *)

(** The body of the answer of GET /debug/pending. *)
Module DebugPending.
Record t := mk {
  count : Z;
  calls : list WebhookHandler.PendingView.t;
  statistics : Stats.t;
  timestamp : Z
}.
End DebugPending.

Module DebugRoutes.
Import JS WebhookHandler.
Local Open Scope js_scope.

(** The handler of GET /debug/pending, the webhook handler being
    initialised: the listing and the statistics with status 200, or the
    error reply with status 500. *)
Definition debugPending : M (DebugPending.t + ErrorReply.t) :=
  try_catch
    (let* pendingCalls := getPendingCalls in
     let* stats := Inspection.getStatistics in
     let* stamp := now in
     ret (inl (DebugPending.mk (Z.of_nat (length pendingCalls)) pendingCalls
                 stats stamp)))
    (fun error =>
       let* stamp := now in
       ret (inr (ErrorReply.mk 500 (u16 "Failed to get pending calls")
                   (message error) (Some stamp)))).

End DebugRoutes.

(* ===================================================================== *)
(** * Notions used in the statements *)
(* ===================================================================== *)

Import JS WebhookHandler.

(** A string that starts and ends with a unit [trim] keeps. *)
Definition well_ended (s : jsstring) : Prop :=
  (exists c t, s = c :: t /\ is_ws c = false)
  /\ (exists t d, s = t ++ [d] /\ is_ws d = false).

Definition addTrace (w : World) (events : list Event) : World :=
  mkWorld (handler w) (reads w) (requests w) (trace w ++ events).

(** The verdict of the output-processing block as a function of the output. *)
Definition normalizeOutput (output : jsval) : result jsstring :=
  match stringifyOutput output with
  | None => Throw (mkError (u16 "Invalid output format: " ++ u16 "Processed output is empty"))
  | Some p =>
      if negb (truthy (JStr p)) || bool_decide (trim p = [])
      then Throw (mkError (u16 "Invalid output format: " ++ u16 "Processed output is empty"))
      else if jslength p >? outputLimit
      then Ok (substring0 p outputLimit ++ truncationMarker)
      else Ok p
  end.

Definition outputSignals (output : jsval) : list Event :=
  match stringifyOutput output with
  | None => [EvConsole (OutputProcessingError (u16 "Processed output is empty"));
             EvConsole (OriginalOutput output)]
  | Some p =>
      if negb (truthy (JStr p)) || bool_decide (trim p = [])
      then [EvConsole (OutputProcessingError (u16 "Processed output is empty"));
            EvConsole (OriginalOutput output)]
      else if jslength p >? outputLimit
      then [EvConsole (LargeOutput (jslength p))]
      else []
  end.

(** The four exits of [processWebhookResponse]. *)
Definition validationFailure (r : ResponseData.t) : JsError :=
  mkError (u16 "Webhook response validation failed: "
             ++ join (u16 ", ") (validationErrors r)).

Definition missSignals (pending : gmap jsstring PendingCall.t) (id : jsval)
    : list Event :=
  [EvConsole (NoPendingCallFound id);
   EvConsole (AvailablePendingIds (dom pending))]
  ++ (if bool_decide (similarIds pending (str_of id) = ∅) then []
      else [EvConsole (SimilarPendingIds (similarIds pending (str_of id)))])
  ++ [EvConsole ProcessingWithoutValidation].

Definition threadMismatch (pc : PendingCall.t) (r : ResponseData.t) : jsstring :=
  u16 "Thread ID mismatch! Expected: " ++ PendingCall.threadId pc
    ++ u16 ", Received: " ++ str_of (ResponseData.thread_id r).

Definition runMismatch (pc : PendingCall.t) (r : ResponseData.t) : jsstring :=
  u16 "Run ID mismatch! Expected: " ++ PendingCall.runId pc
    ++ u16 ", Received: " ++ str_of (ResponseData.run_id r).

(** The employee context a correlated response reports. *)
Definition contextId (pc : PendingCall.t) : jsstring :=
  if truthy (JStr (PendingCall.employeeId pc))
  then PendingCall.employeeId pc else u16 "unknown".

Definition contextName (env : Env) (pc : PendingCall.t) : option jsstring :=
  if truthy (JStr (PendingCall.employeeId pc))
  then Employee.name <$> employees env !! PendingCall.employeeId pc
  else Some (u16 "unknown").

(** What one delivery attempt yields, given the transport's answer to the
    request numbered [n]. *)
Definition attemptResult (env : Env) (n : nat) (payload : Payload.t)
    (webhookUrl : jsstring) (attempt : Z) : result DeliveryResult.t :=
  match transport env n webhookUrl payload with
  | Http.answered response =>
      if Http.status response <? 500 then
        if Http.status response >=? 400
        then Throw (mkError (u16 "Webhook returned "
                               ++ Number_toString (Http.status response)
                               ++ u16 ": " ++ Http.statusText response ++ u16 " - "
                               ++ default (u16 "undefined")
                                    (JSON_stringify (Http.data response))))
        else Ok (DeliveryResult.sent
                   (Payload.tool_call_id payload) (Payload.employee_id payload)
                   (Payload.employee_name payload) webhookUrl
                   (Http.data response) attempt
                   (match Http.x_response_time response with
                    | Some t => if truthy (JStr t) then t else u16 "unknown"
                    | None => u16 "unknown"
                    end))
      else Throw (mkError (u16 "Request failed with status code "
                             ++ Number_toString (Http.status response)))
  | Http.failed reason => Throw (mkError reason)
  end.

(** The world after the request of an attempt was issued. *)
Definition afterPost (w : World) (payload : Payload.t) (webhookUrl : jsstring)
    (attempt : Z) : World :=
  mkWorld (handler w) (S (reads w)) (S (requests w))
    (trace w ++ [EvPost webhookUrl payload attempt (Handler.retryAttempts (handler w))]).

(** The world after the stored entry, if any, was updated by [f] with the
    current instant. *)
Definition afterNote (env : Env) (w : World) (id : jsstring)
    (f : PendingCall.t -> Z -> PendingCall.t) : World :=
  match store w !! id with
  | Some pc =>
      mkWorld (Handler.withPendingCalls (handler w)
                 (<[id := f pc (clock env (reads w))]> (store w)))
        (S (reads w)) (requests w) (trace w)
  | None => w
  end.

Definition finalFailure (this : Handler.t) (payload : Payload.t) (error : JsError)
    : JsError :=
  mkError (Payload.employee_name payload ++ u16 " webhook failed after "
             ++ Number_toString (Handler.retryAttempts this)
             ++ u16 " attempts: " ++ message error).

(** The attempt numbers of the requests in a trace, and the waits in it. *)
Definition postAttempts (events : list Event) : list Z :=
  List.flat_map (fun e => match e with EvPost _ _ a _ => [a] | _ => [] end) events.

Definition sleepsOf (events : list Event) : list Z :=
  List.flat_map (fun e => match e with EvSleep ms => [ms] | _ => [] end) events.

Definition sameSettings (h h' : Handler.t) : Prop :=
  Handler.retryAttempts h' = Handler.retryAttempts h
  /\ Handler.retryDelay h' = Handler.retryDelay h
  /\ Handler.maxRetryDelay h' = Handler.maxRetryDelay h
  /\ Handler.webhookSecret h' = Handler.webhookSecret h.

(** An entry that went through retries: identity untouched. *)
Definition sameCall (pc pc' : PendingCall.t) : Prop :=
  PendingCall.threadId pc' = PendingCall.threadId pc
  /\ PendingCall.runId pc' = PendingCall.runId pc
  /\ PendingCall.employeeId pc' = PendingCall.employeeId pc
  /\ PendingCall.functionName pc' = PendingCall.functionName pc
  /\ PendingCall.timestamp pc' = PendingCall.timestamp pc.

(** What a run of the retry loop from [attempt] does to the world [w],
    whatever the clock and the transport answer: the settings stay, no key is
    added or removed, only the payload's entry can change; the requests are
    numbered from [attempt] on and after each failed one but the last the
    wait is [backoffDelay]; a thrown error is the final failure, after an
    attempt that was not below the maximum, and the entry, if stored, is
    marked failed. *)
Definition retryRun (env : Env) (payload : Payload.t) (webhookUrl : jsstring)
    (attempt : Z) (w : World) (res : result DeliveryResult.t) (w' : World)
    : Prop :=
  let id := Payload.tool_call_id payload in
  let this := handler w in
  sameSettings this (handler w')
  /\ dom (store w') = dom (store w)
  /\ (forall k, k <> id -> store w' !! k = store w !! k)
  /\ exists events,
      trace w' = trace w ++ events
      /\ (exists rest, events = EvPost webhookUrl payload attempt
                                 (Handler.retryAttempts this) :: rest)
      /\ postAttempts events = seqZ attempt (Z.of_nat (length (postAttempts events)))
      /\ sleepsOf events
         = List.map (fun n => backoffDelay n (Handler.retryDelay this)
                                           (Handler.maxRetryDelay this))
             (seqZ attempt (Z.of_nat (length (postAttempts events)) - 1))
      /\ match res with
         | Ok r =>
             DeliveryResult.toolCallId r = id
             /\ DeliveryResult.status r = u16 "sent"
         | Throw e =>
             Handler.retryAttempts this
               <= attempt + Z.of_nat (length (postAttempts events)) - 1
             /\ exists error,
                 e = finalFailure this payload error
                 /\ forall pc, store w !! id = Some pc ->
                     exists pc' at_,
                       store w' !! id = Some pc'
                       /\ sameCall pc pc'
                       /\ PendingCall.status pc' = Some (u16 "failed")
                       /\ PendingCall.finalError pc' = Some (message error)
                       /\ PendingCall.failedAt pc' = Some at_
         end.

(** The request of the first delivery attempt for [toolCall] is in [events]. *)
Definition posted (webhookUrl : jsstring) (toolCall : ToolCall.t)
    (events : list Event) : Prop :=
  exists payload maxAttempts,
    EvPost webhookUrl payload 1 maxAttempts ∈ events
    /\ Payload.tool_call_id payload = ToolCall.id toolCall.

(** The employee has a usable webhook URL: what [getWebhookUrlForEmployee]
    checks. *)
Definition resolves (env : Env) (employeeId webhookUrl : jsstring) : Prop :=
  exists employee,
    employees env !! employeeId = Some employee
    /\ Employee.webhookUrl employee = webhookUrl
    /\ webhookUrl <> []
    /\ includes webhookUrl (u16 "placeholder") = false.

(** Whether the sweep removes an entry, given its two thresholds. *)
Definition evicted (twoHoursAgo oneDayAgo : Z) (data : PendingCall.t) : bool :=
  (PendingCall.timestamp data <? oneDayAgo)
  || ((PendingCall.timestamp data <? twoHoursAgo)
      && bool_decide (PendingCall.status data = Some (u16 "failed"))).

(** The latest run is one for which POST /ask refuses a new turn on the
    thread: queued or in progress, or waiting for tool outputs while the
    store holds a call of that thread and run. *)
Definition blocking (pending : gmap jsstring PendingCall.t)
    (threadId : jsstring) (latestRun : Run.t) : Prop :=
  (Run.status latestRun = u16 "queued" \/ Run.status latestRun = u16 "in_progress")
  \/ (Run.status latestRun = u16 "requires_action"
      /\ exists id pc,
          pending !! id = Some pc
          /\ PendingCall.threadId pc = threadId
          /\ PendingCall.runId pc = Run.id latestRun).

(** How the global error handler recognises a correlation error:
    [err.message.includes('mismatch')]. *)
Definition isCorrelationError (e : JsError) : bool :=
  includes (message e) (u16 "mismatch").

(** ** Sample data *)

(** A transport that never answers and a provider whose thread has a run
    waiting for tool outputs: it lists that run and refuses new messages. *)
Definition offline_env : Env :=
  mkEnv config_employees true
    (fun n => 1700000000000 + Z.of_nat n)
    (fun text => Ok (JObj []))
    (fun n url payload => Http.failed (u16 "connect ECONNREFUSED"))
    (fun n threadId => Ok [Run.mk (u16 "run_1") (u16 "requires_action")])
    (fun n => Ok (u16 "thread_1"))
    (fun n threadId text =>
       Throw (mkError (u16 "Can't add messages to thread_1 while a run run_1 is active.")))
    (fun n threadId assistantId => Ok (u16 "run_2"))
    (fun n threadId runId => Ok (PollResult.mk (u16 "completed") None))
    (fun n threadId => Ok (u16 "done"))
    (fun n threadId runId id output => Ok (u16 "queued")).

Definition sample_payload : Payload.t :=
  Payload.mk (u16 "call_1") (u16 "search") (JObj []) (u16 "thread_1")
    (u16 "run_1") (u16 "brenden") (u16 "AI Brenden") (u16 "lead scraper")
    1700000000000 0.

Definition sample_call : PendingCall.t :=
  PendingCall.mk (u16 "thread_1") (u16 "run_1") (u16 "brenden") (u16 "search")
    1700000000000 (JObj []) 0
    (u16 "https://hook.eu2.make.com/lxa5qab0magprieff0sujnfkfycwu9x7")
    sample_payload None None None None None None.

Definition worldOf (pending : gmap jsstring PendingCall.t) : World :=
  mkWorld (Handler.withPendingCalls (Handler.new None) pending) 0 0 [].

(** One call is pending. *)
Definition sample_world : World := worldOf {[ u16 "call_1" := sample_call ]}.

(** Nothing is pending. *)
Definition empty_world : World := worldOf ∅.

Definition responseOf (id : string) (output : jsval) (threadId runId : string)
    : ResponseData.t :=
  ResponseData.mk (JStr (u16 id)) output (JStr (u16 threadId)) (JStr (u16 runId)).

Definition sample_toolCall : ToolCall.t :=
  ToolCall.mk (u16 "call_1") (u16 "search") (u16 "{}").

(** A call created at [created], with the given status and retry count. *)
Definition agedCall (created : Z) (status : option jsstring) (retryCount : Z)
    : PendingCall.t :=
  PendingCall.mk (u16 "thread_1") (u16 "run_1") (u16 "brenden") (u16 "search")
    created (JObj []) retryCount (u16 "https://hook") sample_payload
    None None status None None None.

(** The clock of [offline_env] reads 1700000000000 and 1700000000001. *)
Definition aged_world : World :=
  worldOf {[ u16 "stale" := agedCall (1700000000000 - 90000000) None 0;
             u16 "failed" := agedCall (1700000000000 - 10000000)
                               (Some (u16 "failed")) 5;
             u16 "waiting" := agedCall (1700000000000 - 10000000) None 5 ]}.


(** A response for the pending call of [sample_world] that names another
    thread and whose output is blank. *)
Definition blank_mismatched_response : ResponseData.t :=
  responseOf "call_1" (JStr (u16 "   ")) "thread_2" "run_1".

(** A response for the pending call of [sample_world] with the right thread
    and run and a blank output. *)
Definition blank_matching_response : ResponseData.t :=
  responseOf "call_1" (JStr (u16 "   ")) "thread_1" "run_1".

(** A response whose fields pass validation, for a call that is not stored,
    with a blank output. *)
Definition blank_unknown_response : ResponseData.t :=
  responseOf "call_9" (JStr (u16 "   ")) "thread_1" "run_1".

(** A response whose output is the empty string. *)
Definition empty_output_response : ResponseData.t :=
  responseOf "call_9" (JStr []) "thread_1" "run_1".

(** A turn on the existing thread of [offline_env]. *)
Definition sample_turn : AskRequest.t :=
  AskRequest.mk (u16 "ping") (Some (u16 "brenden")) (Some (u16 "thread_1")).

(** The provider lists a run in progress on the thread. *)
Definition running_env : Env :=
  mkEnv config_employees true
    (clock offline_env) (JSON_parse offline_env) (transport offline_env)
    (fun n threadId => Ok [Run.mk (u16 "run_1") (u16 "in_progress")])
    (provider_createThread offline_env) (provider_addMessage offline_env)
    (provider_runAssistant offline_env) (provider_pollRunStatus offline_env)
    (provider_getLatestAssistantMessage offline_env)
    (provider_submitToolOutputs offline_env).

(** The provider requests that change the conversation, among the events. *)
Definition mutations (events : list Event) : list ProviderCall :=
  List.flat_map
    (fun e => match e with
              | EvProvider c => if mutates c then [c] else []
              | _ => []
              end) events.

(** ** Further notions *)

(** The sum of a list of numbers. *)
Definition sumZ (l : list Z) : Z := fold_right Z.add 0 l.

(** An entry as [sendToolCalls] creates it for a thread, a run and an
    employee. *)
Definition dispatchedFor (threadId runId employeeId : jsstring)
    (pc : PendingCall.t) : Prop :=
  PendingCall.threadId pc = threadId
  /\ PendingCall.runId pc = runId
  /\ PendingCall.employeeId pc = employeeId.

(** A transport that answers every request with 200. *)
Definition online_env : Env :=
  mkEnv config_employees true
    (clock offline_env) (JSON_parse offline_env)
    (fun n url payload =>
       Http.answered (Http.mk 200 (u16 "OK") (JObj [(u16 "received", JBool true)]) None))
    (provider_runs_list offline_env)
    (provider_createThread offline_env) (fun n threadId text => Ok tt)
    (provider_runAssistant offline_env) (provider_pollRunStatus offline_env)
    (provider_getLatestAssistantMessage offline_env)
    (provider_submitToolOutputs offline_env).

(** A parser that refuses every text. *)
Definition unparsing_env : Env :=
  mkEnv config_employees true
    (clock offline_env)
    (fun text => Throw (mkError (u16 "Unexpected token in JSON")))
    (transport online_env)
    (provider_runs_list offline_env)
    (provider_createThread offline_env) (provider_addMessage offline_env)
    (provider_runAssistant offline_env) (provider_pollRunStatus offline_env)
    (provider_getLatestAssistantMessage offline_env)
    (provider_submitToolOutputs offline_env).

(** What else a run of the retry loop guarantees: the number of requests,
    the waits, what becomes of the stored entry and what a success
    reports. *)
Definition retryBounds (env : Env) (payload : Payload.t) (webhookUrl : jsstring)
    (attempt : Z) (w : World) (res : result DeliveryResult.t) (w' : World)
    : Prop :=
  let id := Payload.tool_call_id payload in
  let this := handler w in
  exists events,
    trace w' = trace w ++ events
    /\ requests w' = (requests w + length (postAttempts events))%nat
    /\ (1 <= length (postAttempts events) <= S (Z.to_nat (Handler.retryAttempts this - attempt)))%nat
    /\ S (length (sleepsOf events)) = length (postAttempts events)
    /\ Forall (fun ms => ms <= Handler.maxRetryDelay this) (sleepsOf events)
    /\ (forall pc, store w !! id = Some pc ->
          exists pc', store w' !! id = Some pc' /\ sameCall pc pc'
            /\ match res with
               | Ok _ =>
                   PendingCall.status pc' = PendingCall.status pc
                   /\ PendingCall.finalError pc' = PendingCall.finalError pc
                   /\ (length (postAttempts events) = 1%nat -> pc' = pc)
                   /\ ((1 < length (postAttempts events))%nat ->
                       PendingCall.retryCount pc'
                       = attempt + Z.of_nat (length (postAttempts events)) - 2)
               | Throw _ => True
               end)
    /\ match res with
       | Ok r =>
           exists response,
             transport env (pred (requests w')) webhookUrl payload
             = Http.answered response
             /\ Http.status response < 400
             /\ exists responseTime,
                 r = DeliveryResult.sent id (Payload.employee_id payload)
                       (Payload.employee_name payload) webhookUrl
                       (Http.data response)
                       (attempt + Z.of_nat (length (postAttempts events)) - 1)
                       responseTime
       | Throw _ => True
       end.


(** The message of the error the parser raises on a tool call's arguments. *)
Definition parseFailure (env : Env) (toolCall : ToolCall.t) : jsstring :=
  match JSON_parse env (ToolCall.function_arguments toolCall) with
  | Throw e => message e
  | Ok _ => []
  end.

(** The error of [getWebhookUrlForEmployee] for an employee without a
    usable webhook URL. *)
Definition configurationFailure (env : Env) (employeeId : jsstring) : JsError :=
  match employees env !! employeeId with
  | None =>
      mkError (u16 "Employee '" ++ employeeId ++ u16 "' not found in configuration")
  | Some employee =>
      mkError (u16 "Webhook URL not configured for employee '"
                 ++ Employee.name employee ++ u16 "'")
  end.

(** What a dispatch does to the store [pending], giving [pending']: the keys
    that are no identifier of [toolCalls] keep their entries, no key is
    lost, and every tool call whose arguments parse has an entry for the
    thread, the run and the employee. *)
Definition recorded (env : Env) (toolCalls : list ToolCall.t)
    (threadId runId employeeId : jsstring)
    (pending pending' : gmap jsstring PendingCall.t) : Prop :=
  (forall k, (forall tc, tc ∈ toolCalls -> ToolCall.id tc <> k) ->
             pending' !! k = pending !! k)
  /\ dom pending ⊆ dom pending'
  /\ (forall tc arguments,
        tc ∈ toolCalls ->
        JSON_parse env (ToolCall.function_arguments tc) = Ok arguments ->
        exists pc, pending' !! ToolCall.id tc = Some pc
                   /\ dispatchedFor threadId runId employeeId pc).

(** The provider refuses every submission of tool outputs. *)
Definition unsubmitting_env : Env :=
  mkEnv config_employees true
    (clock offline_env) (JSON_parse offline_env) (transport offline_env)
    (provider_runs_list offline_env)
    (provider_createThread offline_env) (provider_addMessage offline_env)
    (provider_runAssistant offline_env) (provider_pollRunStatus offline_env)
    (provider_getLatestAssistantMessage offline_env)
    (fun n threadId runId id output =>
       Throw (mkError (u16 "Failed to submit tool outputs"))).

(** The provider refuses to create a thread. *)
Definition threadless_env : Env :=
  mkEnv config_employees true
    (clock offline_env) (JSON_parse offline_env) (transport offline_env)
    (provider_runs_list offline_env)
    (fun n => Throw (mkError (u16 "Failed to create conversation thread")))
    (provider_addMessage offline_env)
    (provider_runAssistant offline_env) (provider_pollRunStatus offline_env)
    (provider_getLatestAssistantMessage offline_env)
    (provider_submitToolOutputs offline_env).

(** A first turn, on no thread yet. *)
Definition first_turn : AskRequest.t :=
  AskRequest.mk (u16 "ping") (Some (u16 "brenden")) None.

(** What [toolCalls.map(tc => ({ id, function, arguments: JSON.parse(...) }))]
    evaluates to: the list, or the error of the first arguments the parser
    refuses. *)
Fixpoint describeResult (env : Env) (toolCalls : list ToolCall.t)
    : result (list (jsstring * jsstring * jsval)) :=
  match toolCalls with
  | [] => Ok []
  | tc :: rest =>
      match JSON_parse env (ToolCall.function_arguments tc) with
      | Throw e => Throw e
      | Ok arguments =>
          match describeResult env rest with
          | Ok others =>
              Ok ((ToolCall.id tc, ToolCall.function_name tc, arguments) :: others)
          | Throw e => Throw e
          end
      end
  end.

(** The world after the three provider requests that start a turn. *)
Definition afterTurnStart (w : World) (message_ threadId assistantId runId : jsstring)
    : World :=
  mkWorld (handler w) (reads w) (requests w + 3)
    (trace w ++ [EvProvider (AddMessage threadId message_);
                 EvProvider (RunAssistant threadId assistantId);
                 EvProvider (PollRunStatus threadId runId 45 2000)]).

(** A provider whose runs ask for one tool call. *)
Definition acting_env : Env :=
  mkEnv config_employees true
    (clock offline_env) (JSON_parse offline_env) (transport online_env)
    (provider_runs_list offline_env)
    (provider_createThread offline_env) (fun n threadId text => Ok tt)
    (provider_runAssistant offline_env)
    (fun n threadId runId =>
       Ok (PollResult.mk (u16 "requires_action") (Some [sample_toolCall])))
    (provider_getLatestAssistantMessage offline_env)
    (provider_submitToolOutputs offline_env).

(** The events of [n] consecutive delivery attempts numbered from [attempt]
    on: each request but the last is followed by a wait of
    [min (retryDelay * 2^(a-1)) maxRetryDelay] for its number [a]. *)
Fixpoint retryTrace (this : Handler.t) (payload : Payload.t)
    (webhookUrl : jsstring) (attempt : Z) (n : nat) : list Event :=
  match n with
  | O => []
  | S n' =>
      EvPost webhookUrl payload attempt (Handler.retryAttempts this)
      :: match n' with
         | O => []
         | S _ =>
             EvSleep (Z.min (Handler.retryDelay this * 2 ^ (attempt - 1))
                            (Handler.maxRetryDelay this))
             :: retryTrace this payload webhookUrl (attempt + 1) n'
         end
  end.

(** A run of the retry loop from [attempt], request by request: [n]
    requests are made, with the waits of [retryTrace]; every request but the
    last failed while its number was below the maximum; the last one
    succeeded, or failed with its number not below the maximum. *)
Definition retrySchedule (env : Env) (payload : Payload.t) (webhookUrl : jsstring)
    (attempt : Z) (w : World) (res : result DeliveryResult.t) (w' : World)
    : Prop :=
  exists n : nat,
    (1 <= n)%nat
    /\ trace w' = trace w ++ retryTrace (handler w) payload webhookUrl attempt n
    /\ requests w' = (requests w + n)%nat
    /\ (forall k : nat, (S k < n)%nat ->
          attempt + Z.of_nat k < Handler.retryAttempts (handler w)
          /\ exists error,
              attemptResult env (requests w + k) payload webhookUrl
                (attempt + Z.of_nat k) = Throw error)
    /\ match res with
       | Ok r =>
           attemptResult env (requests w + (n - 1)) payload webhookUrl
             (attempt + Z.of_nat n - 1) = Ok r
       | Throw _ =>
           Handler.retryAttempts (handler w) <= attempt + Z.of_nat n - 1
           /\ exists error,
               attemptResult env (requests w + (n - 1)) payload webhookUrl
                 (attempt + Z.of_nat n - 1) = Throw error
       end.

(** The response does not contradict the store: there is no entry under its
    [tool_call_id], or the entry's thread and run are the response's. *)
Definition correlates (w : World) (r : ResponseData.t) : Prop :=
  match mapGet (store w) (ResponseData.tool_call_id r) with
  | None => True
  | Some pc =>
      differs (PendingCall.threadId pc) (ResponseData.thread_id r) = false
      /\ differs (PendingCall.runId pc) (ResponseData.run_id r) = false
  end.

(** An output of 100001 units, one more than the limit, and a response for
    the pending call of [sample_world] that carries it. *)
Definition oversized : jsstring := List.repeat 97%N (Z.to_nat 100001).

Definition oversized_response : ResponseData.t :=
  ResponseData.mk (JStr (u16 "call_1")) (JStr oversized)
    (JStr (u16 "thread_1")) (JStr (u16 "run_1")).

(* ===================================================================== *)
(** * Properties *)
(* ===================================================================== *)

Local Arguments processOutput : simpl never.
Local Arguments sendWebhookWithRetry : simpl never.

Lemma trimStart_keeps c t : is_ws c = false -> trimStart (c :: t) = c :: t.
Proof. intros H. simpl. by rewrite H. Qed.

Lemma trimStart_head s :
  trimStart s = [] \/ exists c t, trimStart s = c :: t /\ is_ws c = false.
Proof.
  induction s as [|c s IH]; simpl; [by left|].
  destruct (is_ws c) eqn:E; [exact IH|]. right. by exists c, s.
Qed.

Lemma trimStart_snoc l d :
  is_ws d = false -> exists t, trimStart (l ++ [d]) = t ++ [d].
Proof.
  intros Hd. induction l as [|c l IH]; simpl.
  - rewrite Hd. by exists [].
  - destruct (is_ws c); [exact IH|]. by exists (c :: l).
Qed.

Lemma well_ended_trim s : well_ended s -> trim s = s.
Proof.
  intros [(c & t & -> & Hc) (t' & d & Ht & Hd)].
  unfold trim, trimEnd. rewrite trimStart_keeps by done.
  rewrite Ht, rev_app_distr. simpl. rewrite Hd. simpl.
  by rewrite rev_involutive.
Qed.

Lemma trim_well_ended s : trim s <> [] -> well_ended (trim s).
Proof.
  unfold trim, trimEnd. intros Hne.
  destruct (trimStart_head (rev (trimStart s))) as [E|(d & t & E & Hd)].
  { by rewrite E in Hne. }
  split.
  - destruct (trimStart_head s) as [E'|(c & u & E' & Hc)].
    { rewrite E' in E. discriminate. }
    rewrite E'. simpl.
    destruct (trimStart_snoc (rev u) c Hc) as [v ->].
    rewrite rev_app_distr. simpl. by exists c, (rev v).
  - rewrite E. simpl. by exists (rev t), d.
Qed.

Lemma trim_idemp s : trim (trim s) = trim s.
Proof.
  destruct (decide (trim s = [])) as [E|E]; [by rewrite E|].
  by apply well_ended_trim, trim_well_ended.
Qed.

Lemma well_ended_nonempty s : well_ended s -> s <> [].
Proof. by intros [(c & t & -> & _) _]. Qed.

Lemma well_ended_ends (a b : N) (m : jsstring) :
  is_ws a = false -> is_ws b = false -> well_ended (a :: m ++ [b]).
Proof. intros Ha Hb. split; [by exists a, (m ++ [b])|by exists (a :: m), b]. Qed.

Lemma is_ws_printable c : (33 <= c <= 126)%N -> is_ws c = false.
Proof.
  intros H. unfold is_ws.
  repeat match goal with
         | |- context [(?a =? ?b)%N] =>
             rewrite (proj2 (N.eqb_neq a b)) by lia
         | |- context [(?a <=? ?b)%N] =>
             first [rewrite (proj2 (N.leb_gt a b)) by lia
                   |rewrite (proj2 (N.leb_le a b)) by lia]
         end.
  reflexivity.
Qed.

Lemma well_ended_printable s :
  s <> [] -> Forall (fun c => (33 <= c <= 126)%N) s -> well_ended s.
Proof.
  intros Hne Hall. split.
  - destruct s as [|c t]; [done|]. exists c, t. split; [done|].
    apply is_ws_printable. by inversion Hall.
  - destruct (rev s) as [|d t] eqn:E.
    { apply (f_equal (@rev N)) in E. rewrite rev_involutive in E. done. }
    apply (f_equal (@rev N)) in E. rewrite rev_involutive in E. simpl in E.
    exists (rev t), d. split; [done|]. apply is_ws_printable.
    rewrite E in Hall. apply Forall_app in Hall as [_ Hd]. by inversion Hd.
Qed.

Lemma digits_fuel_printable fuel n :
  Forall (fun c => (33 <= c <= 126)%N) (digits_fuel fuel n).
Proof.
  revert n. induction fuel as [|fuel IH]; intros n; simpl; [constructor|].
  apply Forall_app. split.
  - destruct (n <? 10)%N; [constructor|apply IH].
  - constructor; [|constructor].
    pose proof (N.mod_upper_bound n 10 ltac:(lia)).
    pose proof (N.le_0_l (n mod 10)). lia.
Qed.

Lemma Number_toString_well_ended z : well_ended (Number_toString z).
Proof.
  apply well_ended_printable.
  - unfold Number_toString, digits. simpl digits_fuel.
    intros E. apply app_eq_nil in E as [_ E]. apply app_eq_nil in E as [_ E].
    discriminate.
  - unfold Number_toString. apply Forall_app. split.
    + destruct (z <? 0); [|constructor].
      change (u16 "-") with [45%N]. repeat constructor; lia.
    + apply digits_fuel_printable.
Qed.

Lemma wrap_well_ended gap indent (a b : N) (parts : list jsstring) :
  is_ws a = false -> is_ws b = false ->
  well_ended (wrap gap indent [a] [b] parts).
Proof.
  intros Ha Hb. unfold wrap. destruct parts; [|destruct gap].
  - by apply (well_ended_ends a b []).
  - by apply well_ended_ends.
  - by apply well_ended_ends.
Qed.

Lemma stringifyOutput_well_ended v p :
  WebhookHandler.stringifyOutput v = Some p -> p <> [] -> well_ended p.
Proof.
  unfold WebhookHandler.stringifyOutput, JSON_stringify_pretty, JSON_stringify.
  destruct v as [| |b|z|s|items|props]; simpl; intros [= <-] Hne.
  - by apply (well_ended_ends 110 108 [117; 108]%N).
  - destruct b;
      [by apply (well_ended_ends 116 101 [114; 117]%N)
      |by apply (well_ended_ends 102 101 [97; 108; 115]%N)].
  - apply Number_toString_well_ended.
  - by apply trim_well_ended.
  - by apply (wrap_well_ended _ _ 91 93).
  - by apply (wrap_well_ended _ _ 123 125).
Qed.

Ltac run_monad :=
  unfold bind, try_catch, throw, ret, warn, emit, getPending, setPending,
    getEnv, getHandler, now, sleep; cbn.

Lemma bind_eq {A B} (m : M A) (k : A -> M B) env w :
  bind m k env w
  = match m env w with
    | (Ok a, w') => k a env w'
    | (Throw e, w') => (Throw e, w')
    end.
Proof. reflexivity. Qed.

Lemma try_catch_eq {A} (m : M A) (h : JsError -> M A) env w :
  try_catch m h env w
  = match m env w with
    | (Ok a, w') => (Ok a, w')
    | (Throw e, w') => h e env w'
    end.
Proof. reflexivity. Qed.

Lemma addTrace_nil w : addTrace w [] = w.
Proof. destruct w. unfold addTrace. simpl. by rewrite app_nil_r. Qed.

Lemma addTrace_app w e1 e2 : addTrace (addTrace w e1) e2 = addTrace w (e1 ++ e2).
Proof. unfold addTrace. simpl. by rewrite app_assoc. Qed.

Lemma processOutput_eq output env w :
  processOutput output env w = (normalizeOutput output, addTrace w (outputSignals output)).
Proof.
  unfold processOutput, normalizeOutput, outputSignals, try_catch, bind, throw, ret, warn, emit.
  destruct (stringifyOutput output) as [p|]; cbn.
  - destruct (negb _ || bool_decide (trim p = [])); cbn.
    + unfold addTrace. cbn. by rewrite <- app_assoc.
    + destruct (jslength p >? outputLimit); cbn; [done|].
      by rewrite addTrace_nil.
  - unfold addTrace. cbn. by rewrite <- app_assoc.
Qed.

Lemma processWebhookResponse_invalid r env w :
  validationErrors r <> [] ->
  processWebhookResponse r env w
  = (Throw (validationFailure r),
     addTrace w [EvConsole (ValidationErrors (validationErrors r));
                 EvConsole (ReceivedData r)]).
Proof.
  intros Hne. unfold processWebhookResponse.
  destruct (validationErrors r) as [|e errs] eqn:E; [done|].
  assert ((Z.of_nat (length (e :: errs)) >? 0) = true) as ->
    by (apply Z.gtb_lt; cbn [length]; lia).
  run_monad. unfold addTrace, validationFailure. rewrite E. cbn.
  by rewrite <- app_assoc.
Qed.

Lemma processWebhookResponse_bad_output r env w e :
  validationErrors r = [] ->
  normalizeOutput (ResponseData.output r) = Throw e ->
  processWebhookResponse r env w
  = (Throw e, addTrace w (outputSignals (ResponseData.output r))).
Proof.
  intros Hv Ho. unfold processWebhookResponse. rewrite Hv.
  run_monad. change (Z.of_nat 0 >? 0) with false. cbn.
  by rewrite processOutput_eq, Ho.
Qed.

Lemma processWebhookResponse_miss r env w s :
  validationErrors r = [] ->
  normalizeOutput (ResponseData.output r) = Ok s ->
  mapGet (store w) (ResponseData.tool_call_id r) = None ->
  processWebhookResponse r env w
  = (Ok (ProcessedResponse.mk
           (ResponseData.tool_call_id r) s (ResponseData.thread_id r)
           (ResponseData.run_id r) (u16 "unknown") (Some (u16 "unknown"))
           (clock env (reads w)) (jslength s) true),
     mkWorld (handler w) (S (reads w)) (requests w)
       (trace w ++ outputSignals (ResponseData.output r)
          ++ missSignals (store w) (ResponseData.tool_call_id r))).
Proof.
  intros Hv Ho Hm. unfold processWebhookResponse. rewrite Hv.
  run_monad. change (Z.of_nat 0 >? 0) with false. cbn.
  rewrite processOutput_eq, Ho. cbn.
  change (store (addTrace w _)) with (store w). rewrite Hm.
  unfold missSignals. run_monad.
  destruct (bool_decide (similarIds _ _ = ∅)); cbn;
    repeat rewrite <- app_assoc; reflexivity.
Qed.

Lemma processWebhookResponse_thread_mismatch r env w s pc :
  validationErrors r = [] ->
  normalizeOutput (ResponseData.output r) = Ok s ->
  mapGet (store w) (ResponseData.tool_call_id r) = Some pc ->
  differs (PendingCall.threadId pc) (ResponseData.thread_id r) = true ->
  processWebhookResponse r env w
  = (Throw (mkError (threadMismatch pc r)),
     addTrace w (outputSignals (ResponseData.output r)
                   ++ [EvConsole (CorrelationMismatch (threadMismatch pc r))])).
Proof.
  intros Hv Ho Hm Hd. unfold processWebhookResponse. rewrite Hv.
  run_monad. change (Z.of_nat 0 >? 0) with false. cbn.
  rewrite processOutput_eq, Ho. cbn.
  change (store (addTrace w _)) with (store w). rewrite Hm, Hd.
  run_monad. unfold addTrace. cbn. by rewrite <- app_assoc.
Qed.

Lemma processWebhookResponse_run_mismatch r env w s pc :
  validationErrors r = [] ->
  normalizeOutput (ResponseData.output r) = Ok s ->
  mapGet (store w) (ResponseData.tool_call_id r) = Some pc ->
  differs (PendingCall.threadId pc) (ResponseData.thread_id r) = false ->
  differs (PendingCall.runId pc) (ResponseData.run_id r) = true ->
  processWebhookResponse r env w
  = (Throw (mkError (runMismatch pc r)),
     addTrace w (outputSignals (ResponseData.output r)
                   ++ [EvConsole (CorrelationMismatch (runMismatch pc r))])).
Proof.
  intros Hv Ho Hm Hd Hd'. unfold processWebhookResponse. rewrite Hv.
  run_monad. change (Z.of_nat 0 >? 0) with false. cbn.
  rewrite processOutput_eq, Ho. cbn.
  change (store (addTrace w _)) with (store w). rewrite Hm, Hd, Hd'.
  run_monad. unfold addTrace. cbn. by rewrite <- app_assoc.
Qed.

Lemma processWebhookResponse_match r env w s pc :
  validationErrors r = [] ->
  normalizeOutput (ResponseData.output r) = Ok s ->
  mapGet (store w) (ResponseData.tool_call_id r) = Some pc ->
  differs (PendingCall.threadId pc) (ResponseData.thread_id r) = false ->
  differs (PendingCall.runId pc) (ResponseData.run_id r) = false ->
  processWebhookResponse r env w
  = (Ok (ProcessedResponse.mk
           (ResponseData.tool_call_id r) s (ResponseData.thread_id r)
           (ResponseData.run_id r) (contextId pc) (contextName env pc)
           (clock env (S (reads w))) (jslength s) true),
     mkWorld
       (Handler.withPendingCalls (handler w)
          (mapDelete
             (mapSet (store w) (ResponseData.tool_call_id r)
                (PendingCall.noteProcessed pc (clock env (reads w))))
             (ResponseData.tool_call_id r)))
       (S (S (reads w))) (requests w)
       (trace w ++ outputSignals (ResponseData.output r))).
Proof.
  intros Hv Ho Hm Hd Hd'. unfold processWebhookResponse. rewrite Hv.
  run_monad. change (Z.of_nat 0 >? 0) with false. cbn.
  rewrite processOutput_eq, Ho. cbn.
  change (store (addTrace w _)) with (store w). rewrite Hm, Hd, Hd'.
  run_monad. reflexivity.
Qed.

Lemma updatePending_eq env w id (f : PendingCall.t -> Z -> PendingCall.t) :
  updatePending id (fun pc => bind now (fun at_ => ret (f pc at_))) env w
  = (Ok tt, afterNote env w id f).
Proof.
  unfold updatePending, afterNote. run_monad.
  destruct (store w !! id) as [pc|] eqn:E; cbn; [|done].
  reflexivity.
Qed.

Lemma sendWebhookWithRetry_from_step fuel payload webhookUrl attempt env w :
  sendWebhookWithRetry_from fuel payload webhookUrl attempt env w
  = let this := handler w in
    let w1 := afterPost w payload webhookUrl attempt in
    match attemptResult env (requests w) payload webhookUrl attempt with
    | Ok r => (Ok r, w1)
    | Throw error =>
        if attempt <? Handler.retryAttempts this then
          let w2 :=
            addTrace
              (afterNote env w1 (Payload.tool_call_id payload)
                 (fun pc at_ => PendingCall.noteRetry pc attempt (message error) at_))
              [EvSleep (backoffDelay attempt (Handler.retryDelay this)
                                     (Handler.maxRetryDelay this))] in
          match fuel with
          | S fuel' =>
              sendWebhookWithRetry_from fuel' payload webhookUrl (attempt + 1) env w2
          | O => (Throw (mkError (u16 "Maximum call stack size exceeded")), w2)
          end
        else
          (Throw (finalFailure this payload error),
           afterNote env w1 (Payload.tool_call_id payload)
             (fun pc at_ => PendingCall.noteFailed pc (message error) at_))
    end.
Proof.
  destruct fuel; cbn -[updatePending].
  all: lazymatch goal with
       | |- try_catch ?m _ _ _ = _ =>
           assert (m env w
                   = (attemptResult env (requests w) payload webhookUrl attempt,
                      afterPost w payload webhookUrl attempt)) as Hpost
       end.
  1, 3: unfold attemptResult, afterPost, axios_post, request, bind, now, throw, ret;
    cbn;
    (destruct (transport env (requests w) webhookUrl payload) as [response|reason];
      [|done]);
    (destruct (Http.status response <? 500); [|done]);
    by destruct (Http.status response >=? 400).
  all: rewrite try_catch_eq, Hpost.
  all: destruct (attemptResult env (requests w) payload webhookUrl attempt) as [r|error];
    [reflexivity|].
  all: destruct (attempt <? _); rewrite bind_eq, updatePending_eq; [|reflexivity].
  all: rewrite bind_eq; reflexivity.
Qed.

Lemma attemptResult_ok env n payload webhookUrl attempt r :
  attemptResult env n payload webhookUrl attempt = Ok r ->
  DeliveryResult.toolCallId r = Payload.tool_call_id payload
  /\ DeliveryResult.status r = u16 "sent".
Proof.
  unfold attemptResult.
  destruct (transport env n webhookUrl payload) as [response|]; [|done].
  destruct (Http.status response <? 500); [|done].
  destruct (Http.status response >=? 400); [done|].
  by intros [= <-].
Qed.

Lemma afterNote_store env w id f :
  store (afterNote env w id f)
  = match store w !! id with
    | Some pc => <[id := f pc (clock env (reads w))]> (store w)
    | None => store w
    end.
Proof. unfold afterNote. by destruct (store w !! id). Qed.

Lemma afterNote_settings env w id f :
  sameSettings (handler w) (handler (afterNote env w id f)).
Proof. unfold afterNote. by destruct (store w !! id). Qed.

Lemma afterNote_trace env w id f : trace (afterNote env w id f) = trace w.
Proof. unfold afterNote. by destruct (store w !! id). Qed.

Lemma afterNote_requests env w id f : requests (afterNote env w id f) = requests w.
Proof. unfold afterNote. by destruct (store w !! id). Qed.

Lemma afterNote_dom env w id f : dom (store (afterNote env w id f)) = dom (store w).
Proof.
  rewrite afterNote_store. destruct (store w !! id) eqn:E; [|done].
  apply dom_insert_lookup_L. by rewrite E.
Qed.

Lemma afterNote_other env w id f k :
  k <> id -> store (afterNote env w id f) !! k = store w !! k.
Proof.
  intros Hk. rewrite afterNote_store. destruct (store w !! id); [|done].
  by rewrite lookup_insert_ne.
Qed.

Lemma afterNote_this env w id f :
  store (afterNote env w id f) !! id
  = (fun pc => f pc (clock env (reads w))) <$> store w !! id.
Proof.
  rewrite afterNote_store. destruct (store w !! id) eqn:E; cbn; [|done].
  by rewrite lookup_insert_eq.
Qed.

Lemma retryRun_success env payload webhookUrl attempt w r :
  attemptResult env (requests w) payload webhookUrl attempt = Ok r ->
  retryRun env payload webhookUrl attempt w (Ok r)
    (afterPost w payload webhookUrl attempt).
Proof.
  intros Hres. unfold retryRun. split_and!; try done.
  exists [EvPost webhookUrl payload attempt (Handler.retryAttempts (handler w))].
  split_and!; [done|by eexists|done|done|by eapply attemptResult_ok..].
Qed.

Lemma retryRun_final env payload webhookUrl attempt w error :
  Handler.retryAttempts (handler w) <= attempt ->
  retryRun env payload webhookUrl attempt w
    (Throw (finalFailure (handler w) payload error))
    (afterNote env (afterPost w payload webhookUrl attempt)
       (Payload.tool_call_id payload)
       (fun pc at_ => PendingCall.noteFailed pc (message error) at_)).
Proof.
  intros Hge. unfold retryRun. split_and!.
  - apply (afterNote_settings env (afterPost w payload webhookUrl attempt)).
  - by rewrite afterNote_dom.
  - intros k Hk. by rewrite afterNote_other.
  - exists [EvPost webhookUrl payload attempt (Handler.retryAttempts (handler w))].
    split_and!; [by rewrite afterNote_trace|by eexists|done|done|cbn; lia|].
    exists error. split; [done|].
    intros pc Hin. rewrite afterNote_this.
    change (store (afterPost _ _ _ _)) with (store w). rewrite Hin. cbn.
    by eexists _, _.
Qed.

Lemma retryRun_again env payload webhookUrl attempt w error res w' :
  attempt < Handler.retryAttempts (handler w) ->
  retryRun env payload webhookUrl (attempt + 1)
    (addTrace
       (afterNote env (afterPost w payload webhookUrl attempt)
          (Payload.tool_call_id payload)
          (fun pc at_ => PendingCall.noteRetry pc attempt (message error) at_))
       [EvSleep (backoffDelay attempt (Handler.retryDelay (handler w))
                              (Handler.maxRetryDelay (handler w)))])
    res w' ->
  retryRun env payload webhookUrl attempt w res w'.
Proof.
  intros Hlt.
  pose proof (afterNote_settings env (afterPost w payload webhookUrl attempt)
                (Payload.tool_call_id payload)
                (fun pc at_ => PendingCall.noteRetry pc attempt (message error) at_))
    as (Hs1 & Hs2 & Hs3 & Hs4).
  cbn in Hs1, Hs2, Hs3, Hs4.
  unfold retryRun.
  change (store (addTrace ?x ?y)) with (store x).
  change (trace (addTrace ?x ?y)) with (trace x ++ y).
  change (handler (addTrace ?x ?y)) with (handler x).
  rewrite Hs1, Hs2, Hs3.
  intros (Hset & Hdom & Hother & events & Htrace & (rest & Hhead)
          & Hposts & Hsleeps & Hend).
  split_and!.
  - destruct Hset as (? & ? & ? & ?). unfold sameSettings.
    split_and!; congruence.
  - rewrite Hdom. by rewrite afterNote_dom.
  - intros k Hk. rewrite Hother by done. by rewrite afterNote_other.
  - exists (EvPost webhookUrl payload attempt (Handler.retryAttempts (handler w))
            :: EvSleep (backoffDelay attempt (Handler.retryDelay (handler w))
                          (Handler.maxRetryDelay (handler w)))
            :: events).
    assert (Hlen : (1 <= length (postAttempts events))%nat).
    { rewrite Hhead. cbn. lia. }
    split_and!.
    + rewrite Htrace. rewrite afterNote_trace. cbn.
      by rewrite <- !app_assoc.
    + by eexists.
    + cbn [postAttempts flat_map app length]. fold (postAttempts events).
      rewrite Hposts at 1.
      rewrite (seqZ_cons attempt) by lia. f_equal. f_equal; lia.
    + cbn [postAttempts sleepsOf flat_map app length].
      fold (postAttempts events). fold (sleepsOf events). rewrite Hsleeps.
      rewrite (seqZ_cons attempt (Z.of_nat (S _) - 1)) by lia. cbn [List.map].
      f_equal. f_equal. f_equal; lia.
    + destruct res as [r|e]; [done|].
      destruct Hend as (Hge & error' & -> & Hpc).
      cbn [postAttempts flat_map app length]. fold (postAttempts events).
      split; [lia|].
      exists error'. split.
      { unfold finalFailure. by rewrite Hs1. }
      intros pc Hin.
      destruct (Hpc (PendingCall.noteRetry pc attempt (message error)
                       (clock env (S (reads w)))))
        as (pc' & at_ & ? & Hsame & ? & ? & ?).
      { rewrite afterNote_this. change (store (afterPost _ _ _ _)) with (store w).
        by rewrite Hin. }
      exists pc', at_. by split_and!.
Qed.

Lemma sendWebhookWithRetry_from_run env payload webhookUrl fuel :
  forall attempt w res w',
    (Z.to_nat (Handler.retryAttempts (handler w) - attempt) <= fuel)%nat ->
    sendWebhookWithRetry_from fuel payload webhookUrl attempt env w = (res, w') ->
    retryRun env payload webhookUrl attempt w res w'.
Proof.
  induction fuel as [|fuel IH]; intros attempt w res w' Hfuel;
    rewrite sendWebhookWithRetry_from_step; cbn zeta.
  - destruct (attemptResult env (requests w) payload webhookUrl attempt)
      as [r|error] eqn:Hres.
    { intros [= <- <-]. by apply retryRun_success. }
    destruct (attempt <? Handler.retryAttempts (handler w)) eqn:Hlt.
    { apply Z.ltb_lt in Hlt. lia. }
    apply Z.ltb_ge in Hlt. intros [= <- <-]. by apply retryRun_final.
  - destruct (attemptResult env (requests w) payload webhookUrl attempt)
      as [r|error] eqn:Hres.
    { intros [= <- <-]. by apply retryRun_success. }
    destruct (attempt <? Handler.retryAttempts (handler w)) eqn:Hlt; cycle 1.
    { apply Z.ltb_ge in Hlt. intros [= <- <-]. by apply retryRun_final. }
    apply Z.ltb_lt in Hlt. intros Hrun.
    apply (retryRun_again _ _ _ _ _ error); [done|].
    apply IH; [|done].
    destruct (afterNote_settings env (afterPost w payload webhookUrl attempt)
                (Payload.tool_call_id payload)
                (fun pc at_ => PendingCall.noteRetry pc attempt (message error) at_))
      as (Hs1 & _).
    change (handler (addTrace ?x ?y)) with (handler x). rewrite Hs1. cbn. lia.
Qed.

Lemma sendWebhookWithRetry_run env payload webhookUrl attempt w res w' :
  sendWebhookWithRetry payload webhookUrl attempt env w = (res, w') ->
  retryRun env payload webhookUrl attempt w res w'.
Proof.
  unfold sendWebhookWithRetry. rewrite bind_eq. cbn.
  apply sendWebhookWithRetry_from_run. unfold retryDepth. lia.
Qed.

Lemma employeeOf_eq employeeId env w :
  employeeOf employeeId env w
  = (match employees env !! employeeId with
     | Some employee => Ok employee
     | None => Throw (mkError (u16 "Cannot read properties of undefined (reading 'name')"))
     end, w).
Proof. unfold employeeOf. run_monad. by destruct (employees env !! employeeId). Qed.

Lemma sendToolCall_total toolCall threadId runId employeeId webhookUrl results env w :
  exists r w' events,
    sendToolCall toolCall threadId runId employeeId webhookUrl results env w
    = (Ok (results ++ [r]), w')
    /\ DeliveryResult.toolCallId r = ToolCall.id toolCall
    /\ trace w' = trace w ++ events
    /\ sameSettings (handler w) (handler w')
    /\ (forall arguments employee,
          JSON_parse env (ToolCall.function_arguments toolCall) = Ok arguments ->
          employees env !! employeeId = Some employee ->
          posted webhookUrl toolCall events
          /\ ToolCall.id toolCall ∈ dom (store w')).
Proof.
  unfold sendToolCall, employeeOf. run_monad.
  destruct (JSON_parse env (ToolCall.function_arguments toolCall))
    as [arguments|e] eqn:Hparse; cycle 1.
  { eexists _, _, []. split_and!; try done.
    by rewrite app_nil_r. }
  destruct (employees env !! employeeId) as [employee|] eqn:Hemp; cycle 1.
  { eexists _, _, []. split_and!; try done.
    by rewrite app_nil_r. }
  cbn.
  match goal with
  | |- context [sendWebhookWithRetry ?p ?u ?a ?e ?w0] =>
      destruct (sendWebhookWithRetry p u a e w0) as [res w'] eqn:Hsend
  end.
  apply sendWebhookWithRetry_run in Hsend.
  destruct Hsend as (Hset & Hdom & Hother & events & Htrace & (rest & Hhead) & _ & _ & Hend).
  cbn in Hset, Hdom, Htrace, Hhead.
  assert (Hposted : posted webhookUrl toolCall events
                    /\ ToolCall.id toolCall ∈ dom (store w')).
  { split.
    - eexists _, _. rewrite Hhead. split; [apply list_elem_of_here|done].
    - rewrite Hdom, dom_insert_L. by apply elem_of_union_l, elem_of_singleton. }
  destruct res as [r|e]; cbn.
  - exists r, w', events. destruct Hend as [Hid _]. by split_and!.
  - eexists _, w', events. by split_and!.
Qed.

Lemma sendToolCalls_loop_total toolCalls threadId runId employeeId webhookUrl env :
  forall results w,
  exists rs w' events,
    sendToolCalls_loop toolCalls threadId runId employeeId webhookUrl results env w
    = (Ok (results ++ rs), w')
    /\ Forall2 (fun tc r => DeliveryResult.toolCallId r = ToolCall.id tc) toolCalls rs
    /\ trace w' = trace w ++ events
    /\ sameSettings (handler w) (handler w')
    /\ (forall tc arguments employee,
          tc ∈ toolCalls ->
          JSON_parse env (ToolCall.function_arguments tc) = Ok arguments ->
          employees env !! employeeId = Some employee ->
          posted webhookUrl tc events).
Proof.
  induction toolCalls as [|toolCall rest IH]; intros results w; cbn.
  - exists [], w, []. rewrite !app_nil_r. split_and!; try done.
    intros tc ? ? Hin. by apply elem_of_nil in Hin.
  - rewrite bind_eq.
    destruct (sendToolCall_total toolCall threadId runId employeeId webhookUrl
                results env w)
      as (r & w1 & ev1 & -> & Hid & Htr1 & Hset1 & Hpost1).
    destruct (IH (results ++ [r]) w1) as (rs & w' & ev2 & -> & Hall & Htr2 & Hset2 & Hpost2).
    exists (r :: rs), w', (ev1 ++ ev2). split_and!.
    + by rewrite <- app_assoc.
    + by constructor.
    + by rewrite Htr2, Htr1, app_assoc.
    + destruct Hset1 as (? & ? & ? & ?), Hset2 as (? & ? & ? & ?).
      unfold sameSettings. split_and!; congruence.
    + intros tc arguments employee Hin Hparse Hemp.
      apply elem_of_cons in Hin as [->|Hin].
      * destruct (Hpost1 _ _ Hparse Hemp) as [(payload & m & Hp & ?) _].
        exists payload, m. split; [|done]. apply elem_of_app. by left.
      * destruct (Hpost2 _ _ _ Hin Hparse Hemp) as (payload & m & Hp & ?).
        exists payload, m. split; [|done]. apply elem_of_app. by right.
Qed.

Lemma getWebhookUrlForEmployee_resolves env w employeeId webhookUrl :
  resolves env employeeId webhookUrl ->
  getWebhookUrlForEmployee employeeId env w = (Ok webhookUrl, w).
Proof.
  intros (employee & Hemp & <- & Hne & Hph).
  unfold getWebhookUrlForEmployee. run_monad. rewrite Hemp, Hph.
  by destruct (Employee.webhookUrl employee).
Qed.

Lemma getWebhookUrlForEmployee_unresolved env w employeeId :
  (forall webhookUrl, ~ resolves env employeeId webhookUrl) ->
  exists e, getWebhookUrlForEmployee employeeId env w = (Throw e, w).
Proof.
  intros Hno. unfold getWebhookUrlForEmployee. run_monad.
  destruct (employees env !! employeeId) as [employee|] eqn:Hemp; [|by eexists].
  destruct (negb _ || includes _ _) eqn:Hc; [by eexists|].
  exfalso. apply (Hno (Employee.webhookUrl employee)).
  exists employee. apply orb_false_iff in Hc as [Hc1 Hc2].
  split_and!; try done. intros E. by rewrite E in Hc1.
Qed.

(** ** Output normalisation *)

Lemma truncationMarker_last :
  exists body, truncationMarker = body ++ [93%N].
Proof. by exists (removelast truncationMarker). Qed.

Lemma normalizeOutput_ok v s :
  normalizeOutput v = Ok s ->
  exists p,
    stringifyOutput v = Some p
    /\ well_ended p
    /\ (jslength p > outputLimit ->
        s = substring0 p outputLimit ++ truncationMarker)
    /\ (jslength p <= outputLimit -> s = p).
Proof.
  unfold normalizeOutput.
  destruct (stringifyOutput v) as [p|] eqn:Hp; [|done].
  destruct (negb (truthy (JStr p)) || bool_decide (trim p = [])) eqn:Hc; [done|].
  apply orb_false_iff in Hc as [Hne _].
  assert (p <> []) by (intros ->; done).
  intros Hs. exists p. split_and!; [done|by eapply stringifyOutput_well_ended|..].
  - intros Hgt. apply Z.gt_lt, Z.gtb_lt in Hgt. rewrite Hgt in Hs. by injection Hs.
  - intros Hle. destruct (jslength p >? outputLimit) eqn:E.
    + apply Z.gtb_lt in E. lia.
    + by injection Hs.
Qed.

Lemma truncated_well_ended p :
  well_ended p -> well_ended (substring0 p outputLimit ++ truncationMarker).
Proof.
  intros [(c & t & -> & Hc) _].
  destruct truncationMarker_last as [body ->].
  unfold substring0. destruct (Z.to_nat outputLimit) as [|n] eqn:E.
  { unfold outputLimit in E. lia. }
  cbn [take]. split.
  - by exists c, (take n t ++ body ++ [93%N]).
  - exists ((c :: take n t) ++ body), 93%N. by rewrite <- app_assoc.
Qed.

Lemma normalizeOutput_well_ended v s : normalizeOutput v = Ok s -> well_ended s.
Proof.
  intros Hs. destruct (normalizeOutput_ok v s Hs) as (p & _ & Hp & Hlong & Hshort).
  destruct (Z_gt_le_dec (jslength p) outputLimit) as [Hgt|Hle].
  - rewrite (Hlong Hgt). by apply truncated_well_ended.
  - by rewrite (Hshort Hle).
Qed.

Lemma normalizeOutput_string s :
  well_ended s ->
  normalizeOutput (JStr s)
  = if jslength s >? outputLimit
    then Ok (substring0 s outputLimit ++ truncationMarker)
    else Ok s.
Proof.
  intros Hs. unfold normalizeOutput, stringifyOutput. cbn [typeof str_of].
  rewrite (well_ended_trim s Hs).
  pose proof (well_ended_nonempty s Hs) as Hne.
  rewrite (well_ended_trim s Hs), bool_decide_eq_false_2 by done.
  by destruct s.
Qed.

(** Re-normalising a normalised output returns it. *)
Lemma normalizeOutput_idempotent v s :
  normalizeOutput v = Ok s -> normalizeOutput (JStr s) = Ok s.
Proof.
  intros Hs. rewrite normalizeOutput_string by (by eapply normalizeOutput_well_ended).
  destruct (normalizeOutput_ok v s Hs) as (p & _ & Hp & Hlong & Hshort).
  destruct (Z_gt_le_dec (jslength p) outputLimit) as [Hgt|Hle].
  - rewrite (Hlong Hgt).
    assert (Hlen : length (substring0 p outputLimit) = Z.to_nat outputLimit).
    { unfold substring0. rewrite length_take. unfold jslength in Hgt. lia. }
    assert ((jslength (substring0 p outputLimit ++ truncationMarker) >? outputLimit)
            = true) as ->.
    { apply Z.gtb_lt. unfold jslength. rewrite length_app, Hlen.
      destruct truncationMarker_last as [body ->]. rewrite length_app. cbn.
      unfold outputLimit. lia. }
    f_equal. f_equal. unfold substring0 at 1.
    by apply take_app_length'.
  - rewrite (Hshort Hle).
    assert ((jslength p >? outputLimit) = false) as ->; [|done].
    destruct (jslength p >? outputLimit) eqn:E; [|done].
    apply Z.gtb_lt in E. lia.
Qed.

(** ** The sweep *)

Lemma cleanup_loop_spec env twoHoursAgo oneDayAgo entries :
  forall cleanedCount archivedCount w,
  exists counts w',
    cleanup_loop entries twoHoursAgo oneDayAgo cleanedCount archivedCount env w
    = (Ok counts, w')
    /\ sameSettings (handler w) (handler w')
    /\ reads w' = reads w /\ requests w' = requests w /\ trace w' = trace w
    /\ (forall k, store w !! k = None -> store w' !! k = None)
    /\ (forall k data, (k, data) ∈ entries ->
          evicted twoHoursAgo oneDayAgo data = true -> store w' !! k = None)
    /\ (forall k, (forall data, (k, data) ∈ entries ->
                     evicted twoHoursAgo oneDayAgo data = false) ->
          store w' !! k = store w !! k).
Proof.
  induction entries as [|[id data] rest IH]; intros cleanedCount archivedCount w.
  - exists (cleanedCount, archivedCount), w. split_and!; try done.
    intros k d Hin. by apply elem_of_nil in Hin.
  - cbn [cleanup_loop].
    assert (Hdel : forall c a,
      evicted twoHoursAgo oneDayAgo data = true ->
      exists counts w',
        (bind getPending (fun pending =>
           bind (setPending (delete id pending)) (fun _ =>
             cleanup_loop rest twoHoursAgo oneDayAgo c a))) env w
        = (Ok counts, w')
        /\ sameSettings (handler w) (handler w')
        /\ reads w' = reads w /\ requests w' = requests w /\ trace w' = trace w
        /\ (forall k, store w !! k = None -> store w' !! k = None)
        /\ (forall k d, (k, d) ∈ (id, data) :: rest ->
              evicted twoHoursAgo oneDayAgo d = true -> store w' !! k = None)
        /\ (forall k, (forall d, (k, d) ∈ (id, data) :: rest ->
                         evicted twoHoursAgo oneDayAgo d = false) ->
              store w' !! k = store w !! k)).
    { intros c a Hev. run_monad.
      destruct (IH c a
                  (mkWorld (Handler.withPendingCalls (handler w) (delete id (store w)))
                     (reads w) (requests w) (trace w)))
        as (counts & w' & -> & Hset & ? & ? & ? & Hnone & Hgone & Hkept).
      exists counts, w'. split_and!; try done.
      - intros k Hk. apply Hnone. cbn.
        destruct (decide (k = id)) as [->|Hne];
          [apply lookup_delete_eq|by rewrite lookup_delete_ne].
      - intros k d Hin Hd. apply elem_of_cons in Hin as [[= -> ->]|Hin].
        + apply Hnone. cbn. apply lookup_delete_eq.
        + by eapply Hgone.
      - intros k Hk. rewrite Hkept.
        + cbn. apply lookup_delete_ne. intros ->.
          specialize (Hk data (list_elem_of_here _ _)). congruence.
        + intros d Hin. apply Hk. by apply elem_of_cons; right. }
    unfold evicted in Hdel.
    destruct (PendingCall.timestamp data <? oneDayAgo) eqn:Hold.
    { by apply Hdel. }
    destruct ((PendingCall.timestamp data <? twoHoursAgo)
              && bool_decide (PendingCall.status data = Some (u16 "failed"))) eqn:Hfailed.
    { by apply Hdel. }
    destruct (IH cleanedCount archivedCount w)
      as (counts & w' & -> & Hset & ? & ? & ? & Hnone & Hgone & Hkept).
    exists counts, w'. split_and!; try done.
    + intros k d Hin Hd. apply elem_of_cons in Hin as [[= -> ->]|Hin].
      * unfold evicted in Hd. rewrite Hold, Hfailed in Hd. done.
      * by eapply Hgone.
    + intros k Hk. apply Hkept. intros d Hin. apply Hk. by apply elem_of_cons; right.
Qed.

Lemma cleanupPendingCalls_spec env w :
  let twoHoursAgo := clock env (reads w) - twoHours in
  let oneDayAgo := clock env (S (reads w)) - oneDay in
  exists w',
    cleanupPendingCalls env w = (Ok tt, w')
    /\ sameSettings (handler w) (handler w')
    /\ forall id data,
        store w !! id = Some data ->
        store w' !! id
        = if evicted twoHoursAgo oneDayAgo data then None else Some data.
Proof.
  intros twoHoursAgo oneDayAgo. unfold cleanupPendingCalls. run_monad.
  lazymatch goal with
  | |- context [cleanup_loop ?l ?a ?b ?c ?d ?e ?w0] =>
      destruct (cleanup_loop_spec e a b l c d w0)
        as (counts & w' & Hrun & Hset & _ & _ & _ & _ & Hgone & Hkept);
      rewrite Hrun
  end.
  exists w'. split_and!; try done.
  intros id data Hin.
  destruct (evicted _ _ data) eqn:Hev.
  - eapply Hgone; [by apply elem_of_map_to_list|exact Hev].
  - rewrite Hkept; [done|].
    intros d Hd. apply elem_of_map_to_list in Hd.
    change (store w !! id = Some d) in Hd.
    assert (d = data) as -> by congruence. exact Hev.
Qed.

(** ** The routes *)

Lemma viewEntries_calls env entries :
  forall w,
  exists views w',
    viewEntries entries env w = (Ok views, w')
    /\ handler w' = handler w /\ requests w' = requests w /\ trace w' = trace w
    /\ List.map PendingView.call views = List.map snd entries.
Proof.
  induction entries as [|[id data] rest IH]; intros w; cbn [viewEntries].
  - by exists [], w.
  - run_monad.
    lazymatch goal with
    | |- context [viewEntries rest env ?w0] =>
        destruct (IH w0) as (views & w' & -> & ? & ? & ? & Hcalls)
    end.
    eexists _, w'. split_and!; try done. cbn. by rewrite Hcalls.
Qed.

Lemma getPendingCalls_calls env w :
  exists views w',
    getPendingCalls env w = (Ok views, w')
    /\ handler w' = handler w /\ requests w' = requests w /\ trace w' = trace w
    /\ List.map PendingView.call views = List.map snd (map_to_list (store w)).
Proof. unfold getPendingCalls. rewrite bind_eq. cbn. apply viewEntries_calls. Qed.

Lemma checkActiveRun_busy env w threadId employeeConfig latestRun others :
  provider_runs_list env (requests w) threadId = Ok (latestRun :: others) ->
  blocking (store w) threadId latestRun ->
  exists body w',
    Routes.checkActiveRun threadId employeeConfig env w = (Ok (Some (Respond 409 body)), w')
    /\ handler w' = handler w
    /\ trace w' = trace w ++ [EvProvider (RunsList threadId)].
Proof.
  intros Hruns Hblock. unfold Routes.checkActiveRun.
  rewrite try_catch_eq, bind_eq. unfold Routes.provider, request. cbn.
  rewrite Hruns.
  destruct Hblock as [[Hq|Hq]|(Hq & id & pc & Hin & Ht & Hr)].
  - rewrite Hq. by eexists _, _.
  - rewrite Hq. by eexists _, _.
  - rewrite Hq.
    rewrite bool_decide_eq_true_2 by (unfold Routes.activeStatuses; set_solver).
    rewrite bool_decide_eq_true_2 by done. rewrite bind_eq.
    lazymatch goal with
    | |- context [getPendingCalls env ?w0] =>
        destruct (getPendingCalls_calls env w0) as (views & w' & -> & Hh & _ & Htr & Hcalls)
    end.
    set (matching := List.filter _ views).
    assert (Hmatch : matching <> []).
    { assert (Hpc : pc ∈ List.map PendingView.call views).
      { rewrite Hcalls. apply list_elem_of_fmap. exists (id, pc).
        split; [done|]. by apply elem_of_map_to_list. }
      apply list_elem_of_fmap in Hpc as (view & -> & Hview).
      intros Hnil.
      assert (Hv : In view matching).
      { apply filter_In. split; [by apply list_elem_of_In|].
        rewrite Ht, Hr. by rewrite !bool_decide_eq_true_2. }
      rewrite Hnil in Hv. done. }
    destruct matching as [|v vs] eqn:E; [done|].
    assert ((Z.of_nat (length (v :: vs)) >? 0) = true) as ->
      by (apply Z.gtb_lt; cbn [length]; lia).
    by eexists _, _.
Qed.

Local Arguments Routes.checkActiveRun : simpl never.
Local Arguments Routes.runTurn : simpl never.

Lemma askHandler_busy env w body threadId employeeConfig latestRun others :
  openaiService env = true ->
  AskRequest.thread_id body = Some threadId ->
  threadId <> [] ->
  employees env !! default (u16 "brenden") (AskRequest.employee body)
    = Some employeeConfig ->
  includes (Employee.assistantId employeeConfig) (u16 "placeholder") = false ->
  provider_runs_list env (requests w) threadId = Ok (latestRun :: others) ->
  blocking (store w) threadId latestRun ->
  exists answer w',
    Routes.askHandler body env w = (Ok (Respond 409 answer), w')
    /\ handler w' = handler w
    /\ trace w' = trace w ++ [EvProvider (RunsList threadId)].
Proof.
  intros Hsvc Hthread Hne Hemp Hasst Hruns Hblock.
  destruct (checkActiveRun_busy env w threadId employeeConfig latestRun others
              Hruns Hblock) as (answer & w' & Hcheck & Hh & Htr).
  exists answer, w'. split; [|done].
  unfold Routes.askHandler. rewrite try_catch_eq, bind_eq. cbn.
  rewrite Hsvc, Hthread, Hemp. cbn. rewrite Hasst.
  destruct threadId as [|c t]; [done|]. cbn.
  by rewrite bind_eq, Hcheck.
Qed.

Lemma validateWebhookResponse_falsy_output body :
  truthy (ResponseData.output body) = false ->
  exists missing,
    Validation.validateWebhookResponse body
    = Some (Respond 400 (MissingRequiredFields missing))
    /\ u16 "output" ∈ missing.
Proof.
  intros Hf. unfold Validation.validateWebhookResponse.
  set (required := [_; _; _; _]).
  set (missingFields := List.filter _ required).
  assert (Hin : In (u16 "output", ResponseData.output body) missingFields).
  { apply filter_In. split; [right; by left|]. cbn. by rewrite Hf. }
  destruct missingFields as [|m ms] eqn:E; [done|].
  assert ((Z.of_nat (length (m :: ms)) >? 0) = true) as ->
    by (apply Z.gtb_lt; cbn [length]; lia).
  eexists. split; [done|].
  apply list_elem_of_In. apply (in_map fst) in Hin. exact Hin.
Qed.

Lemma webhookResponseRoute_falsy_output body env w :
  truthy (ResponseData.output body) = false ->
  exists missing,
    Routes.webhookResponseRoute body env w
    = (Ok (Respond 400 (MissingRequiredFields missing)), w)
    /\ u16 "output" ∈ missing.
Proof.
  intros Hf.
  destruct (validateWebhookResponse_falsy_output body Hf) as (missing & Hv & Hin).
  exists missing. split; [|done].
  unfold Routes.webhookResponseRoute. by rewrite Hv.
Qed.

Lemma validationErrors_output r :
  u16 "output cannot be undefined or null" ∈ validationErrors r
  <-> is_nullish (ResponseData.output r) = true.
Proof.
  unfold validationErrors. rewrite list_elem_of_In. split.
  - intros Hin. destruct (is_nullish (ResponseData.output r)); [done|].
    destruct (negb (truthy (ResponseData.tool_call_id r)) || _);
      destruct (negb (truthy (ResponseData.thread_id r)) || _);
      destruct (negb (truthy (ResponseData.run_id r)) || _);
      vm_compute in Hin; intuition discriminate.
  - intros Hn. rewrite Hn. apply in_or_app. right. apply in_or_app. left.
    by left.
Qed.

(** The fields that pass the checks of [processWebhookResponse]. *)
Lemma validationErrors_nil r :
  validationErrors r = [] <->
  (exists id, ResponseData.tool_call_id r = JStr id /\ id <> [])
  /\ is_nullish (ResponseData.output r) = false
  /\ (exists t, ResponseData.thread_id r = JStr t /\ t <> [])
  /\ (exists n, ResponseData.run_id r = JStr n /\ n <> []).
Proof.
  unfold validationErrors.
  assert (Hfield : forall v,
    negb (truthy v) || negb (jstype_eqb (typeof v) TString) = false
    <-> exists s, v = JStr s /\ s <> []).
  { intros v. split.
    - destruct v as [| |b|z|s|l|l]; cbn; try done; try (by destruct b).
      + by destruct (negb (z =? 0)).
      + destruct s; [done|]. intros _. by eexists.
    - intros (s & -> & Hs). by destruct s. }
  split.
  - intros H.
    destruct (negb (truthy (ResponseData.tool_call_id r)) || _) eqn:H1; [done|].
    destruct (is_nullish (ResponseData.output r)) eqn:H2; [done|].
    destruct (negb (truthy (ResponseData.thread_id r)) || _) eqn:H3; [done|].
    destruct (negb (truthy (ResponseData.run_id r)) || _) eqn:H4; [done|].
    split_and!; try done; by apply Hfield.
  - intros (H1 & -> & H3 & H4).
    apply Hfield in H1, H3, H4. by rewrite H1, H3, H4.
Qed.

Lemma differs_false s v : differs s v = false <-> v = JStr s.
Proof.
  destruct v; cbn; try (split; done).
  rewrite negb_false_iff, bool_decide_eq_true. split; congruence.
Qed.

Lemma differs_true s v : differs s v = true <-> v <> JStr s.
Proof.
  destruct (differs s v) eqn:E.
  - split; [|done]. intros _ Hv. apply differs_false in Hv. congruence.
  - apply differs_false in E. split; [done|]. intros H. by destruct H.
Qed.

(** A successful correlation went through validation and normalisation. *)
Lemma processWebhookResponse_ok_inv r env w resp w' :
  processWebhookResponse r env w = (Ok resp, w') ->
  validationErrors r = []
  /\ normalizeOutput (ResponseData.output r) = Ok (ProcessedResponse.output resp)
  /\ ProcessedResponse.tool_call_id resp = ResponseData.tool_call_id r
  /\ ProcessedResponse.thread_id resp = ResponseData.thread_id r
  /\ ProcessedResponse.run_id resp = ResponseData.run_id r
  /\ ProcessedResponse.output_size resp = jslength (ProcessedResponse.output resp).
Proof.
  intros Hrun.
  destruct (decide (validationErrors r = [])) as [Hv|Hv]; cycle 1.
  { by rewrite processWebhookResponse_invalid in Hrun. }
  destruct (normalizeOutput (ResponseData.output r)) as [s|e] eqn:Ho; cycle 1.
  { by rewrite (processWebhookResponse_bad_output r env w e) in Hrun. }
  destruct (mapGet (store w) (ResponseData.tool_call_id r)) as [pc|] eqn:Hm; cycle 1.
  { rewrite (processWebhookResponse_miss r env w s) in Hrun by done.
    by injection Hrun as <- <-. }
  destruct (differs (PendingCall.threadId pc) (ResponseData.thread_id r)) eqn:Hd.
  { by rewrite (processWebhookResponse_thread_mismatch r env w s pc) in Hrun. }
  destruct (differs (PendingCall.runId pc) (ResponseData.run_id r)) eqn:Hd'.
  { by rewrite (processWebhookResponse_run_mismatch r env w s pc) in Hrun. }
  rewrite (processWebhookResponse_match r env w s pc) in Hrun by done.
  by injection Hrun as <- <-.
Qed.

(** ** The schedule of the retry loop *)

Lemma retryTrace_one this payload webhookUrl attempt :
  retryTrace this payload webhookUrl attempt 1
  = [EvPost webhookUrl payload attempt (Handler.retryAttempts this)].
Proof. reflexivity. Qed.

Lemma retryTrace_more this payload webhookUrl attempt n :
  (1 <= n)%nat ->
  retryTrace this payload webhookUrl attempt (S n)
  = EvPost webhookUrl payload attempt (Handler.retryAttempts this)
    :: EvSleep (backoffDelay attempt (Handler.retryDelay this)
                  (Handler.maxRetryDelay this))
    :: retryTrace this payload webhookUrl (attempt + 1) n.
Proof. destruct n as [|n]; [lia|]. reflexivity. Qed.

Lemma retryTrace_settings this this' payload webhookUrl n :
  sameSettings this this' ->
  forall attempt,
    retryTrace this' payload webhookUrl attempt n
    = retryTrace this payload webhookUrl attempt n.
Proof.
  intros (H1 & H2 & H3 & _). induction n as [|n IH]; intros attempt; [done|].
  cbn [retryTrace]. rewrite H1. f_equal. destruct n as [|n]; [done|].
  by rewrite H2, H3, IH.
Qed.

Lemma retrySchedule_one env payload webhookUrl attempt w res w' :
  trace w' = trace w ++ [EvPost webhookUrl payload attempt
                           (Handler.retryAttempts (handler w))] ->
  requests w' = S (requests w) ->
  match res with
  | Ok r => attemptResult env (requests w) payload webhookUrl attempt = Ok r
  | Throw _ =>
      Handler.retryAttempts (handler w) <= attempt
      /\ exists error,
          attemptResult env (requests w) payload webhookUrl attempt = Throw error
  end ->
  retrySchedule env payload webhookUrl attempt w res w'.
Proof.
  intros Htrace Hreq Hend. exists 1%nat.
  replace (attempt + Z.of_nat 1 - 1) with attempt by lia.
  replace (requests w + (1 - 1))%nat with (requests w) by lia.
  split; [lia|]. split; [by rewrite retryTrace_one|].
  split; [lia|]. split; [intros k Hk; lia|exact Hend].
Qed.

Lemma retrySchedule_again env payload webhookUrl attempt w error res w' :
  attempt < Handler.retryAttempts (handler w) ->
  attemptResult env (requests w) payload webhookUrl attempt = Throw error ->
  retrySchedule env payload webhookUrl (attempt + 1)
    (addTrace
       (afterNote env (afterPost w payload webhookUrl attempt)
          (Payload.tool_call_id payload)
          (fun pc at_ => PendingCall.noteRetry pc attempt (message error) at_))
       [EvSleep (backoffDelay attempt (Handler.retryDelay (handler w))
                              (Handler.maxRetryDelay (handler w)))])
    res w' ->
  retrySchedule env payload webhookUrl attempt w res w'.
Proof.
  intros Hlt Hres.
  pose proof (afterNote_settings env (afterPost w payload webhookUrl attempt)
                (Payload.tool_call_id payload)
                (fun pc at_ => PendingCall.noteRetry pc attempt (message error) at_))
    as Hset.
  change (handler (afterPost w payload webhookUrl attempt)) with (handler w) in Hset.
  pose proof Hset as (Hs1 & _).
  unfold retrySchedule.
  change (handler (addTrace ?x ?y)) with (handler x).
  change (trace (addTrace ?x ?y)) with (trace x ++ y).
  change (requests (addTrace ?x ?y)) with (requests x).
  rewrite Hs1, afterNote_trace, afterNote_requests.
  change (trace (afterPost w payload webhookUrl attempt))
    with (trace w ++ [EvPost webhookUrl payload attempt
                        (Handler.retryAttempts (handler w))]).
  change (requests (afterPost w payload webhookUrl attempt)) with (S (requests w)).
  intros (n & Hn & Htrace & Hreq & Hfailed & Hend).
  rewrite (retryTrace_settings _ _ _ _ _ Hset) in Htrace.
  exists (S n). split; [lia|]. split.
  { rewrite Htrace, (retryTrace_more _ _ _ _ n Hn).
    by rewrite <- !app_assoc. }
  split; [lia|]. split.
  { intros [|k] Hk.
    - rewrite Nat.add_0_r, Z.add_0_r. split; [done|by exists error].
    - destruct (Hfailed k ltac:(lia)) as [Hbelow [error' Herr]].
      replace (attempt + Z.of_nat (S k)) with (attempt + 1 + Z.of_nat k) by lia.
      replace (requests w + S k)%nat with (S (requests w) + k)%nat by lia.
      split; [done|by exists error']. }
  replace (attempt + Z.of_nat (S n) - 1) with (attempt + 1 + Z.of_nat n - 1) by lia.
  replace (requests w + (S n - 1))%nat with (S (requests w) + (n - 1))%nat by lia.
  exact Hend.
Qed.

Lemma sendWebhookWithRetry_from_schedule env payload webhookUrl fuel :
  forall attempt w res w',
    (Z.to_nat (Handler.retryAttempts (handler w) - attempt) <= fuel)%nat ->
    sendWebhookWithRetry_from fuel payload webhookUrl attempt env w = (res, w') ->
    retrySchedule env payload webhookUrl attempt w res w'.
Proof.
  induction fuel as [|fuel IH]; intros attempt w res w' Hfuel;
    rewrite sendWebhookWithRetry_from_step; cbn zeta.
  - destruct (attemptResult env (requests w) payload webhookUrl attempt)
      as [r|error] eqn:Hres.
    { intros [= <- <-]. by apply retrySchedule_one. }
    destruct (attempt <? Handler.retryAttempts (handler w)) eqn:Hlt.
    { apply Z.ltb_lt in Hlt. lia. }
    apply Z.ltb_ge in Hlt. intros [= <- <-].
    apply retrySchedule_one;
      [by rewrite afterNote_trace|by rewrite afterNote_requests|].
    split; [done|by exists error].
  - destruct (attemptResult env (requests w) payload webhookUrl attempt)
      as [r|error] eqn:Hres.
    { intros [= <- <-]. by apply retrySchedule_one. }
    destruct (attempt <? Handler.retryAttempts (handler w)) eqn:Hlt; cycle 1.
    { apply Z.ltb_ge in Hlt. intros [= <- <-].
      apply retrySchedule_one;
        [by rewrite afterNote_trace|by rewrite afterNote_requests|].
      split; [done|by exists error]. }
    apply Z.ltb_lt in Hlt. intros Hrun.
    apply (retrySchedule_again _ _ _ _ _ error); [done|done|].
    apply IH; [|done].
    destruct (afterNote_settings env (afterPost w payload webhookUrl attempt)
                (Payload.tool_call_id payload)
                (fun pc at_ => PendingCall.noteRetry pc attempt (message error) at_))
      as (Hs1 & _).
    change (handler (addTrace ?x ?y)) with (handler x). rewrite Hs1. cbn. lia.
Qed.

Lemma sendWebhookWithRetry_schedule env payload webhookUrl attempt w res w' :
  sendWebhookWithRetry payload webhookUrl attempt env w = (res, w') ->
  retrySchedule env payload webhookUrl attempt w res w'.
Proof.
  unfold sendWebhookWithRetry. rewrite bind_eq. cbn.
  apply sendWebhookWithRetry_from_schedule. unfold retryDepth. lia.
Qed.

(** ** Acceptance of an output *)

Lemma normalizeOutput_nonblank v p :
  stringifyOutput v = Some p -> trim p <> [] ->
  normalizeOutput v
  = if jslength p >? outputLimit
    then Ok (substring0 p outputLimit ++ truncationMarker)
    else Ok p.
Proof.
  intros Hp Ht. unfold normalizeOutput. rewrite Hp.
  rewrite bool_decide_eq_false_2 by done.
  destruct p; [done|]. reflexivity.
Qed.

Lemma processWebhookResponse_accepts r env w p :
  validationErrors r = [] ->
  stringifyOutput (ResponseData.output r) = Some p ->
  trim p <> [] ->
  correlates w r ->
  exists resp w', processWebhookResponse r env w = (Ok resp, w').
Proof.
  intros Hv Hp Ht Hc.
  pose proof (normalizeOutput_nonblank _ _ Hp Ht) as Ho.
  assert (exists s, normalizeOutput (ResponseData.output r) = Ok s) as [s Hs].
  { rewrite Ho. destruct (_ >? _); by eexists. }
  unfold correlates in Hc.
  destruct (mapGet (store w) (ResponseData.tool_call_id r)) as [pc|] eqn:Hm.
  - destruct Hc as [Hd Hd'].
    rewrite (processWebhookResponse_match r env w s pc) by done. by eexists _, _.
  - rewrite (processWebhookResponse_miss r env w s) by done. by eexists _, _.
Qed.

Lemma oversized_length : jslength oversized = 100001.
Proof. unfold jslength, oversized. rewrite repeat_length. lia. Qed.

Lemma oversized_well_ended : well_ended oversized.
Proof.
  apply well_ended_printable.
  - intros E. pose proof oversized_length as H. rewrite E in H. done.
  - apply Forall_forall. intros c Hc. unfold oversized in Hc.
    apply list_elem_of_In, repeat_spec in Hc. subst c. lia.
Qed.

(* ===================================================================== *)
(** * The claims *)
(* ===================================================================== *)

(** ** C4: the backoff schedule *)

(** C4.  With 2000 and 10000 the delays of attempts 1 to 5 are 2000, 4000,
    8000, 10000, 10000; and every run of [sendWebhookWithRetry] from an
    attempt [n >= 1], whatever the clock and the transport answer, is this:
    it makes some number of requests, at least one, numbered consecutively
    from [n]; every request but the last failed while its number was below
    the maximum, and is followed by a wait of
    [min (retryDelay * 2^(a-1)) maxRetryDelay] for its number [a], then by
    the next request; nothing else is requested or waited for; and the last
    request succeeded, or failed with its number not below the maximum.  So
    the waits depend on the attempt numbers and the two settings only. *)
Theorem backoff_schedule :
  List.map (fun n => backoffDelay n 2000 10000) [1; 2; 3; 4; 5]
  = [2000; 4000; 8000; 10000; 10000]
  /\ forall env w payload webhookUrl attempt,
      1 <= attempt ->
      let run := sendWebhookWithRetry payload webhookUrl attempt env w in
      exists n : nat,
        (1 <= n)%nat
        /\ trace (snd run)
           = trace w ++ retryTrace (handler w) payload webhookUrl attempt n
        /\ requests (snd run) = (requests w + n)%nat
        /\ (forall k : nat, (S k < n)%nat ->
              attempt + Z.of_nat k < Handler.retryAttempts (handler w)
              /\ exists error,
                  attemptResult env (requests w + k) payload webhookUrl
                    (attempt + Z.of_nat k) = Throw error)
        /\ match fst run with
           | Ok r =>
               attemptResult env (requests w + (n - 1)) payload webhookUrl
                 (attempt + Z.of_nat n - 1) = Ok r
           | Throw _ =>
               Handler.retryAttempts (handler w) <= attempt + Z.of_nat n - 1
               /\ exists error,
                   attemptResult env (requests w + (n - 1)) payload webhookUrl
                     (attempt + Z.of_nat n - 1) = Throw error
           end.
Proof.
  split; [done|].
  intros env w payload webhookUrl attempt _ run.
  destruct run as [res w'] eqn:Hrun. subst run.
  exact (sendWebhookWithRetry_schedule _ _ _ _ _ _ _ Hrun).
Qed.

Lemma backoff_schedule_witness :
  trace (snd (sendWebhookWithRetry sample_payload (u16 "https://hook") 1
                offline_env sample_world))
  = retryTrace (handler sample_world) sample_payload (u16 "https://hook") 1 5
  /\ sleepsOf (trace (snd (sendWebhookWithRetry sample_payload (u16 "https://hook") 1
                             offline_env sample_world)))
     = [2000; 4000; 8000; 10000].
Proof.
  destruct backoff_schedule as [_ Hschedule].
  destruct (Hschedule offline_env sample_world sample_payload (u16 "https://hook") 1)
    as (n & Hn & Htrace & _ & Hfailed & Hend); [lia|].
  assert (n = 5%nat) as ->.
  { destruct (fst (sendWebhookWithRetry sample_payload (u16 "https://hook") 1
                     offline_env sample_world)) as [r|e].
    - vm_compute in Hend. discriminate.
    - destruct Hend as [Hge _].
      change (Handler.retryAttempts (handler sample_world)) with 5 in Hge.
      destruct (le_lt_dec n 5) as [Hle|Hgt]; [lia|].
      destruct (Hfailed 4%nat) as [Hlt _]; [lia|].
      change (Handler.retryAttempts (handler sample_world)) with 5 in Hlt. lia. }
  rewrite Htrace. split; reflexivity.
Defined.

(** With the constructor's settings and a transport that never answers, a
    dispatch makes five requests and waits 2000, 4000, 8000 and 10000 ms
    between them. *)
Example offline_run_schedule :
  let run := sendWebhookWithRetry sample_payload (u16 "https://hook") 1
               offline_env sample_world in
  postAttempts (trace (snd run)) = [1; 2; 3; 4; 5]
  /\ sleepsOf (trace (snd run)) = [2000; 4000; 8000; 10000].
Proof. by vm_compute. Qed.

(** ** C7: exhausted delivery *)

(** When every request fails, the retry loop ends by throwing. *)
Lemma sendWebhookWithRetry_from_exhausts env payload webhookUrl fuel :
  forall attempt w,
    (forall n a, exists error, attemptResult env n payload webhookUrl a = Throw error) ->
    (Z.to_nat (Handler.retryAttempts (handler w) - attempt) <= fuel)%nat ->
    exists e w',
      sendWebhookWithRetry_from fuel payload webhookUrl attempt env w = (Throw e, w').
Proof.
  induction fuel as [|fuel IH]; intros attempt w Hfail Hfuel;
    rewrite sendWebhookWithRetry_from_step; cbn zeta;
    destruct (Hfail (requests w) attempt) as [error ->];
    destruct (attempt <? Handler.retryAttempts (handler w)) eqn:Hlt;
    try (by eexists _, _).
  apply Z.ltb_lt in Hlt. apply IH; [done|].
  destruct (afterNote_settings env (afterPost w payload webhookUrl attempt)
              (Payload.tool_call_id payload)
              (fun pc at_ => PendingCall.noteRetry pc attempt (message error) at_))
    as (Hs1 & _).
  change (handler (addTrace ?x ?y)) with (handler x). rewrite Hs1. cbn. lia.
Qed.



Lemma sendWebhookWithRetry_exhausts env payload webhookUrl attempt w :
  (forall n a, exists error, attemptResult env n payload webhookUrl a = Throw error) ->
  exists e w', sendWebhookWithRetry payload webhookUrl attempt env w = (Throw e, w').
Proof.
  intros Hfail. unfold sendWebhookWithRetry. rewrite bind_eq. cbn.
  apply sendWebhookWithRetry_from_exhausts; [done|]. unfold retryDepth. lia.
Qed.

(** ** C8: the sweep *)

(** C8.  One sweep, whose two clock readings are [t2h] and [t24h]: an entry
    older than 24 hours is removed whatever its status; an entry with status
    ['failed'] older than 2 hours is removed; an entry whose status is not
    ['failed'] and that is not older than 24 hours stays as it is, whatever
    its retry count. *)
Theorem sweep_policy env w id data :
  store w !! id = Some data ->
  let t2h := clock env (reads w) in
  let t24h := clock env (S (reads w)) in
  exists w',
    cleanupPendingCalls env w = (Ok tt, w')
    /\ (t24h - PendingCall.timestamp data > oneDay -> store w' !! id = None)
    /\ (PendingCall.status data = Some (u16 "failed") ->
        t2h - PendingCall.timestamp data > twoHours ->
        store w' !! id = None)
    /\ (PendingCall.status data <> Some (u16 "failed") ->
        t24h - PendingCall.timestamp data <= oneDay ->
        store w' !! id = Some data).
Proof.
  intros Hin t2h t24h.
  destruct (cleanupPendingCalls_spec env w) as (w' & Hrun & _ & Hstore).
  exists w'. split; [done|]. rewrite (Hstore id data Hin). unfold evicted.
  fold t2h t24h. split_and!.
  - intros Hold.
    assert ((PendingCall.timestamp data <? t24h - oneDay) = true) as ->
      by (apply Z.ltb_lt; lia).
    done.
  - intros Hfailed Hold.
    assert ((PendingCall.timestamp data <? t2h - twoHours) = true) as ->
      by (apply Z.ltb_lt; lia).
    rewrite bool_decide_eq_true_2 by done.
    by destruct (PendingCall.timestamp data <? t24h - oneDay).
  - intros Hstatus Hyoung.
    assert ((PendingCall.timestamp data <? t24h - oneDay) = false) as ->
      by (apply Z.ltb_ge; lia).
    rewrite bool_decide_eq_false_2 by done.
    by rewrite andb_false_r.
Qed.

Lemma sweep_policy_witness :
  exists w',
    cleanupPendingCalls offline_env aged_world = (Ok tt, w')
    /\ store w' !! u16 "stale" = None
    /\ store w' !! u16 "failed" = None
    /\ store w' !! u16 "waiting"
       = Some (agedCall (1700000000000 - 10000000) None 5).
Proof.
  destruct (sweep_policy offline_env aged_world (u16 "stale")
              (agedCall (1700000000000 - 90000000) None 0))
    as (w1 & Hrun1 & Hstale & _ & _); [reflexivity|].
  destruct (sweep_policy offline_env aged_world (u16 "failed")
              (agedCall (1700000000000 - 10000000) (Some (u16 "failed")) 5))
    as (w2 & Hrun2 & _ & Hfailed & _); [reflexivity|].
  destruct (sweep_policy offline_env aged_world (u16 "waiting")
              (agedCall (1700000000000 - 10000000) None 5))
    as (w3 & Hrun3 & _ & _ & Hwaiting); [reflexivity|].
  rewrite Hrun1 in Hrun2, Hrun3.
  injection Hrun2 as <-. injection Hrun3 as <-.
  exists w1. split; [exact Hrun1|]. split; [|split].
  - apply Hstale. vm_compute. reflexivity.
  - apply Hfailed; [reflexivity|vm_compute; reflexivity].
  - apply Hwaiting; [discriminate|vm_compute; discriminate].
Defined.

(** ** C5: truncation and idempotence *)

(** C5.  For every response [processWebhookResponse] accepts, with [p] the
    text its output converts to: if [p] is longer than 100000 units the
    reported output is the first 100000 units of [p], exactly that many,
    followed by the truncation marker; otherwise it is [p]; and processing
    the reported output again returns it unchanged.  And the responses it
    accepts are these: when the fields are valid, the output converts to a
    text [p] that is not blank, and the store holds no entry of another
    thread or run under the identifier, the response is accepted, however
    long [p] is; an output over the limit is cut, not refused. *)
Theorem output_truncation_idempotent :
  (forall r env w resp w',
      processWebhookResponse r env w = (Ok resp, w') ->
      exists p,
        stringifyOutput (ResponseData.output r) = Some p
        /\ (jslength p > outputLimit ->
            ProcessedResponse.output resp
            = substring0 p outputLimit ++ truncationMarker
            /\ jslength (substring0 p outputLimit) = outputLimit)
        /\ (jslength p <= outputLimit -> ProcessedResponse.output resp = p)
        /\ forall env' w'',
            fst (processOutput (JStr (ProcessedResponse.output resp)) env' w'')
            = Ok (ProcessedResponse.output resp))
  /\ (forall r env w p,
      validationErrors r = [] ->
      stringifyOutput (ResponseData.output r) = Some p ->
      trim p <> [] ->
      correlates w r ->
      exists resp w',
        processWebhookResponse r env w = (Ok resp, w')
        /\ (jslength p > outputLimit ->
            ProcessedResponse.output resp
            = substring0 p outputLimit ++ truncationMarker
            /\ jslength (ProcessedResponse.output resp)
               = outputLimit + jslength truncationMarker)
        /\ (jslength p <= outputLimit -> ProcessedResponse.output resp = p)).
Proof.
  assert (Hcut : forall r env w resp w',
    processWebhookResponse r env w = (Ok resp, w') ->
    exists p,
      stringifyOutput (ResponseData.output r) = Some p
      /\ (jslength p > outputLimit ->
          ProcessedResponse.output resp
          = substring0 p outputLimit ++ truncationMarker
          /\ jslength (substring0 p outputLimit) = outputLimit)
      /\ (jslength p <= outputLimit -> ProcessedResponse.output resp = p)
      /\ forall env' w'',
          fst (processOutput (JStr (ProcessedResponse.output resp)) env' w'')
          = Ok (ProcessedResponse.output resp)).
  { intros r env w resp w' Hrun.
    destruct (processWebhookResponse_ok_inv r env w resp w' Hrun) as (_ & Ho & _).
    destruct (normalizeOutput_ok _ _ Ho) as (p & Hp & _ & Hlong & Hshort).
    exists p. split_and!; try done.
    - intros Hgt. split; [by apply Hlong|].
      unfold jslength, substring0 in *. rewrite length_take.
      unfold outputLimit in *. lia.
    - intros env' w''. rewrite processOutput_eq. cbn [fst].
      by eapply normalizeOutput_idempotent. }
  split; [exact Hcut|].
  intros r env w p Hv Hp Ht Hc.
  destruct (processWebhookResponse_accepts r env w p Hv Hp Ht Hc)
    as (resp & w' & Hrun).
  exists resp, w'. split; [exact Hrun|].
  destruct (Hcut r env w resp w' Hrun) as (p' & Hp' & Hlong & Hshort & _).
  assert (p' = p) as -> by congruence.
  split; [|exact Hshort].
  intros Hgt. destruct (Hlong Hgt) as [Hout Hlen]. split; [exact Hout|].
  rewrite Hout. unfold jslength in *. rewrite length_app. lia.
Qed.

Lemma output_truncation_idempotent_witness :
  (exists resp w',
      processWebhookResponse oversized_response offline_env sample_world
      = (Ok resp, w')
      /\ ProcessedResponse.output resp
         = substring0 oversized outputLimit ++ truncationMarker
      /\ jslength (ProcessedResponse.output resp) = 100038
      /\ fst (processOutput (JStr (ProcessedResponse.output resp))
                offline_env sample_world)
         = Ok (ProcessedResponse.output resp))
  /\ exists resp w',
      processWebhookResponse
        (responseOf "call_1" (JStr (u16 "  {ok}  ")) "thread_1" "run_1")
        offline_env sample_world = (Ok resp, w')
      /\ ProcessedResponse.output resp = u16 "{ok}".
Proof.
  destruct output_truncation_idempotent as [Hcut Haccepts].
  split.
  - assert (Hs : stringifyOutput (ResponseData.output oversized_response)
                 = Some oversized).
    { unfold oversized_response, stringifyOutput.
      cbn [ResponseData.output typeof str_of].
      by rewrite (well_ended_trim _ oversized_well_ended). }
    assert (Ht : trim oversized <> []).
    { rewrite (well_ended_trim _ oversized_well_ended).
      apply well_ended_nonempty, oversized_well_ended. }
    assert (Hc : correlates sample_world oversized_response).
    { unfold correlates, oversized_response. cbn [ResponseData.tool_call_id].
      change (mapGet (store sample_world) (JStr (u16 "call_1")))
        with (Some sample_call).
      split; reflexivity. }
    destruct (Haccepts oversized_response offline_env sample_world oversized
                eq_refl Hs Ht Hc) as (resp & w' & Hrun & Hlong & _).
    destruct Hlong as [Hout Hlen].
    { rewrite oversized_length. unfold outputLimit. lia. }
    exists resp, w'. split; [exact Hrun|]. split; [exact Hout|]. split.
    + rewrite Hlen. reflexivity.
    + destruct (Hcut _ _ _ _ _ Hrun) as (_ & _ & _ & _ & Hagain). apply Hagain.
  - destruct (Haccepts (responseOf "call_1" (JStr (u16 "  {ok}  ")) "thread_1" "run_1")
                offline_env sample_world (u16 "{ok}") eq_refl eq_refl)
      as (resp & w' & Hrun & _ & Hshort).
    + discriminate.
    + unfold correlates.
      change (mapGet (store sample_world)
                (ResponseData.tool_call_id
                   (responseOf "call_1" (JStr (u16 "  {ok}  ")) "thread_1" "run_1")))
        with (Some sample_call).
      split; reflexivity.
    + exists resp, w'. split; [exact Hrun|]. apply Hshort.
      vm_compute. discriminate.
Defined.

(** ** C1: correlation integrity *)

(** C1 as stated fails: a response for a stored call that names another
    thread, with a blank output, is refused with the output-format error,
    which is not a correlation error. *)
Lemma mismatch_reported_as_output_error :
  store sample_world !! u16 "call_1" = Some sample_call
  /\ ResponseData.tool_call_id blank_mismatched_response = JStr (u16 "call_1")
  /\ ResponseData.thread_id blank_mismatched_response
     <> JStr (PendingCall.threadId sample_call)
  /\ exists e w',
      processWebhookResponse blank_mismatched_response offline_env sample_world
      = (Throw e, w')
      /\ message e = u16 "Invalid output format: Processed output is empty"
      /\ isCorrelationError e = false.
Proof.
  split; [reflexivity|]. split; [reflexivity|]. split; [discriminate|].
  eexists _, _. split; [vm_compute; reflexivity|]. split; reflexivity.
Qed.

Lemma mismatch_messages_are_correlation_errors pc r :
  isCorrelationError (mkError (threadMismatch pc r)) = true
  /\ isCorrelationError (mkError (runMismatch pc r)) = true.
Proof. split; reflexivity. Qed.

(** C1, amended.  For a stored pending call [pc] under [id], a response with
    that [tool_call_id] whose thread or run differs from the stored one
    always makes [processWebhookResponse] throw and leaves the handler, hence
    the store and the entry, as they were; when the response passes the field
    validation and its output normalises, the error thrown is the thread or
    run mismatch error, which the error handler classifies as a correlation
    error. *)
Theorem mismatched_result_rejected env w id pc r :
  store w !! id = Some pc ->
  ResponseData.tool_call_id r = JStr id ->
  ResponseData.thread_id r <> JStr (PendingCall.threadId pc)
  \/ ResponseData.run_id r <> JStr (PendingCall.runId pc) ->
  exists e w',
    processWebhookResponse r env w = (Throw e, w')
    /\ handler w' = handler w
    /\ store w' !! id = Some pc
    /\ (validationErrors r = [] ->
        (exists s, normalizeOutput (ResponseData.output r) = Ok s) ->
        (e = mkError (threadMismatch pc r) \/ e = mkError (runMismatch pc r))
        /\ isCorrelationError e = true).
Proof.
  intros Hin Hid Hdiff.
  assert (Hget : mapGet (store w) (ResponseData.tool_call_id r) = Some pc)
    by (by rewrite Hid).
  destruct (decide (validationErrors r = [])) as [Hv|Hv]; cycle 1.
  { rewrite processWebhookResponse_invalid by done.
    eexists _, _. by split_and!. }
  destruct (normalizeOutput (ResponseData.output r)) as [s|e] eqn:Ho; cycle 1.
  { rewrite (processWebhookResponse_bad_output r env w e) by done.
    eexists _, _. split_and!; try done. by intros _ [s Hs]. }
  destruct (differs (PendingCall.threadId pc) (ResponseData.thread_id r)) eqn:Hd.
  { rewrite (processWebhookResponse_thread_mismatch r env w s pc) by done.
    eexists _, _. split_and!; try done. intros _ _.
    split; [by left|apply mismatch_messages_are_correlation_errors]. }
  destruct (differs (PendingCall.runId pc) (ResponseData.run_id r)) eqn:Hd'.
  { rewrite (processWebhookResponse_run_mismatch r env w s pc) by done.
    eexists _, _. split_and!; try done. intros _ _.
    split; [by right|apply mismatch_messages_are_correlation_errors]. }
  apply differs_false in Hd, Hd'. by destruct Hdiff.
Qed.

Lemma mismatched_result_rejected_witness :
  exists e w',
    processWebhookResponse (responseOf "call_1" (JStr (u16 "ok")) "thread_2" "run_1")
      offline_env sample_world = (Throw e, w')
    /\ store w' !! u16 "call_1" = Some sample_call
    /\ isCorrelationError e = true.
Proof.
  destruct (mismatched_result_rejected offline_env sample_world (u16 "call_1")
              sample_call (responseOf "call_1" (JStr (u16 "ok")) "thread_2" "run_1"))
    as (e & w' & Hrun & _ & Hkept & Hkind).
  - reflexivity.
  - reflexivity.
  - left. discriminate.
  - exists e, w'. split; [exact Hrun|]. split; [exact Hkept|].
    apply Hkind; [reflexivity|]. exists (u16 "ok"). reflexivity.
Defined.

(** ** C9: a response without a pending call *)

(** C9 as stated fails: a response whose fields pass validation, for a call
    that is not stored, is refused when its output is blank. *)
Lemma unknown_call_with_blank_output_fails :
  validationErrors blank_unknown_response = []
  /\ store empty_world !! u16 "call_9" = None
  /\ exists e w',
      processWebhookResponse blank_unknown_response offline_env empty_world
      = (Throw e, w')
      /\ message e = u16 "Invalid output format: Processed output is empty".
Proof.
  split; [reflexivity|]. split; [reflexivity|].
  eexists _, _. split; [vm_compute; reflexivity|reflexivity].
Qed.

(** C9, amended.  For a response that passes the field validation and whose
    output normalises to [s], when the store has no entry for its
    [tool_call_id], [processWebhookResponse] returns: the result carries
    [s] and the identifiers of the response, reports ['unknown'] as employee
    id and name, the handler (and so the store) is unchanged, and what was
    written to the console is at warning level and includes the "no pending
    tool call found" line. *)
Theorem unknown_call_processed_degraded env w r s :
  validationErrors r = [] ->
  normalizeOutput (ResponseData.output r) = Ok s ->
  mapGet (store w) (ResponseData.tool_call_id r) = None ->
  exists resp w' events,
    processWebhookResponse r env w = (Ok resp, w')
    /\ ProcessedResponse.output resp = s
    /\ ProcessedResponse.tool_call_id resp = ResponseData.tool_call_id r
    /\ ProcessedResponse.thread_id resp = ResponseData.thread_id r
    /\ ProcessedResponse.run_id resp = ResponseData.run_id r
    /\ ProcessedResponse.employee_id resp = u16 "unknown"
    /\ ProcessedResponse.employee_name resp = Some (u16 "unknown")
    /\ handler w' = handler w
    /\ trace w' = trace w ++ events
    /\ EvConsole (NoPendingCallFound (ResponseData.tool_call_id r)) ∈ events
    /\ forall signal, EvConsole signal ∈ events -> level signal = LevelWarn.
Proof.
  intros Hv Ho Hm. rewrite (processWebhookResponse_miss r env w s) by done.
  eexists _, _, _. split_and!; try done.
  - apply elem_of_app. right. apply list_elem_of_here.
  - intros signal Hin. apply elem_of_app in Hin as [Hin|Hin].
    + unfold outputSignals, normalizeOutput in *.
      destruct (stringifyOutput (ResponseData.output r)) as [p|]; [|done].
      destruct (negb (truthy (JStr p)) || bool_decide (trim p = [])); [done|].
      destruct (jslength p >? outputLimit).
      * apply list_elem_of_singleton in Hin. by injection Hin as ->.
      * by apply elem_of_nil in Hin.
    + unfold missSignals in Hin.
      destruct (bool_decide (similarIds _ _ = ∅));
        repeat (apply elem_of_cons in Hin as [Hin|Hin];
                [by injection Hin as ->|]);
        by apply elem_of_nil in Hin.
Qed.

Lemma unknown_call_processed_degraded_witness :
  exists resp w',
    processWebhookResponse (responseOf "call_9" (JNum 42) "thread_1" "run_1")
      offline_env sample_world = (Ok resp, w')
    /\ ProcessedResponse.output resp = u16 "42"
    /\ ProcessedResponse.employee_id resp = u16 "unknown"
    /\ handler w' = handler sample_world.
Proof.
  destruct (unknown_call_processed_degraded offline_env sample_world
              (responseOf "call_9" (JNum 42) "thread_1" "run_1") (u16 "42"))
    as (resp & w' & events & Hrun & Hout & _ & _ & _ & Hemp & _ & Hh & _).
  - reflexivity.
  - reflexivity.
  - reflexivity.
  - exists resp, w'. repeat split; assumption.
Defined.

(** ** C3: two correlations for one call *)

(** C3 as stated fails: two responses for a stored call, both with its
    thread and run, both with a blank output, are both refused; neither
    correlates and the entry is never deleted. *)
Lemma two_blank_results_never_correlate :
  store sample_world !! u16 "call_1" = Some sample_call
  /\ ResponseData.thread_id blank_matching_response
     = JStr (PendingCall.threadId sample_call)
  /\ ResponseData.run_id blank_matching_response
     = JStr (PendingCall.runId sample_call)
  /\ exists e1 w1 e2 w2,
      processWebhookResponse blank_matching_response offline_env sample_world
      = (Throw e1, w1)
      /\ processWebhookResponse blank_matching_response offline_env w1
         = (Throw e2, w2)
      /\ store w2 !! u16 "call_1" = Some sample_call.
Proof.
  split; [reflexivity|]. split; [reflexivity|]. split; [reflexivity|].
  eexists _, _, _, _. split; [vm_compute; reflexivity|].
  split; [vm_compute; reflexivity|reflexivity].
Qed.

(** C3, amended.  For a stored pending call [pc] under [id] and two
    responses with that [tool_call_id], the stored thread and run, and
    outputs that pass validation and normalisation, processed one after the
    other: the first call correlates (it returns the stored employee context
    and the store loses exactly the entry of [id]); the second call finds
    nothing: it writes the "no pending tool call found" warning, returns a
    result with ['unknown'] context, and deletes nothing. *)
Theorem second_correlation_finds_nothing env w id pc r1 r2 s1 s2 :
  store w !! id = Some pc ->
  ResponseData.tool_call_id r1 = JStr id ->
  ResponseData.tool_call_id r2 = JStr id ->
  ResponseData.thread_id r1 = JStr (PendingCall.threadId pc) ->
  ResponseData.run_id r1 = JStr (PendingCall.runId pc) ->
  ResponseData.thread_id r2 = JStr (PendingCall.threadId pc) ->
  ResponseData.run_id r2 = JStr (PendingCall.runId pc) ->
  validationErrors r1 = [] ->
  validationErrors r2 = [] ->
  normalizeOutput (ResponseData.output r1) = Ok s1 ->
  normalizeOutput (ResponseData.output r2) = Ok s2 ->
  exists resp1 w1 resp2 w2 events,
    processWebhookResponse r1 env w = (Ok resp1, w1)
    /\ processWebhookResponse r2 env w1 = (Ok resp2, w2)
    /\ ProcessedResponse.employee_id resp1 = contextId pc
    /\ ProcessedResponse.employee_name resp1 = contextName env pc
    /\ store w1 = delete id (store w)
    /\ store w2 = store w1
    /\ ProcessedResponse.employee_id resp2 = u16 "unknown"
    /\ ProcessedResponse.employee_name resp2 = Some (u16 "unknown")
    /\ trace w2 = trace w1 ++ events
    /\ EvConsole (NoPendingCallFound (JStr id)) ∈ events.
Proof.
  intros Hin Hid1 Hid2 Ht1 Hr1 Ht2 Hr2 Hv1 Hv2 Ho1 Ho2.
  assert (H1 := processWebhookResponse_match r1 env w s1 pc Hv1 Ho1).
  rewrite Hid1 in H1. specialize (H1 Hin).
  rewrite Ht1, Hr1 in H1.
  specialize (H1 (proj2 (differs_false _ _) eq_refl)
                 (proj2 (differs_false _ _) eq_refl)).
  match type of H1 with _ = (_, ?W) => set (w1 := W) in * end.
  assert (Hstore1 : store w1 = delete id (store w)).
  { subst w1. cbn. apply delete_insert_eq. }
  assert (Hmiss : mapGet (store w1) (ResponseData.tool_call_id r2) = None).
  { rewrite Hid2, Hstore1. cbn. apply lookup_delete_eq. }
  assert (H2 := processWebhookResponse_miss r2 env w1 s2 Hv2 Ho2 Hmiss).
  rewrite <- Ht1, <- Hr1, <- Hid1 in H1.
  eexists _, w1, _, _, _. split; [exact H1|]. split; [exact H2|].
  split_and!; try done.
  rewrite Hid2. apply elem_of_app. right. apply list_elem_of_here.
Qed.

Lemma second_correlation_finds_nothing_witness :
  exists resp1 w1 resp2 w2,
    processWebhookResponse (responseOf "call_1" (JStr (u16 "ok")) "thread_1" "run_1")
      offline_env sample_world = (Ok resp1, w1)
    /\ processWebhookResponse (responseOf "call_1" (JStr (u16 "ok")) "thread_1" "run_1")
         offline_env w1 = (Ok resp2, w2)
    /\ ProcessedResponse.employee_id resp1 = u16 "brenden"
    /\ ProcessedResponse.employee_id resp2 = u16 "unknown"
    /\ store w1 = delete (u16 "call_1") (store sample_world)
    /\ store w2 = store w1.
Proof.
  destruct (second_correlation_finds_nothing offline_env sample_world
              (u16 "call_1") sample_call
              (responseOf "call_1" (JStr (u16 "ok")) "thread_1" "run_1")
              (responseOf "call_1" (JStr (u16 "ok")) "thread_1" "run_1")
              (u16 "ok") (u16 "ok"))
    as (resp1 & w1 & resp2 & w2 & events & H1 & H2 & He1 & _ & Hs1 & Hs2 & He2 & _);
    try reflexivity.
  exists resp1, w1, resp2, w2. repeat split; assumption.
Defined.

(** ** C10: falsy outputs at the HTTP boundary *)

(** C10 as stated fails in one clause: [processWebhookResponse] does not
    accept every output other than [null] and [undefined]; the empty string
    passes its field checks and is then refused as an empty output. *)
Lemma empty_string_output_not_accepted :
  is_nullish (ResponseData.output empty_output_response) = false
  /\ validationErrors empty_output_response = []
  /\ exists e w',
      processWebhookResponse empty_output_response offline_env empty_world
      = (Throw e, w')
      /\ message e = u16 "Invalid output format: Processed output is empty".
Proof.
  split; [reflexivity|]. split; [reflexivity|].
  eexists _, _. split; [vm_compute; reflexivity|reflexivity].
Qed.

(** C10, amended.  A request to POST /webhook-response whose [output] is
    falsy ([false], [0], the empty string, [null], [undefined]) is answered
    by the validator with 400 "Missing required fields", naming [output],
    and nothing else happens: the handler does not run and the world is
    unchanged.  The field checks of [processWebhookResponse] itself object
    to the output only when it is [null] or [undefined]; called directly
    with non-empty string identifiers, no stored entry and the output [false]
    or [0], it returns the result with the output ["false"] or ["0"]. *)
Theorem falsy_output_stops_at_validator body :
  truthy (ResponseData.output body) = false ->
  (forall env w,
      exists missing,
        Routes.webhookResponseRoute body env w
        = (Ok (Respond 400 (MissingRequiredFields missing)), w)
        /\ u16 "output" ∈ missing)
  /\ (u16 "output cannot be undefined or null" ∈ validationErrors body
      <-> is_nullish (ResponseData.output body) = true)
  /\ (ResponseData.output body = JBool false \/ ResponseData.output body = JNum 0 ->
      (exists id, ResponseData.tool_call_id body = JStr id /\ id <> []) ->
      (exists t, ResponseData.thread_id body = JStr t /\ t <> []) ->
      (exists n, ResponseData.run_id body = JStr n /\ n <> []) ->
      forall env w,
        mapGet (store w) (ResponseData.tool_call_id body) = None ->
        exists resp w',
          processWebhookResponse body env w = (Ok resp, w')
          /\ ProcessedResponse.output resp = String_of (ResponseData.output body)).
Proof.
  intros Hfalsy. split_and!.
  - intros env w. by apply webhookResponseRoute_falsy_output.
  - apply validationErrors_output.
  - intros Hout Hid Ht Hn env w Hmiss.
    assert (Hv : validationErrors body = []).
    { apply validationErrors_nil. split_and!; try done.
      by destruct Hout as [-> | ->]. }
    assert (Ho : normalizeOutput (ResponseData.output body)
                 = Ok (String_of (ResponseData.output body))).
    { by destruct Hout as [-> | ->]. }
    rewrite (processWebhookResponse_miss body env w _ Hv Ho Hmiss).
    by eexists _, _.
Qed.

Lemma falsy_output_stops_at_validator_witness :
  (exists missing,
      Routes.webhookResponseRoute (responseOf "call_9" (JBool false) "thread_1" "run_1")
        offline_env sample_world
      = (Ok (Respond 400 (MissingRequiredFields missing)), sample_world)
      /\ u16 "output" ∈ missing)
  /\ exists resp w',
      processWebhookResponse (responseOf "call_9" (JBool false) "thread_1" "run_1")
        offline_env sample_world = (Ok resp, w')
      /\ ProcessedResponse.output resp = u16 "false".
Proof.
  destruct (falsy_output_stops_at_validator
              (responseOf "call_9" (JBool false) "thread_1" "run_1"))
    as (Hroute & _ & Hdirect); [reflexivity|].
  split; [apply Hroute|].
  apply Hdirect.
  - left. reflexivity.
  - exists (u16 "call_9"). split; [reflexivity|discriminate].
  - exists (u16 "thread_1"). split; [reflexivity|discriminate].
  - exists (u16 "run_1"). split; [reflexivity|discriminate].
  - reflexivity.
Defined.

(** The number zero is stopped the same way. *)
Example zero_output_stops_at_validator :
  Routes.webhookResponseRoute (responseOf "call_1" (JNum 0) "thread_1" "run_1")
    offline_env sample_world
  = (Ok (Respond 400 (MissingRequiredFields [u16 "output"])), sample_world)
  /\ exists resp w',
      processWebhookResponse (responseOf "call_1" (JNum 0) "thread_1" "run_1")
        offline_env sample_world = (Ok resp, w')
      /\ ProcessedResponse.output resp = u16 "0"
      /\ store w' !! u16 "call_1" = None.
Proof.
  split; [by vm_compute|].
  eexists _, _. split; [vm_compute; reflexivity|]. split; reflexivity.
Qed.

(** ** C6: dispatch *)




(** ** C2: busy detection *)

(** C2 as stated fails: when the latest run of the thread waits for tool
    outputs and the store holds no pending call for it, POST /ask does not
    answer 409: it goes on to ask the provider to append the message, and,
    the provider refusing, hands an error to [next]. *)
Lemma waiting_run_without_pending_calls_not_busy :
  provider_runs_list offline_env 0 (u16 "thread_1")
  = Ok [Run.mk (u16 "run_1") (u16 "requires_action")]
  /\ exists details w',
      Routes.askHandler sample_turn offline_env empty_world
      = (Ok (Next (u16 "Request processing failed") details), w')
      /\ trace w'
         = [EvProvider (RunsList (u16 "thread_1"));
            EvProvider (AddMessage (u16 "thread_1") (u16 "ping"))]
      /\ mutations (trace w') = [AddMessage (u16 "thread_1") (u16 "ping")].
Proof.
  split; [reflexivity|].
  eexists _, _. split; [vm_compute; reflexivity|]. split; reflexivity.
Qed.

(** C2, amended.  For a turn that names an existing thread, with the
    services initialised and the employee configured with a real assistant:
    when the run listing succeeds and the latest run is queued or in
    progress, or waits for tool outputs while the store holds a pending call
    of that thread and run, POST /ask answers 409, leaves the handler
    unchanged, and the only request it makes to the provider is the run
    listing, so no message is appended and no run is started. *)
Theorem busy_thread_refused env w body threadId employeeConfig latestRun others :
  openaiService env = true ->
  AskRequest.thread_id body = Some threadId ->
  threadId <> [] ->
  employees env !! default (u16 "brenden") (AskRequest.employee body)
    = Some employeeConfig ->
  includes (Employee.assistantId employeeConfig) (u16 "placeholder") = false ->
  provider_runs_list env (requests w) threadId = Ok (latestRun :: others) ->
  blocking (store w) threadId latestRun ->
  exists answer w' events,
    Routes.askHandler body env w = (Ok (Respond 409 answer), w')
    /\ handler w' = handler w
    /\ trace w' = trace w ++ events
    /\ events = [EvProvider (RunsList threadId)]
    /\ mutations events = [].
Proof.
  intros Hsvc Hthread Hne Hemp Hasst Hruns Hblock.
  destruct (askHandler_busy env w body threadId employeeConfig latestRun others
              Hsvc Hthread Hne Hemp Hasst Hruns Hblock)
    as (answer & w' & Hrun & Hh & Htrace).
  by exists answer, w', [EvProvider (RunsList threadId)].
Qed.

Lemma busy_thread_refused_witness :
  (exists answer w',
      Routes.askHandler sample_turn running_env empty_world
      = (Ok (Respond 409 answer), w')
      /\ mutations (trace w') = [])
  /\ exists answer w',
      Routes.askHandler sample_turn offline_env sample_world
      = (Ok (Respond 409 answer), w')
      /\ mutations (trace w') = [].
Proof.
  assert (Hne : u16 "thread_1" <> []) by discriminate.
  assert (Hasst : includes (u16 "asst_MvlMZ3IOvQrTkbsENRSzGRwZ") (u16 "placeholder")
                  = false) by reflexivity.
  split.
  - destruct (busy_thread_refused running_env empty_world sample_turn
                (u16 "thread_1")
                (Employee.mk (u16 "asst_MvlMZ3IOvQrTkbsENRSzGRwZ") (u16 "AI Brenden")
                   (u16 "lead scraper") (u16 "Lead Research Specialist")
                   (u16 "https://hook.eu2.make.com/lxa5qab0magprieff0sujnfkfycwu9x7"))
                (Run.mk (u16 "run_1") (u16 "in_progress")) []
                eq_refl eq_refl Hne eq_refl Hasst eq_refl)
      as (answer & w' & events & Hrun & _ & Htrace & _ & Hmut).
    + left. right. reflexivity.
    + exists answer, w'. split; [exact Hrun|]. rewrite Htrace. exact Hmut.
  - destruct (busy_thread_refused offline_env sample_world sample_turn
                (u16 "thread_1")
                (Employee.mk (u16 "asst_MvlMZ3IOvQrTkbsENRSzGRwZ") (u16 "AI Brenden")
                   (u16 "lead scraper") (u16 "Lead Research Specialist")
                   (u16 "https://hook.eu2.make.com/lxa5qab0magprieff0sujnfkfycwu9x7"))
                (Run.mk (u16 "run_1") (u16 "requires_action")) []
                eq_refl eq_refl Hne eq_refl Hasst eq_refl)
      as (answer & w' & events & Hrun & _ & Htrace & _ & Hmut).
    + right. split; [reflexivity|].
      exists (u16 "call_1"), sample_call. repeat split; reflexivity.
    + exists answer, w'. split; [exact Hrun|]. rewrite Htrace. exact Hmut.
Defined.

(* ===================================================================== *)
(** * Further properties of the code *)
(* ===================================================================== *)

(** ** More on the retry loop *)

Lemma attemptResult_ok_inv env n payload webhookUrl attempt r :
  attemptResult env n payload webhookUrl attempt = Ok r ->
  exists response,
    transport env n webhookUrl payload = Http.answered response
    /\ Http.status response < 400
    /\ exists responseTime,
        r = DeliveryResult.sent (Payload.tool_call_id payload)
              (Payload.employee_id payload) (Payload.employee_name payload)
              webhookUrl (Http.data response) attempt responseTime.
Proof.
  unfold attemptResult.
  destruct (transport env n webhookUrl payload) as [response|]; [|done].
  destruct (Http.status response <? 500); [|done].
  destruct (Http.status response >=? 400) eqn:E; [done|].
  intros [= <-]. exists response. split; [done|]. split; [|by eexists].
  rewrite Z.geb_leb in E. apply Z.leb_gt in E. lia.
Qed.

Lemma backoffDelay_le attempt retryDelay maxRetryDelay :
  backoffDelay attempt retryDelay maxRetryDelay <= maxRetryDelay.
Proof. unfold backoffDelay. lia. Qed.

Lemma sameCall_refl pc : sameCall pc pc.
Proof. by unfold sameCall. Qed.

Lemma retryBounds_success env payload webhookUrl attempt w r :
  attemptResult env (requests w) payload webhookUrl attempt = Ok r ->
  retryBounds env payload webhookUrl attempt w (Ok r)
    (afterPost w payload webhookUrl attempt).
Proof.
  intros Hres.
  exists [EvPost webhookUrl payload attempt (Handler.retryAttempts (handler w))].
  cbn. split_and!; try done; try lia.
  - intros pc Hin. exists pc. split; [done|]. split; [apply sameCall_refl|].
    split_and!; try done. lia.
  - destruct (attemptResult_ok_inv _ _ _ _ _ _ Hres) as (response & ? & ? & rt & ->).
    exists response. split_and!; try done. exists rt. do 2 f_equal. lia.
Qed.

Lemma retryBounds_final env payload webhookUrl attempt w e error :
  retryBounds env payload webhookUrl attempt w (Throw e)
    (afterNote env (afterPost w payload webhookUrl attempt)
       (Payload.tool_call_id payload)
       (fun pc at_ => PendingCall.noteFailed pc (message error) at_)).
Proof.
  exists [EvPost webhookUrl payload attempt (Handler.retryAttempts (handler w))].
  cbn. rewrite afterNote_trace, afterNote_requests. cbn.
  split_and!; try done; try lia.
  intros pc Hin. rewrite afterNote_this.
  change (store (afterPost _ _ _ _)) with (store w). rewrite Hin. cbn.
  eexists. split; [done|]. split; [|done]. by unfold sameCall.
Qed.

Lemma sendWebhookWithRetry_from_bounds env payload webhookUrl fuel :
  forall attempt w res w',
    (Z.to_nat (Handler.retryAttempts (handler w) - attempt) <= fuel)%nat ->
    sendWebhookWithRetry_from fuel payload webhookUrl attempt env w = (res, w') ->
    retryBounds env payload webhookUrl attempt w res w'.
Proof.
  induction fuel as [|fuel IH]; intros attempt w res w' Hfuel;
    rewrite sendWebhookWithRetry_from_step; cbn zeta;
    destruct (attemptResult env (requests w) payload webhookUrl attempt)
      as [r|error] eqn:Hres.
  1, 3: intros [= <- <-]; by apply retryBounds_success.
  - destruct (attempt <? Handler.retryAttempts (handler w)) eqn:Hlt.
    + apply Z.ltb_lt in Hlt. lia.
    + intros [= <- <-]. apply retryBounds_final.
  - destruct (attempt <? Handler.retryAttempts (handler w)) eqn:Hlt; cycle 1.
    { intros [= <- <-]. apply retryBounds_final. }
    apply Z.ltb_lt in Hlt.
    pose proof (afterNote_settings env (afterPost w payload webhookUrl attempt)
                  (Payload.tool_call_id payload)
                  (fun pc at_ => PendingCall.noteRetry pc attempt (message error) at_))
      as (Hs1 & Hs2 & Hs3 & Hs4).
    cbn in Hs1, Hs2, Hs3, Hs4.
    intros Hrun. apply IH in Hrun; cycle 1.
    { change (handler (addTrace ?x ?y)) with (handler x). rewrite Hs1. cbn. lia. }
    unfold retryBounds in Hrun.
    change (store (addTrace ?x ?y)) with (store x) in Hrun.
    change (trace (addTrace ?x ?y)) with (trace x ++ y) in Hrun.
    change (handler (addTrace ?x ?y)) with (handler x) in Hrun.
    change (requests (addTrace ?x ?y)) with (requests x) in Hrun.
    rewrite Hs1, Hs3, afterNote_trace, afterNote_requests in Hrun.
    cbn [afterPost trace requests] in Hrun.
    destruct Hrun as (events & Htrace & Hreq & Hcount & Hsleeps & Hmax & Hentry & Hok).
    exists (EvPost webhookUrl payload attempt (Handler.retryAttempts (handler w))
            :: EvSleep (backoffDelay attempt (Handler.retryDelay (handler w))
                          (Handler.maxRetryDelay (handler w)))
            :: events).
    cbn [postAttempts sleepsOf flat_map app length].
    fold (postAttempts events). fold (sleepsOf events).
    split_and!.
    + rewrite Htrace. by rewrite <- !app_assoc.
    + lia.
    + lia.
    + lia.
    + lia.
    + constructor; [apply backoffDelay_le|done].
    + intros pc Hin.
      destruct (Hentry (PendingCall.noteRetry pc attempt (message error)
                          (clock env (S (reads w)))))
        as (pc' & Hpc' & Hsame & Hres').
      { rewrite afterNote_this. change (store (afterPost _ _ _ _)) with (store w).
        by rewrite Hin. }
      exists pc'. split; [done|]. split.
      { destruct Hsame as (? & ? & ? & ? & ?). by split_and!. }
      destruct res as [r|e]; [|done].
      destruct Hres' as (Hst & Hfe & Hone & Hmany). split_and!; try done.
      * lia.
      * intros _.
        destruct (decide (length (postAttempts events) = 1%nat)) as [E|E].
        -- rewrite (Hone E). cbn. lia.
        -- rewrite Hmany by lia. lia.
    + destruct res as [r|e]; [|done].
      destruct Hok as (response & Htr & Hst & rt & ->).
      exists response. split_and!; try done.
      exists rt. do 2 f_equal. lia.
Qed.

Lemma sendWebhookWithRetry_bounds env payload webhookUrl attempt w res w' :
  sendWebhookWithRetry payload webhookUrl attempt env w = (res, w') ->
  retryBounds env payload webhookUrl attempt w res w'.
Proof.
  unfold sendWebhookWithRetry. rewrite bind_eq. cbn.
  apply sendWebhookWithRetry_from_bounds. unfold retryDepth. lia.
Qed.

Lemma sumZ_bounded (l : list Z) (bound : Z) :
  Forall (fun x => x <= bound) l -> sumZ l <= Z.of_nat (length l) * bound.
Proof.
  induction 1 as [|x l Hx _ IH]; cbn [sumZ fold_right length]; [lia|].
  fold (sumZ l). lia.
Qed.

(** One iteration of the dispatch loop: what it does to the store. *)
Lemma sendToolCall_frame toolCall threadId runId employeeId webhookUrl results env w res w' :
  sendToolCall toolCall threadId runId employeeId webhookUrl results env w = (res, w') ->
  (forall k, k <> ToolCall.id toolCall -> store w' !! k = store w !! k)
  /\ dom (store w) ⊆ dom (store w')
  /\ (forall k pc, store w !! k = Some pc ->
        dispatchedFor threadId runId employeeId pc ->
        exists pc', store w' !! k = Some pc'
                    /\ dispatchedFor threadId runId employeeId pc')
  /\ (forall arguments employee,
        JSON_parse env (ToolCall.function_arguments toolCall) = Ok arguments ->
        employees env !! employeeId = Some employee ->
        exists pc, store w' !! ToolCall.id toolCall = Some pc
                   /\ dispatchedFor threadId runId employeeId pc)
  /\ (forall e, JSON_parse env (ToolCall.function_arguments toolCall) = Throw e ->
        w' = w
        /\ res = Ok (results ++ [DeliveryResult.error (ToolCall.id toolCall)
                                   employeeId None (message e) (Some true)])).
Proof.
  unfold sendToolCall, employeeOf. run_monad.
  destruct (JSON_parse env (ToolCall.function_arguments toolCall))
    as [arguments|e] eqn:Hparse; cycle 1.
  { intros [= <- <-]. split_and!; try done.
    - intros k pc Hk Hd. by exists pc.
    - by intros e' [= <-]. }
  destruct (employees env !! employeeId) as [employee|] eqn:Hemp; cycle 1.
  { intros [= <- <-]. split_and!; try done.
    intros k pc Hk Hd. by exists pc. }
  cbn.
  match goal with
  | |- context [sendWebhookWithRetry ?p ?u ?a ?e ?w0] =>
      destruct (sendWebhookWithRetry p u a e w0) as [res0 w0'] eqn:Hsend
  end.
  pose proof (sendWebhookWithRetry_run _ _ _ _ _ _ _ Hsend)
    as (_ & Hdom & Hother & _).
  pose proof (sendWebhookWithRetry_bounds _ _ _ _ _ _ _ Hsend)
    as (events & _ & _ & _ & _ & _ & Hentry & _).
  cbn in Hdom, Hother, Hentry.
  specialize (Hentry _ (lookup_insert_eq _ _ _)).
  destruct Hentry as (pc' & Hpc' & (Ht & Hr & He & _) & _).
  cbn in Ht, Hr, He.
  assert (Hnew : exists pc, store w0' !! ToolCall.id toolCall = Some pc
                            /\ dispatchedFor threadId runId employeeId pc).
  { exists pc'. by split. }
  assert (Hkeep : forall k, k <> ToolCall.id toolCall ->
                            store w0' !! k = store w !! k).
  { intros k Hk. rewrite Hother by done. by rewrite lookup_insert_ne. }
  assert (Hsub : dom (store w) ⊆ dom (store w0')).
  { rewrite Hdom, dom_insert_L. set_solver. }
  assert (Hpres : forall k pc, store w !! k = Some pc ->
            dispatchedFor threadId runId employeeId pc ->
            exists pc0, store w0' !! k = Some pc0
                        /\ dispatchedFor threadId runId employeeId pc0).
  { intros k pc Hk Hd.
    destruct (decide (k = ToolCall.id toolCall)) as [->|Hne]; [done|].
    exists pc. by rewrite Hkeep. }
  destruct res0 as [r|e]; cbn; intros [= <- <-]; split_and!; try done.
Qed.

Lemma sendToolCalls_loop_frame toolCalls threadId runId employeeId webhookUrl env employee :
  employees env !! employeeId = Some employee ->
  forall results w res w',
    sendToolCalls_loop toolCalls threadId runId employeeId webhookUrl results env w
    = (res, w') ->
    recorded env toolCalls threadId runId employeeId (store w) (store w')
    /\ (forall k pc, store w !! k = Some pc ->
          dispatchedFor threadId runId employeeId pc ->
          exists pc', store w' !! k = Some pc'
                      /\ dispatchedFor threadId runId employeeId pc').
Proof.
  intros Hemp.
  induction toolCalls as [|toolCall rest IH]; intros results w res w'; cbn.
  - intros [= <- <-]. split; [|by eauto].
    split_and!; try done. intros tc ? Hin. by apply elem_of_nil in Hin.
  - rewrite bind_eq.
    destruct (sendToolCall toolCall threadId runId employeeId webhookUrl
                results env w) as [[results1|e] w1] eqn:Hone; cycle 1.
    { destruct (sendToolCall_total toolCall threadId runId employeeId webhookUrl
                  results env w) as (? & ? & ? & Heq & _).
      rewrite Heq in Hone. discriminate. }
    apply sendToolCall_frame in Hone
      as (Hkeep1 & Hsub1 & Hpres1 & Hnew1 & _).
    intros Hrest. apply IH in Hrest as ((Hkeep2 & Hsub2 & Hnew2) & Hpres2).
    split; [split_and!|].
    + intros k Hk. rewrite Hkeep2, Hkeep1; [done| |].
      * intros E. apply (Hk toolCall); [|done]. apply elem_of_cons. by left.
      * intros tc Hin. apply Hk, elem_of_cons. by right.
    + set_solver.
    + intros tc arguments Hin Hparse.
      apply elem_of_cons in Hin as [->|Hin].
      * destruct (Hnew1 _ _ Hparse Hemp) as (pc & Hpc & Hd).
        by apply (Hpres2 _ pc).
      * by apply (Hnew2 _ arguments).
    + intros k pc Hk Hd.
      destruct (Hpres1 _ _ Hk Hd) as (pc1 & Hpc1 & Hd1).
      by apply (Hpres2 _ pc1).
Qed.

Lemma sendToolCalls_eq toolCalls threadId runId employeeId webhookUrl env w :
  resolves env employeeId webhookUrl ->
  sendToolCalls toolCalls threadId runId employeeId env w
  = sendToolCalls_loop toolCalls threadId runId employeeId webhookUrl [] env w.
Proof.
  intros Hres. pose proof Hres as (employee & Hemp & _).
  unfold sendToolCalls. rewrite bind_eq, try_catch_eq, bind_eq.
  rewrite (getWebhookUrlForEmployee_resolves _ _ _ _ Hres).
  rewrite bind_eq, employeeOf_eq, Hemp. cbn.
  rewrite bind_eq, employeeOf_eq, Hemp. reflexivity.
Qed.

Lemma sendToolCalls_loop_unparsed toolCalls threadId runId employeeId webhookUrl env :
  Forall (fun tc => exists e,
            JSON_parse env (ToolCall.function_arguments tc) = Throw e) toolCalls ->
  forall results w,
    sendToolCalls_loop toolCalls threadId runId employeeId webhookUrl results env w
    = (Ok (results
           ++ List.map (fun tc => DeliveryResult.error (ToolCall.id tc) employeeId
                                    None (parseFailure env tc) (Some true))
                toolCalls), w).
Proof.
  induction 1 as [|toolCall rest [e He] _ IH]; intros results w; cbn.
  - by rewrite app_nil_r.
  - rewrite bind_eq.
    destruct (sendToolCall toolCall threadId runId employeeId webhookUrl
                results env w) as [res w1] eqn:Hone.
    apply sendToolCall_frame in Hone as (_ & _ & _ & _ & Hfail).
    destruct (Hfail _ He) as [-> ->]. rewrite IH.
    unfold parseFailure at 2. rewrite He. by rewrite <- app_assoc.
Qed.

Lemma sameSettings_refl h : sameSettings h h.
Proof. by repeat split. Qed.

Lemma mapDelete_mapSet pending key pc :
  mapDelete (mapSet pending key pc) key = mapDelete pending key.
Proof. destruct key; cbn; try done. apply delete_insert_eq. Qed.

Lemma mapDelete_miss pending key :
  mapGet pending key = None -> mapDelete pending key = pending.
Proof. destruct key; cbn; try done. apply delete_id. Qed.

(** Every value but [undefined] converts to a text, which has no white
    space at its ends unless the value is a string. *)
Lemma stringifyOutput_total v :
  v <> JUndefined ->
  (forall s, v = JStr s -> trim s <> []) ->
  exists p, stringifyOutput v = Some p /\ well_ended p.
Proof.
  unfold stringifyOutput, JSON_stringify_pretty, JSON_stringify.
  destruct v as [| |b|z|s|items|props]; simpl; intros Hu Hs; [done|..];
    eexists; (split; [reflexivity|]).
  - by apply (well_ended_ends 110 108 [117; 108]%N).
  - destruct b;
      [by apply (well_ended_ends 116 101 [114; 117]%N)
      |by apply (well_ended_ends 102 101 [97; 108; 115]%N)].
  - apply Number_toString_well_ended.
  - apply trim_well_ended. by apply Hs.
  - by apply (wrap_well_ended _ _ 91 93).
  - by apply (wrap_well_ended _ _ 123 125).
Qed.

Lemma normalizeOutput_accepts v p :
  stringifyOutput v = Some p -> well_ended p ->
  exists s, normalizeOutput v = Ok s.
Proof.
  intros Hp Hw. unfold normalizeOutput. rewrite Hp.
  pose proof (well_ended_nonempty p Hw) as Hne.
  rewrite (well_ended_trim p Hw), bool_decide_eq_false_2 by done.
  destruct p; [done|]. cbn.
  destruct (_ >? _); by eexists.
Qed.

Lemma normalizeOutput_refused v e :
  normalizeOutput v = Throw e ->
  e = mkError (u16 "Invalid output format: Processed output is empty").
Proof.
  unfold normalizeOutput. destruct (stringifyOutput v) as [p|]; [|by intros [= <-]].
  destruct (negb _ || _); [by intros [= <-]|].
  by destruct (_ >? _).
Qed.

Lemma normalizeOutput_refuses v :
  (exists e, normalizeOutput v = Throw e)
  <-> v = JUndefined \/ exists s, v = JStr s /\ trim s = [].
Proof.
  split.
  - intros [e He].
    destruct v as [| |b|z|s|items|props]; [by left|..];
      try (lazymatch goal with
           | He : normalizeOutput ?v = _ |- _ =>
               destruct (stringifyOutput_total v ltac:(done) ltac:(done))
                 as (p & Hp & Hw)
           end;
           destruct (normalizeOutput_accepts _ _ Hp Hw) as [s' Hs'];
           congruence).
    destruct (decide (trim s = [])) as [Ht|Ht]; [right; by exists s|].
    destruct (stringifyOutput_total (JStr s) ltac:(done)) as (p & Hp & Hw).
    { by intros s' [= <-]. }
    destruct (normalizeOutput_accepts _ _ Hp Hw) as [s' Hs']. congruence.
  - intros [->|(s & -> & Ht)]; [by eexists|].
    unfold normalizeOutput, stringifyOutput. cbn [typeof str_of]. rewrite Ht.
    by eexists.
Qed.

(** ** The sweep and the inspection methods *)

Lemma viewEntries_entries env entries :
  forall w,
  exists views w',
    viewEntries entries env w = (Ok views, w')
    /\ handler w' = handler w /\ requests w' = requests w /\ trace w' = trace w
    /\ List.map (fun v => (PendingView.toolCallId v, PendingView.call v)) views
       = entries.
Proof.
  induction entries as [|[id data] rest IH]; intros w; cbn [viewEntries].
  - by exists [], w.
  - run_monad.
    lazymatch goal with
    | |- context [viewEntries rest env ?w0] =>
        destruct (IH w0) as (views & w' & -> & ? & ? & ? & Hcalls)
    end.
    eexists _, w'. split_and!; try done. cbn. by rewrite Hcalls.
Qed.

Lemma getPendingCalls_entries env w :
  exists views w',
    getPendingCalls env w = (Ok views, w')
    /\ handler w' = handler w /\ requests w' = requests w /\ trace w' = trace w
    /\ List.map (fun v => (PendingView.toolCallId v, PendingView.call v)) views
       = map_to_list (store w).
Proof. unfold getPendingCalls. rewrite bind_eq. cbn. apply viewEntries_entries. Qed.

(** ** Statistics *)

Lemma countCall_fold views :
  forall stats,
    let stats' := fold_left Inspection.countCall views stats in
    Stats.total_pending stats' = Stats.total_pending stats
    /\ Stats.under_1min stats' + Stats.under_5min stats'
       + Stats.under_30min stats' + Stats.over_30min stats'
       = Stats.under_1min stats + Stats.under_5min stats
         + Stats.under_30min stats + Stats.over_30min stats
         + Z.of_nat (length views)
    /\ Stats.oldest_call_age stats <= Stats.oldest_call_age stats'
    /\ Forall (fun v => PendingView.age_seconds v <= Stats.oldest_call_age stats')
         views
    /\ Stats.retry_attempts stats' = Stats.retry_attempts stats
    /\ Stats.retry_delay stats' = Stats.retry_delay stats
    /\ Stats.max_retry_delay stats' = Stats.max_retry_delay stats
    /\ Stats.timestamp stats' = Stats.timestamp stats.
Proof.
  induction views as [|v views IH]; intros stats; cbn [fold_left].
  - cbn. split_and!; try done; lia.
  - destruct (IH (Inspection.countCall stats v))
      as (Ht & Hb & Ho & Hall & H1 & H2 & H3 & H4).
    cbn zeta. rewrite Ht, Hb, H1, H2, H3, H4.
    assert (Hstep :
      Stats.oldest_call_age stats
        <= Stats.oldest_call_age (Inspection.countCall stats v)
      /\ PendingView.age_seconds v
        <= Stats.oldest_call_age (Inspection.countCall stats v)).
    { unfold Inspection.countCall. cbn.
      destruct (_ >? _) eqn:E;
        [apply Z.gtb_lt in E|rewrite Z.gtb_ltb in E; apply Z.ltb_ge in E];
        lia. }
    split_and!; try done.
    + unfold Inspection.countCall. cbn [Stats.under_1min Stats.under_5min
        Stats.under_30min Stats.over_30min length].
      destruct (PendingView.age_seconds v <? 60);
        destruct (PendingView.age_seconds v <? 300);
        destruct (PendingView.age_seconds v <? 1800); cbn; lia.
    + lia.
    + constructor; [lia|done].
Qed.

(** After a dispatch for a resolved employee, the entry of a tool call whose
    arguments parse. *)
Lemma dispatch_frame_entry env w toolCalls threadId runId employeeId webhookUrl
    toolCall arguments :
  resolves env employeeId webhookUrl ->
  toolCall ∈ toolCalls ->
  JSON_parse env (ToolCall.function_arguments toolCall) = Ok arguments ->
  exists pc,
    store (snd (sendToolCalls toolCalls threadId runId employeeId env w))
      !! ToolCall.id toolCall = Some pc
    /\ dispatchedFor threadId runId employeeId pc.
Proof.
  intros Hres Hin Hparse.
  rewrite (sendToolCalls_eq _ _ _ _ _ _ _ Hres).
  destruct Hres as (employee & Hemp & _).
  destruct (sendToolCalls_loop toolCalls threadId runId employeeId webhookUrl
              [] env w) as [res w'] eqn:Hloop.
  apply (sendToolCalls_loop_frame _ _ _ _ _ _ _ Hemp) in Hloop
    as [(_ & _ & Hnew) _].
  by apply (Hnew _ arguments).
Qed.

(** An employee without a usable webhook URL: the dispatch throws at once. *)
Lemma sendToolCalls_unresolved env w toolCalls threadId runId employeeId :
  (forall webhookUrl, ~ resolves env employeeId webhookUrl) ->
  sendToolCalls toolCalls threadId runId employeeId env w
  = (Throw (configurationFailure env employeeId), w).
Proof.
  intros Hno. unfold sendToolCalls, configurationFailure.
  rewrite bind_eq, try_catch_eq, bind_eq.
  unfold getWebhookUrlForEmployee. rewrite bind_eq. cbn.
  destruct (employees env !! employeeId) as [employee|] eqn:Hemp; [|done].
  destruct (negb _ || includes _ _) eqn:Hc; [done|].
  exfalso. apply (Hno (Employee.webhookUrl employee)).
  exists employee. apply orb_false_iff in Hc as [Hc1 Hc2].
  split_and!; try done. intros E. by rewrite E in Hc1.
Qed.

(** ** The retry loops of the routes *)

Lemma retrying_eq {A} more pause (action : M A) fatal exhausted env w :
  Routes.retrying more pause action fatal exhausted env w
  = match action env w with
    | (Ok a, w') => (Ok a, w')
    | (Throw e, w') =>
        match fatal e with
        | Some e' => (Throw e', w')
        | None =>
            match more with
            | O => exhausted e env w'
            | S more' =>
                Routes.retrying more' pause action fatal exhausted env
                  (addTrace w' [EvSleep pause])
            end
        end
    end.
Proof.
  destruct more; cbn [Routes.retrying]; rewrite try_catch_eq;
    destruct (action env w) as [[a|e] w']; try done;
    destruct (fatal e); done.
Qed.

Lemma provider_eq {A} c (k : Env -> nat -> result A) env w :
  Routes.provider c k env w
  = (k env (requests w),
     mkWorld (handler w) (reads w) (S (requests w)) (trace w ++ [EvProvider c])).
Proof. reflexivity. Qed.

Local Arguments Routes.retrying : simpl never.
Local Arguments Routes.provider : simpl never.
Local Arguments processWebhookResponse : simpl never.

Lemma sleepsOf_app e1 e2 : sleepsOf (e1 ++ e2) = sleepsOf e1 ++ sleepsOf e2.
Proof. unfold sleepsOf. by rewrite flat_map_app. Qed.

Lemma postAttempts_app e1 e2 :
  postAttempts (e1 ++ e2) = postAttempts e1 ++ postAttempts e2.
Proof. unfold postAttempts. by rewrite flat_map_app. Qed.

Lemma outputSignals_quiet output :
  sleepsOf (outputSignals output) = [].
Proof.
  unfold outputSignals. destruct (stringifyOutput output) as [p|]; [|done].
  destruct (negb _ || _); [done|]. by destruct (_ >? _).
Qed.

(** A refusal of [processWebhookResponse] depends on the response and the
    store only, and leaves both as they are. *)
Lemma processWebhookResponse_refusal r env w e :
  fst (processWebhookResponse r env w) = Throw e ->
  forall w2, store w2 = store w ->
    exists events,
      processWebhookResponse r env w2 = (Throw e, addTrace w2 events)
      /\ sleepsOf events = [].
Proof.
  intros Hrun w2 Hstore.
  destruct (decide (validationErrors r = [])) as [Hv|Hv]; cycle 1.
  { rewrite processWebhookResponse_invalid in Hrun by done.
    rewrite processWebhookResponse_invalid by done.
    cbn [fst] in Hrun. injection Hrun as <-. by eexists. }
  destruct (normalizeOutput (ResponseData.output r)) as [s|e0] eqn:Ho; cycle 1.
  { rewrite (processWebhookResponse_bad_output r env w e0) in Hrun by done.
    rewrite (processWebhookResponse_bad_output r env w2 e0) by done.
    cbn [fst] in Hrun. injection Hrun as <-.
    eexists. split; [done|]. apply outputSignals_quiet. }
  destruct (mapGet (store w) (ResponseData.tool_call_id r)) as [pc|] eqn:Hm; cycle 1.
  { by rewrite (processWebhookResponse_miss r env w s) in Hrun. }
  destruct (differs (PendingCall.threadId pc) (ResponseData.thread_id r)) eqn:Hd.
  { rewrite (processWebhookResponse_thread_mismatch r env w s pc) in Hrun by done.
    rewrite (processWebhookResponse_thread_mismatch r env w2 s pc)
      by (by rewrite ?Hstore).
    cbn [fst] in Hrun. injection Hrun as <-. eexists. split; [done|].
    by rewrite sleepsOf_app, outputSignals_quiet. }
  destruct (differs (PendingCall.runId pc) (ResponseData.run_id r)) eqn:Hd'.
  { rewrite (processWebhookResponse_run_mismatch r env w s pc) in Hrun by done.
    rewrite (processWebhookResponse_run_mismatch r env w2 s pc)
      by (by rewrite ?Hstore).
    cbn [fst] in Hrun. injection Hrun as <-. eexists. split; [done|].
    by rewrite sleepsOf_app, outputSignals_quiet. }
  by rewrite (processWebhookResponse_match r env w s pc) in Hrun.
Qed.

Lemma retrying_refusal r env e pause :
  forall more w0 w,
    fst (processWebhookResponse r env w0) = Throw e ->
    store w = store w0 ->
    exists events,
      Routes.retrying more pause (processWebhookResponse r) Routes.noFatal throw env w
      = (Throw e, addTrace w events)
      /\ sleepsOf events = repeat pause more.
Proof.
  induction more as [|more IH]; intros w0 w Hrun Hstore;
    rewrite retrying_eq;
    destruct (processWebhookResponse_refusal r env w0 e Hrun w Hstore)
      as (ev1 & -> & Hq1); cbn.
  - by exists ev1.
  - destruct (IH w0 (addTrace (addTrace w ev1) [EvSleep pause]) Hrun Hstore)
      as (ev2 & -> & Hq2).
    exists (ev1 ++ [EvSleep pause] ++ ev2). split.
    + by rewrite !addTrace_app.
    + rewrite !sleepsOf_app, Hq1, Hq2. done.
Qed.

(** A provider request that fails at every try. *)
Lemma retrying_provider_fails {A} c (k : Env -> nat -> result A) pause env :
  (forall n, exists e, k env n = Throw e) ->
  forall more w,
    exists e events,
      Routes.retrying more pause (Routes.provider c k) Routes.noFatal throw env w
      = (Throw e,
         mkWorld (handler w) (reads w) (requests w + S more)%nat
           (trace w ++ events))
      /\ k env (requests w + more)%nat = Throw e
      /\ events
         = List.concat (repeat [EvProvider c; EvSleep pause] more) ++ [EvProvider c].
Proof.
  intros Hfail. induction more as [|more IH]; intros w;
    rewrite retrying_eq, provider_eq;
    destruct (Hfail (requests w)) as [e He]; rewrite He; cbn.
  - exists e, [EvProvider c]. rewrite !Nat.add_0_r, Nat.add_1_r.
    by rewrite He.
  - lazymatch goal with
    | |- context [Routes.retrying more pause _ _ _ env ?w0] =>
        destruct (IH w0) as (e' & events & -> & He' & ->)
    end.
    cbn in He' |- *.
    exists e', ([EvProvider c; EvSleep pause]
                ++ List.concat (repeat [EvProvider c; EvSleep pause] more)
                ++ [EvProvider c]).
    split_and!.
    + f_equal. f_equal; [lia|]. by rewrite <- !app_assoc.
    + by replace (requests w + S more)%nat with (S (requests w + more)) by lia.
    + done.
Qed.

(** The verdict of the active-run check on a listing that is not empty. *)
Lemma active_run_verdict env w threadId employeeConfig latestRun others :
  provider_runs_list env (requests w) threadId = Ok (latestRun :: others) ->
  exists verdict w',
    Routes.checkActiveRun threadId employeeConfig env w = (Ok verdict, w')
    /\ handler w' = handler w
    /\ requests w' = S (requests w)
    /\ trace w' = trace w ++ [EvProvider (RunsList threadId)]
    /\ ((exists answer, verdict = Some answer)
        <-> blocking (store w) threadId latestRun)
    /\ forall answer, verdict = Some answer ->
         exists body, answer = Respond 409 body.
Proof.
  intros Hruns. unfold Routes.checkActiveRun.
  rewrite try_catch_eq, bind_eq, provider_eq. rewrite Hruns.
  cbn [fst snd].
  destruct (bool_decide (Run.status latestRun ∈ Routes.activeStatuses)) eqn:Hact;
    cycle 1.
  { cbn. eexists _, _. split_and!; try done.
    split; [by intros [? ?]|].
    apply bool_decide_eq_false in Hact. unfold Routes.activeStatuses in Hact.
    intros [[Hq|Hq]|[Hq _]]; exfalso; apply Hact; rewrite Hq; set_solver. }
  destruct (bool_decide (Run.status latestRun = u16 "requires_action")) eqn:Hreq;
    cycle 1.
  { cbn. eexists _, _. split_and!; try done.
    - split; [|by eexists]. intros _. left.
      apply bool_decide_eq_true in Hact. apply bool_decide_eq_false in Hreq.
      unfold Routes.activeStatuses in Hact.
      apply elem_of_cons in Hact as [?|Hact]; [by left|].
      apply elem_of_cons in Hact as [?|Hact]; [by right|].
      apply list_elem_of_singleton in Hact. done.
    - intros answer [= <-]. by eexists. }
  apply bool_decide_eq_true in Hreq.
  rewrite bind_eq.
  lazymatch goal with
  | |- context [getPendingCalls env ?w0] =>
      destruct (getPendingCalls_calls env w0)
        as (views & w' & -> & Hh & Hrq & Htr & Hcalls)
  end.
  cbn in Hh, Hrq, Htr.
  assert (Hstored : List.map PendingView.call views
                    = List.map snd (map_to_list (store w))) by exact Hcalls.
  clear Hcalls.
  set (matching := List.filter _ views).
  assert (Hmatch : matching <> [] <->
            exists id pc, store w !! id = Some pc
                          /\ PendingCall.threadId pc = threadId
                          /\ PendingCall.runId pc = Run.id latestRun).
  { split.
    - intros Hne. destruct matching as [|v vs] eqn:E; [done|].
      assert (Hv : In v matching) by (rewrite E; by left).
      apply filter_In in Hv as [Hv Hcond].
      apply andb_true_iff in Hcond as [Ht Hr].
      apply bool_decide_eq_true in Ht, Hr.
      assert (Hpc : PendingView.call v ∈ List.map snd (map_to_list (store w))).
      { rewrite <- Hstored. apply list_elem_of_fmap. exists v.
        split; [done|]. by apply list_elem_of_In. }
      apply list_elem_of_fmap in Hpc as ([id pc] & Heq & Hin).
      apply elem_of_map_to_list in Hin. cbn in Heq. subst pc.
      by exists id, (PendingView.call v).
    - intros (id & pc & Hin & Ht & Hr) Hnil.
      assert (Hpc : pc ∈ List.map PendingView.call views).
      { rewrite Hstored. apply list_elem_of_fmap. exists (id, pc).
        split; [done|]. by apply elem_of_map_to_list. }
      apply list_elem_of_fmap in Hpc as (view & -> & Hview).
      assert (Hv : In view matching).
      { apply filter_In. split; [by apply list_elem_of_In|].
        rewrite Ht, Hr. by rewrite !bool_decide_eq_true_2. }
      rewrite Hnil in Hv. done. }
  destruct matching as [|v vs] eqn:E.
  - change (Z.of_nat (length []) >? 0) with false. cbn.
    eexists _, w'. split_and!; try done.
    split; [by intros [? ?]|].
    intros [[Hq|Hq]|[_ Hex]]; exfalso.
    + rewrite Hq in Hreq. done.
    + rewrite Hq in Hreq. done.
    + by apply Hmatch in Hex.
  - assert ((Z.of_nat (length (v :: vs)) >? 0) = true) as ->
      by (apply Z.gtb_lt; cbn [length]; lia).
    cbn. eexists _, w'. split_and!; try done.
    + split; [|by eexists]. intros _. right. split; [done|].
      by apply Hmatch.
    + intros answer [= <-]. by eexists.
Qed.

(** The route's handler on a result [processWebhookResponse] refuses. *)
Lemma route_refusal env w body e :
  openaiService env = true ->
  fst (processWebhookResponse body env w) = Throw e ->
  exists w' events,
    Routes.webhookResponseHandler body env w
    = (Ok (Next (u16 "Webhook response processing failed") (message e)), w')
    /\ trace w' = trace w ++ events
    /\ sleepsOf events = [500; 500]
    /\ requests w' = requests w
    /\ store w' = store w.
Proof.
  intros Hsvc Hrun. unfold Routes.webhookResponseHandler.
  rewrite try_catch_eq, bind_eq. cbn [getEnv]. rewrite Hsvc. cbn [negb].
  rewrite bind_eq.
  destruct (getPendingCalls_calls env w) as (views & w1 & -> & Hh & Hreq & Htr & _).
  rewrite bind_eq.
  destruct (retrying_refusal body env e 500 2 w w1 Hrun) as (events & -> & Hsl).
  { unfold store. by rewrite Hh. }
  exists (addTrace w1 events), events. split; [reflexivity|].
  cbn. unfold store. cbn. rewrite Htr, Hreq, Hh. by split_and!.
Qed.

Lemma mutations_app e1 e2 : mutations (e1 ++ e2) = mutations e1 ++ mutations e2.
Proof. unfold mutations. by rewrite flat_map_app. Qed.

Lemma outputSignals_silent output : mutations (outputSignals output) = [].
Proof.
  unfold outputSignals. destruct (stringifyOutput output) as [p|]; [|done].
  destruct (negb _ || _); [done|]. by destruct (_ >? _).
Qed.

Lemma retried_requests_mutations c pause more :
  mutates c = true ->
  mutations (List.concat (repeat [EvProvider c; EvSleep pause] more)
               ++ [EvProvider c])
  = repeat c (S more)
  /\ sleepsOf (List.concat (repeat [EvProvider c; EvSleep pause] more)
                 ++ [EvProvider c])
     = repeat pause more.
Proof.
  intros Hc. induction more as [|more [IH1 IH2]].
  - cbn. by rewrite Hc.
  - cbn [repeat List.concat]. rewrite <- app_assoc. split.
    + rewrite mutations_app, IH1. cbn. by rewrite Hc.
    + rewrite sleepsOf_app, IH2. done.
Qed.

Lemma describeToolCalls_eq env toolCalls w :
  Routes.describeToolCalls toolCalls env w = (describeResult env toolCalls, w).
Proof.
  induction toolCalls as [|tc rest IH]; cbn [Routes.describeToolCalls describeResult];
    [done|].
  rewrite bind_eq. cbn [getEnv]. rewrite bind_eq.
  destruct (JSON_parse env (ToolCall.function_arguments tc)) as [arguments|e];
    [|done].
  rewrite bind_eq, IH. by destruct (describeResult env rest).
Qed.

(** The first three steps of a turn when the provider accepts the message,
    starts a run and reports its status. *)
Lemma runTurn_start env w message_ threadId employeeId assistantId employeeConfig
    runId result :
  provider_addMessage env (requests w) threadId message_ = Ok tt ->
  provider_runAssistant env (S (requests w)) threadId assistantId = Ok runId ->
  provider_pollRunStatus env (S (S (requests w))) threadId runId = Ok result ->
  PollResult.status result = u16 "requires_action" ->
  Routes.runTurn message_ threadId employeeId assistantId employeeConfig env w
  = (let w0 := afterTurnStart w message_ threadId assistantId runId in
     if negb (truthy (JStr (Employee.webhookUrl employeeConfig)))
        || includes (Employee.webhookUrl employeeConfig) (u16 "placeholder")
     then
       bind (Routes.toolCallsOf result) (fun toolCalls =>
         bind (Routes.describeToolCalls toolCalls) (fun described =>
           ret (Respond 503
                  (WebhookNotConfigured employeeConfig described threadId runId))))
         env w0
     else
       bind (Routes.toolCallsOf result) (fun toolCalls =>
         bind (Routes.retrying 2 2000
                 (sendToolCalls toolCalls threadId runId employeeId)
                 Routes.noFatal
                 (fun error =>
                    ret (List.map
                           (fun tc =>
                              DeliveryResult.error (ToolCall.id tc) employeeId
                                (Some (Employee.name employeeConfig))
                                (u16 "Failed to send to webhook after multiple attempts")
                                None)
                           toolCalls)))
           (fun webhookResults =>
              bind (Routes.describeToolCalls toolCalls) (fun described =>
                bind now (fun stamp =>
                  ret (Respond 200
                         (TurnRequiresAction threadId runId assistantId
                            employeeConfig described webhookResults stamp))))))
         env w0).
Proof.
  intros Hadd Hrun Hpoll Hstatus.
  unfold Routes.runTurn, afterTurnStart.
  rewrite bind_eq, retrying_eq, provider_eq, Hadd.
  rewrite bind_eq, retrying_eq, provider_eq. cbn [requests]. rewrite Hrun.
  rewrite bind_eq, retrying_eq, provider_eq. cbn [requests]. rewrite Hpoll.
  rewrite Hstatus. cbn [bool_decide]. 
  rewrite bool_decide_eq_false_2 by discriminate.
  rewrite bool_decide_eq_true_2 by done.
  cbn [handler reads requests trace].
  replace (S (S (S (requests w)))) with (requests w + 3)%nat by lia.
  rewrite <- !app_assoc. cbv zeta.
  by destruct (negb _ || _).
Qed.

Lemma outputSignals_unposted output : postAttempts (outputSignals output) = [].
Proof.
  unfold outputSignals. destruct (stringifyOutput output) as [p|]; [|done].
  destruct (negb _ || _); [done|]. by destruct (_ >? _).
Qed.

Lemma missSignals_quiet pending id :
  postAttempts (missSignals pending id) = []
  /\ mutations (missSignals pending id) = []
  /\ sleepsOf (missSignals pending id) = [].
Proof. unfold missSignals. by destruct (bool_decide _). Qed.

Lemma unresolved_unknown env employeeId :
  employees env !! employeeId = None ->
  forall webhookUrl, ~ resolves env employeeId webhookUrl.
Proof. intros Hnone webhookUrl (employee & Hemp & _). congruence. Qed.

Lemma getStatistics_spec env w :
  exists stats w',
    Inspection.getStatistics env w = (Ok stats, w')
    /\ handler w' = handler w
    /\ requests w' = requests w
    /\ trace w' = trace w
    /\ Stats.total_pending stats = Z.of_nat (size (store w))
    /\ Stats.under_1min stats + Stats.under_5min stats
       + Stats.under_30min stats + Stats.over_30min stats
       = Stats.total_pending stats
    /\ 0 <= Stats.oldest_call_age stats
    /\ Stats.retry_attempts stats = Handler.retryAttempts (handler w)
    /\ Stats.retry_delay stats = Handler.retryDelay (handler w)
    /\ Stats.max_retry_delay stats = Handler.maxRetryDelay (handler w).
Proof.
  unfold Inspection.getStatistics. rewrite bind_eq.
  destruct (getPendingCalls_entries env w)
    as (views & w1 & -> & Hh & Hreq & Htr & Hentries).
  run_monad.
  assert (Hlen : length views = size (store w)).
  { by rewrite <- length_map_to_list, <- Hentries, length_map. }
  lazymatch goal with
  | |- context [fold_left Inspection.countCall views ?s0] =>
      pose proof (countCall_fold views s0) as Hfold;
      set (stats := fold_left Inspection.countCall views s0) in *
  end.
  cbn in Hfold. destruct Hfold as (Ht & Hb & Ho & _ & H1 & H2 & H3 & _).
  exists stats. eexists. split; [reflexivity|]. cbn [handler requests trace].
  rewrite <- Hh, <- Hlen.
  split_and!; try done; try lia.
Qed.

(** ** Delivery *)

(** X1.  Whatever the clock and the transport do, one call of
    [sendWebhookWithRetry] makes at least one request and at most
    [retryAttempts - attempt + 1] of them (one, when [attempt] is already
    past the maximum), waits exactly once between two consecutive requests,
    and waits in total at most [maxRetryDelay] times the number of waits. *)
Theorem delivery_attempts_bounded env w payload webhookUrl attempt :
  let run := sendWebhookWithRetry payload webhookUrl attempt env w in
  let this := handler w in
  exists events,
    trace (snd run) = trace w ++ events
    /\ requests (snd run) = (requests w + length (postAttempts events))%nat
    /\ (1 <= length (postAttempts events)
        <= S (Z.to_nat (Handler.retryAttempts this - attempt)))%nat
    /\ S (length (sleepsOf events)) = length (postAttempts events)
    /\ sumZ (sleepsOf events)
       <= Z.of_nat (length (sleepsOf events)) * Handler.maxRetryDelay this.
Proof.
  intros run this. destruct run as [res w'] eqn:Hrun. subst run.
  apply sendWebhookWithRetry_bounds in Hrun.
  destruct Hrun as (events & Htrace & Hreq & Hcount & Hsleeps & Hmax & _).
  exists events.
  split; [exact Htrace|]. split; [exact Hreq|]. split; [exact Hcount|].
  split; [exact Hsleeps|]. by apply sumZ_bounded.
Qed.

(** X2.  [sendWebhookWithRetry] reports a call as sent only when its last
    request was answered with a status below 400; the record then echoes
    the data of that answer and carries the number of that attempt, and the
    stored entry is still there and not marked failed: untouched when the
    first request succeeded, otherwise with [retryCount] the number of the
    last failed attempt. *)
Theorem delivery_sent_means_answered env w payload webhookUrl attempt r w' pc :
  store w !! Payload.tool_call_id payload = Some pc ->
  sendWebhookWithRetry payload webhookUrl attempt env w = (Ok r, w') ->
  exists response made pc',
    (1 <= made)%nat
    /\ requests w' = (requests w + made)%nat
    /\ transport env (pred (requests w')) webhookUrl payload
       = Http.answered response
    /\ Http.status response < 400
    /\ (exists responseTime,
          r = DeliveryResult.sent (Payload.tool_call_id payload)
                (Payload.employee_id payload) (Payload.employee_name payload)
                webhookUrl (Http.data response) (attempt + Z.of_nat made - 1)
                responseTime)
    /\ store w' !! Payload.tool_call_id payload = Some pc'
    /\ sameCall pc pc'
    /\ PendingCall.status pc' = PendingCall.status pc
    /\ (made = 1%nat -> pc' = pc)
    /\ ((1 < made)%nat ->
        PendingCall.retryCount pc' = attempt + Z.of_nat made - 2).
Proof.
  intros Hin Hrun. apply sendWebhookWithRetry_bounds in Hrun.
  destruct Hrun as (events & _ & Hreq & Hcount & _ & _ & Hentry & response & Htr & Hst & Hr).
  destruct (Hentry pc Hin) as (pc' & Hpc' & Hsame & Hstatus & _ & Hone & Hmany).
  exists response, (length (postAttempts events)), pc'.
  split; [lia|]. split; [exact Hreq|]. split; [exact Htr|].
  split; [exact Hst|]. split; [exact Hr|]. split; [exact Hpc'|].
  split; [exact Hsame|]. split; [exact Hstatus|]. split; [exact Hone|].
  exact Hmany.
Qed.

Lemma delivery_sent_means_answered_witness :
  exists r w',
    sendWebhookWithRetry sample_payload (u16 "https://hook") 1 online_env sample_world
    = (Ok r, w')
    /\ store w' !! u16 "call_1" = Some sample_call
    /\ requests w' = 1%nat.
Proof.
  destruct (sendWebhookWithRetry sample_payload (u16 "https://hook") 1
              online_env sample_world) as [[r|e] w'] eqn:Hrun.
  2: { vm_compute in Hrun. discriminate. }
  destruct (delivery_sent_means_answered online_env sample_world sample_payload
              (u16 "https://hook") 1 r w' sample_call eq_refl Hrun)
    as (response & made & pc' & _ & Hreq & _ & _ & _ & Hpc' & _ & _ & Hone & _).
  assert (Hmade : requests w' = 1%nat).
  { vm_compute in Hrun. by injection Hrun as _ <-. }
  exists r, w'. split; [reflexivity|]. split; [|exact Hmade].
  assert (Hpc : pc' = sample_call).
  { apply Hone. rewrite Hmade in Hreq.
    change (requests sample_world) with 0%nat in Hreq. lia. }
  rewrite <- Hpc. exact Hpc'.
Defined.

(** ** Dispatch *)

(** X3.  For an employee without a usable webhook URL (not configured, or
    configured with an empty or placeholder URL) [sendToolCalls] throws the
    configuration error of [getWebhookUrlForEmployee] whatever the tool
    calls are, and by then no entry has been stored, no request has been
    made and the clock has not been read. *)
Theorem dispatch_fails_fast env w toolCalls threadId runId employeeId :
  (forall webhookUrl, ~ resolves env employeeId webhookUrl) ->
  sendToolCalls toolCalls threadId runId employeeId env w
  = (Throw (configurationFailure env employeeId), w).
Proof.
  apply sendToolCalls_unresolved.
Qed.

Lemma dispatch_fails_fast_witness :
  sendToolCalls [sample_toolCall] (u16 "thread_1") (u16 "run_1") (u16 "nobody")
    offline_env empty_world
  = (Throw (mkError (u16 "Employee 'nobody' not found in configuration")),
     empty_world).
Proof.
  apply (dispatch_fails_fast offline_env empty_world [sample_toolCall]
           (u16 "thread_1") (u16 "run_1") (u16 "nobody")).
  intros webhookUrl (employee & Hemp & _). vm_compute in Hemp. discriminate.
Defined.

(** X4.  When the employee's webhook URL resolves, [sendToolCalls] leaves in
    the store an entry for every tool call whose arguments parse, filed
    under the call's identifier with the thread, the run and the employee
    of the dispatch, whether or not the delivery succeeded; it removes no
    key, and the entries under other keys than the identifiers of the tool
    calls are not touched. *)
Theorem dispatch_records_calls env w toolCalls threadId runId employeeId webhookUrl :
  resolves env employeeId webhookUrl ->
  let run := sendToolCalls toolCalls threadId runId employeeId env w in
  recorded env toolCalls threadId runId employeeId (store w) (store (snd run)).
Proof.
  intros Hres run. subst run.
  rewrite (sendToolCalls_eq _ _ _ _ _ _ _ Hres).
  destruct Hres as (employee & Hemp & _).
  destruct (sendToolCalls_loop toolCalls threadId runId employeeId webhookUrl
              [] env w) as [res w'] eqn:Hloop.
  by apply (sendToolCalls_loop_frame _ _ _ _ _ _ _ Hemp) in Hloop as [? _].
Qed.

Lemma dispatch_records_calls_witness :
  recorded online_env [sample_toolCall] (u16 "thread_1") (u16 "run_1")
    (u16 "brenden") ∅
    (store (snd (sendToolCalls [sample_toolCall] (u16 "thread_1") (u16 "run_1")
                   (u16 "brenden") online_env empty_world))).
Proof.
  apply (dispatch_records_calls online_env empty_world [sample_toolCall]
           (u16 "thread_1") (u16 "run_1") (u16 "brenden")
           (u16 "https://hook.eu2.make.com/lxa5qab0magprieff0sujnfkfycwu9x7")).
  eexists. split; [by vm_compute|]. split; [reflexivity|].
  split; [discriminate|by vm_compute].
Defined.

(** X5.  A tool call whose arguments the parser refuses is reported as an
    error record carrying the parser's message, marked retryable, and is
    neither stored nor sent: when no tool call of the list parses,
    [sendToolCalls] returns one such record per call, in order, having
    stored nothing and requested nothing. *)
Theorem unparsable_calls_not_dispatched env w toolCalls threadId runId employeeId
    webhookUrl :
  resolves env employeeId webhookUrl ->
  Forall (fun tc => exists e,
            JSON_parse env (ToolCall.function_arguments tc) = Throw e) toolCalls ->
  let run := sendToolCalls toolCalls threadId runId employeeId env w in
  fst run
  = Ok (List.map (fun tc => DeliveryResult.error (ToolCall.id tc) employeeId
                              None (parseFailure env tc) (Some true))
          toolCalls)
  /\ store (snd run) = store w
  /\ requests (snd run) = requests w.
Proof.
  intros Hres Hall run. subst run.
  rewrite (sendToolCalls_eq _ _ _ _ _ _ _ Hres).
  by rewrite (sendToolCalls_loop_unparsed _ _ _ _ _ _ Hall).
Qed.

Lemma unparsable_calls_not_dispatched_witness :
  let run := sendToolCalls [sample_toolCall] (u16 "thread_1") (u16 "run_1")
               (u16 "brenden") unparsing_env empty_world in
  fst run
  = Ok [DeliveryResult.error (ToolCall.id sample_toolCall) (u16 "brenden") None
          (u16 "Unexpected token in JSON") (Some true)]
  /\ store (snd run) = ∅
  /\ requests (snd run) = 0%nat.
Proof.
  apply (unparsable_calls_not_dispatched unparsing_env empty_world
           [sample_toolCall] (u16 "thread_1") (u16 "run_1") (u16 "brenden")
           (u16 "https://hook.eu2.make.com/lxa5qab0magprieff0sujnfkfycwu9x7")).
  - eexists. split; [by vm_compute|]. split; [reflexivity|].
    split; [discriminate|by vm_compute].
  - constructor; [|constructor]. by eexists.
Defined.

(** ** Correlation *)

(** X6.  [processWebhookResponse] makes no request, keeps the handler's
    settings, and touches the store in one way only: when it fails, for
    whatever reason, the store is as before; when it returns, the store is
    the previous one without the entry of the response's [tool_call_id]
    (the previous one itself when there was no such entry), and the result
    echoes the three identifiers of the response. *)
Theorem correlation_frame r env w :
  let run := processWebhookResponse r env w in
  requests (snd run) = requests w
  /\ sameSettings (handler w) (handler (snd run))
  /\ match fst run with
     | Throw _ => store (snd run) = store w
     | Ok resp =>
         store (snd run) = mapDelete (store w) (ResponseData.tool_call_id r)
         /\ ProcessedResponse.tool_call_id resp = ResponseData.tool_call_id r
         /\ ProcessedResponse.thread_id resp = ResponseData.thread_id r
         /\ ProcessedResponse.run_id resp = ResponseData.run_id r
     end.
Proof.
  intros run. subst run.
  destruct (decide (validationErrors r = [])) as [Hv|Hv]; cycle 1.
  { rewrite processWebhookResponse_invalid by done. cbn.
    split_and!; first [done|apply sameSettings_refl]. }
  destruct (normalizeOutput (ResponseData.output r)) as [s|e] eqn:Ho; cycle 1.
  { rewrite (processWebhookResponse_bad_output r env w e) by done. cbn.
    split_and!; first [done|apply sameSettings_refl]. }
  destruct (mapGet (store w) (ResponseData.tool_call_id r)) as [pc|] eqn:Hm; cycle 1.
  { rewrite (processWebhookResponse_miss r env w s) by done. cbn.
    split_and!;
      first [done|apply sameSettings_refl|symmetry; by apply mapDelete_miss]. }
  destruct (differs (PendingCall.threadId pc) (ResponseData.thread_id r)) eqn:Hd.
  { rewrite (processWebhookResponse_thread_mismatch r env w s pc) by done. cbn.
    split_and!; first [done|apply sameSettings_refl]. }
  destruct (differs (PendingCall.runId pc) (ResponseData.run_id r)) eqn:Hd'.
  { rewrite (processWebhookResponse_run_mismatch r env w s pc) by done. cbn.
    split_and!; first [done|apply sameSettings_refl]. }
  rewrite (processWebhookResponse_match r env w s pc) by done. cbn.
  split_and!; first [done|apply sameSettings_refl|apply mapDelete_mapSet].
Qed.

(** X7.  The output-processing block refuses exactly two kinds of output:
    [undefined], and a string that is empty or all white space; a number, a
    boolean, [null], an array or an object is always accepted.  The error is
    in every case 'Invalid output format: Processed output is empty'. *)
Theorem output_refused_iff_blank output env w :
  ((exists e, fst (processOutput output env w) = Throw e)
   <-> output = JUndefined \/ exists s, output = JStr s /\ trim s = [])
  /\ forall e,
      fst (processOutput output env w) = Throw e ->
      e = mkError (u16 "Invalid output format: Processed output is empty").
Proof.
  rewrite processOutput_eq. cbn [fst]. split.
  - apply normalizeOutput_refuses.
  - apply normalizeOutput_refused.
Qed.

(** X8.  The output [processWebhookResponse] reports is never empty, has no
    white space at its ends, is at most 100038 units long (the limit plus
    the truncation marker), and [output_size] is its length. *)
Theorem accepted_output_bounded r env w resp w' :
  processWebhookResponse r env w = (Ok resp, w') ->
  let output := ProcessedResponse.output resp in
  0 < jslength output <= 100038
  /\ trim output = output
  /\ ProcessedResponse.output_size resp = jslength output.
Proof.
  intros Hrun output. subst output.
  destruct (processWebhookResponse_ok_inv r env w resp w' Hrun)
    as (_ & Ho & _ & _ & _ & Hsize).
  pose proof (normalizeOutput_well_ended _ _ Ho) as Hw.
  destruct (normalizeOutput_ok _ _ Ho) as (p & _ & _ & Hlong & Hshort).
  split_and!; [| |by apply well_ended_trim|done].
  - destruct Hw as [(c & t & -> & _) _]. unfold jslength. cbn [length]. lia.
  - destruct (Z_gt_le_dec (jslength p) outputLimit) as [Hgt|Hle].
    + rewrite (Hlong Hgt). unfold jslength, substring0.
      rewrite length_app, length_take.
      change (length truncationMarker) with 38%nat.
      unfold outputLimit. lia.
    + rewrite (Hshort Hle). unfold outputLimit in Hle. lia.
Qed.

Lemma accepted_output_bounded_witness :
  exists resp,
    fst (processWebhookResponse
           (responseOf "call_1" (JNum 42) "thread_1" "run_1")
           offline_env sample_world) = Ok resp
    /\ 0 < jslength (ProcessedResponse.output resp) <= 100038
    /\ ProcessedResponse.output_size resp = jslength (ProcessedResponse.output resp).
Proof.
  destruct (processWebhookResponse
              (responseOf "call_1" (JNum 42) "thread_1" "run_1")
              offline_env sample_world) as [[resp|e] w'] eqn:Hrun.
  2: { vm_compute in Hrun. discriminate. }
  destruct (accepted_output_bounded _ _ _ _ _ Hrun) as (Hlen & _ & Hsize).
  exists resp. split; [reflexivity|]. split; [exact Hlen|exact Hsize].
Defined.

(** ** The sweep, the inspection methods and the statistics *)

(** X9.  One sweep is a filter of the store and nothing else: with the
    thresholds taken from its two clock readings, the store afterwards is
    the previous one restricted to the entries the policy does not evict
    (so no entry is added or modified, and a failed entry younger than two
    hours stays); the sweep makes no request, does not wait, and keeps the
    handler's settings. *)
Theorem sweep_is_filter env w :
  let twoHoursAgo := clock env (reads w) - twoHours in
  let oneDayAgo := clock env (S (reads w)) - oneDay in
  exists w',
    cleanupPendingCalls env w = (Ok tt, w')
    /\ store w'
       = filter (fun entry => evicted twoHoursAgo oneDayAgo (snd entry) = false)
           (store w)
    /\ sameSettings (handler w) (handler w')
    /\ requests w' = requests w
    /\ trace w' = trace w.
Proof.
  intros twoHoursAgo oneDayAgo. unfold cleanupPendingCalls. run_monad.
  lazymatch goal with
  | |- context [cleanup_loop ?l ?a ?b ?c ?d ?e ?w0] =>
      destruct (cleanup_loop_spec e a b l c d w0)
        as (counts & w' & Hrun & Hset & _ & Hreq & Htrace & Hnone & Hgone & Hkept);
      rewrite Hrun
  end.
  exists w'. split_and!; try done.
  apply map_eq. intros k.
  destruct (store w !! k) as [data|] eqn:Hk.
  - destruct (evicted twoHoursAgo oneDayAgo data) eqn:Hev.
    + rewrite (Hgone k data); [|by apply elem_of_map_to_list|exact Hev].
      symmetry. apply map_lookup_filter_None. right. intros x Hx. cbn.
      assert (x = data) as -> by congruence. by rewrite Hev.
    + transitivity (store w !! k).
      * apply Hkept. intros d Hd. apply elem_of_map_to_list in Hd.
        change (store w !! k = Some d) in Hd.
        assert (d = data) as -> by congruence. exact Hev.
      * rewrite Hk. symmetry. by apply map_lookup_filter_Some.
  - rewrite (Hnone k) by exact Hk.
    symmetry. apply map_lookup_filter_None. by left.
Qed.

(** X10.  The three inspection methods agree with the store and with each
    other, and none of them changes the handler: [getPendingCalls] lists
    the stored entries, each once, under its identifier; [getPendingCall]
    returns the stored entry of an identifier, and [null] exactly when
    there is none; [isPending] reports [pending: true] exactly for the
    identifiers [getPendingCalls] lists. *)
Theorem inspection_agrees env w id :
  exists status detail views w1 w2 w3,
    Inspection.isPending id env w = (Ok status, w1)
    /\ Inspection.getPendingCall id env w = (Ok detail, w2)
    /\ getPendingCalls env w = (Ok views, w3)
    /\ handler w1 = handler w /\ handler w2 = handler w /\ handler w3 = handler w
    /\ List.map (fun v => (PendingView.toolCallId v, PendingView.call v)) views
       = map_to_list (store w)
    /\ PendingDetail.call <$> detail = store w !! id
    /\ (PendingStatus.pending status = true
        <-> id ∈ List.map PendingView.toolCallId views).
Proof.
  destruct (getPendingCalls_entries env w)
    as (views & w3 & Hviews & Hh3 & _ & _ & Hentries).
  assert (Hin : id ∈ List.map PendingView.toolCallId views
                <-> is_Some (store w !! id)).
  { replace (List.map PendingView.toolCallId views)
      with (List.map fst (map_to_list (store w)))
      by (by rewrite <- Hentries, List.map_map).
    change (List.map fst (map_to_list (store w)))
      with (fst <$> map_to_list (store w)).
    rewrite list_elem_of_fmap. split.
    - intros ([k data] & -> & Hkd). apply elem_of_map_to_list in Hkd.
      by exists data.
    - intros [data Hd]. exists (id, data). split; [done|].
      by apply elem_of_map_to_list. }
  unfold Inspection.isPending, Inspection.getPendingCall. run_monad.
  change (Handler.pendingCalls (handler w)) with (store w) in *.
  destruct (store w !! id) as [pc|] eqn:Hid; cbn;
    eexists _, _, views, _, _, w3; split_and!; try done.
  - rewrite Hin. split; [by eexists|done].
  - rewrite Hin. split; [done|]. by intros [? ?].
Qed.

(** X11.  [removePendingCall] returns whether the identifier was stored,
    removes that entry and no other, and makes no request; a result that
    arrives for the removed call afterwards, with valid fields and a
    processable output, is not refused: it is processed with the context
    'unknown', and the store stays as the removal left it. *)
Theorem removed_call_processed_as_unknown env w id r s :
  ResponseData.tool_call_id r = JStr id ->
  validationErrors r = [] ->
  normalizeOutput (ResponseData.output r) = Ok s ->
  exists w1 resp w2,
    Inspection.removePendingCall id env w
    = (Ok (bool_decide (is_Some (store w !! id))), w1)
    /\ store w1 = delete id (store w)
    /\ requests w1 = requests w
    /\ processWebhookResponse r env w1 = (Ok resp, w2)
    /\ ProcessedResponse.output resp = s
    /\ ProcessedResponse.employee_id resp = u16 "unknown"
    /\ ProcessedResponse.employee_name resp = Some (u16 "unknown")
    /\ store w2 = store w1.
Proof.
  intros Hid Hv Ho.
  unfold Inspection.removePendingCall. run_monad.
  change (Handler.pendingCalls (handler w)) with (store w).
  destruct (store w !! id) as [pc|] eqn:Hpc; cbn;
    eexists _, _, _; (split; [reflexivity|]); (split; [reflexivity|]);
    (split; [reflexivity|]);
    (rewrite (processWebhookResponse_miss r env _ s Hv Ho);
     [by split_and!|rewrite Hid; cbn; apply lookup_delete_eq]).
Qed.

Lemma removed_call_processed_as_unknown_witness :
  exists w1 resp w2,
    Inspection.removePendingCall (u16 "call_1") offline_env sample_world
    = (Ok true, w1)
    /\ store w1 = ∅
    /\ processWebhookResponse (responseOf "call_1" (JStr (u16 "done")) "thread_1" "run_1")
         offline_env w1 = (Ok resp, w2)
    /\ ProcessedResponse.employee_id resp = u16 "unknown".
Proof.
  destruct (removed_call_processed_as_unknown offline_env sample_world
              (u16 "call_1")
              (responseOf "call_1" (JStr (u16 "done")) "thread_1" "run_1")
              (u16 "done") eq_refl eq_refl eq_refl)
    as (w1 & resp & w2 & Hrm & Hstore & _ & Hrun & _ & Hemp & _).
  exists w1, resp, w2. split; [exact Hrm|]. split; [|by split].
  rewrite Hstore. by vm_compute.
Defined.

(** X12.  A call that [sendToolCalls] dispatched can be correlated, whether
    or not its delivery succeeded: after a dispatch for a resolved employee,
    a result that names a tool call whose arguments parsed, with the thread
    and the run of the dispatch and a processable output, is accepted by
    [processWebhookResponse], which reports the employee of the dispatch and
    removes the call's entry and no other. *)
Theorem dispatched_call_correlates env w toolCalls threadId runId employeeId
    webhookUrl toolCall arguments r s :
  resolves env employeeId webhookUrl ->
  toolCall ∈ toolCalls ->
  JSON_parse env (ToolCall.function_arguments toolCall) = Ok arguments ->
  ResponseData.tool_call_id r = JStr (ToolCall.id toolCall) ->
  ResponseData.thread_id r = JStr threadId ->
  ResponseData.run_id r = JStr runId ->
  validationErrors r = [] ->
  normalizeOutput (ResponseData.output r) = Ok s ->
  let w1 := snd (sendToolCalls toolCalls threadId runId employeeId env w) in
  exists resp w2,
    processWebhookResponse r env w1 = (Ok resp, w2)
    /\ ProcessedResponse.output resp = s
    /\ ProcessedResponse.employee_id resp
       = (if truthy (JStr employeeId) then employeeId else u16 "unknown")
    /\ store w2 = delete (ToolCall.id toolCall) (store w1).
Proof.
  intros Hres Hin Hparse Hid Hthread Hrun Hv Ho w1.
  destruct (dispatch_frame_entry env w toolCalls threadId runId employeeId
              webhookUrl toolCall arguments Hres Hin Hparse)
    as (pc & Hpc & Ht & Hr & He).
  fold w1 in Hpc.
  eexists _, _.
  rewrite (processWebhookResponse_match r env w1 s pc Hv Ho).
  - split; [reflexivity|]. cbn. split; [done|]. split.
    + unfold contextId. by rewrite He.
    + rewrite Hid. cbn. apply delete_insert_eq.
  - rewrite Hid. exact Hpc.
  - rewrite Hthread, Ht. by apply differs_false.
  - rewrite Hrun, Hr. by apply differs_false.
Qed.

Lemma dispatched_call_correlates_witness :
  let w1 := snd (sendToolCalls [sample_toolCall] (u16 "thread_1") (u16 "run_1")
                   (u16 "brenden") online_env empty_world) in
  exists resp w2,
    processWebhookResponse (responseOf "call_1" (JStr (u16 "done")) "thread_1" "run_1")
      online_env w1 = (Ok resp, w2)
    /\ ProcessedResponse.employee_id resp = u16 "brenden"
    /\ store w2 = delete (u16 "call_1") (store w1).
Proof.
  intros w1.
  destruct (dispatched_call_correlates online_env empty_world [sample_toolCall]
              (u16 "thread_1") (u16 "run_1") (u16 "brenden")
              (u16 "https://hook.eu2.make.com/lxa5qab0magprieff0sujnfkfycwu9x7")
              sample_toolCall (JObj [])
              (responseOf "call_1" (JStr (u16 "done")) "thread_1" "run_1")
              (u16 "done"))
    as (resp & w2 & Hrun & _ & Hemp & Hstore); try reflexivity.
  - eexists. split; [by vm_compute|]. split; [reflexivity|].
    split; [discriminate|by vm_compute].
  - apply list_elem_of_here.
  - exists resp, w2. split; [exact Hrun|]. split; [exact Hemp|exact Hstore].
Defined.

(** X13.  [getStatistics] never fails and changes nothing in the handler;
    [total_pending] is the number of stored entries; every entry is counted
    in exactly one of the four age classes, so the classes add up to
    [total_pending]; [oldest_call_age] is not negative; and the
    configuration it reports is the handler's. *)
Theorem statistics_consistent env w :
  exists stats w',
    Inspection.getStatistics env w = (Ok stats, w')
    /\ handler w' = handler w
    /\ requests w' = requests w
    /\ Stats.total_pending stats = Z.of_nat (size (store w))
    /\ Stats.under_1min stats + Stats.under_5min stats
       + Stats.under_30min stats + Stats.over_30min stats
       = Stats.total_pending stats
    /\ 0 <= Stats.oldest_call_age stats
    /\ Stats.retry_attempts stats = Handler.retryAttempts (handler w)
    /\ Stats.retry_delay stats = Handler.retryDelay (handler w)
    /\ Stats.max_retry_delay stats = Handler.maxRetryDelay (handler w).
Proof.
  destruct (getStatistics_spec env w)
    as (stats & w' & Hrun & Hh & Hreq & _ & Hrest).
  by exists stats, w'.
Qed.

(** ** The routes and the middleware *)

(** X14.  [validateAskRequest] lets a request through exactly when its
    message is a string that is not blank and has at most 4000 units (a
    message of exactly 4000 units passes); every other request is answered
    with status 400. *)
Theorem ask_message_accepted_iff message_ :
  (Middleware.validateAskRequest message_ = None
   <-> exists s, message_ = JStr s /\ trim s <> [] /\ jslength s <= 4000)
  /\ forall reply,
      Middleware.validateAskRequest message_ = Some reply ->
      ErrorReply.statusCode reply = 400.
Proof.
  unfold Middleware.validateAskRequest. split.
  - split.
    + destruct message_ as [| |b|z|s|l|l];
        cbn [truthy typeof jstype_eqb str_of negb orb]; try done;
        try (by destruct b); try (by destruct (z =? 0)).
      destruct s as [|c s]; [done|]. cbn [negb orb].
      destruct (jslength (trim (c :: s)) =? 0) eqn:Ht; [done|].
      destruct (jslength (c :: s) >? 4000) eqn:Hl; [done|]. intros _.
      exists (c :: s). split_and!; [done| |].
      * intros E. rewrite E in Ht. done.
      * rewrite Z.gtb_ltb in Hl. by apply Z.ltb_ge in Hl.
    + intros (s & -> & Ht & Hl). cbn [truthy typeof jstype_eqb str_of negb orb].
      destruct s as [|c s]; [done|]. cbn [negb orb].
      assert ((jslength (trim (c :: s)) =? 0) = false) as ->.
      { apply Z.eqb_neq. unfold jslength. destruct (trim (c :: s)); [done|].
        cbn [length]. lia. }
      assert ((jslength (c :: s) >? 4000) = false) as ->; [|done].
      rewrite Z.gtb_ltb. by apply Z.ltb_ge.
  - intros reply.
    destruct (negb _ || _ || _); [by intros [= <-]|].
    destruct (_ >? _); [by intros [= <-]|done].
Qed.

(** X15.  The active-run check of POST /ask never throws and never changes
    the handler; it makes exactly one request to the provider, the run
    listing; and it answers, always with 409, exactly when the listing
    succeeds and its first run is queued or in progress, or waits for tool
    outputs while the store holds a call of that thread and run.  In every
    other case, a failed listing included, the turn goes on. *)
Theorem active_run_check env w threadId employeeConfig :
  exists verdict w',
    Routes.checkActiveRun threadId employeeConfig env w = (Ok verdict, w')
    /\ handler w' = handler w
    /\ requests w' = S (requests w)
    /\ trace w' = trace w ++ [EvProvider (RunsList threadId)]
    /\ ((exists answer, verdict = Some answer)
        <-> exists latestRun others,
              provider_runs_list env (requests w) threadId
              = Ok (latestRun :: others)
              /\ blocking (store w) threadId latestRun)
    /\ forall answer, verdict = Some answer ->
         exists body, answer = Respond 409 body.
Proof.
  destruct (provider_runs_list env (requests w) threadId)
    as [[|latestRun others]|e] eqn:Hruns.
  - exists None. eexists.
    unfold Routes.checkActiveRun. rewrite try_catch_eq, bind_eq, provider_eq.
    rewrite Hruns. cbn. split_and!; try done.
    split; [by intros [? ?]|]. by intros (? & ? & ? & _).
  - destruct (active_run_verdict env w threadId employeeConfig latestRun others
                Hruns) as (verdict & w' & Hrun & Hh & Hreq & Htr & Hiff & H409).
    exists verdict, w'. split_and!; try done.
    rewrite Hiff. split.
    + intros Hb. by exists latestRun, others.
    + by intros (l & o & [= <- <-] & Hb).
  - exists None. eexists.
    unfold Routes.checkActiveRun. rewrite try_catch_eq, bind_eq, provider_eq.
    rewrite Hruns. cbn. split_and!; try done.
    split; [by intros [? ?]|]. by intros (? & ? & ? & _).
Qed.

(** X16.  A result that [processWebhookResponse] refuses is not given up at
    once by POST /webhook-response: the handler processes it three times,
    waiting 500 ms between two attempts, makes no request to the provider
    or to a webhook, leaves the store as it was, and hands to [next] an
    error whose details are the message of the refusal. *)
Theorem refused_result_handed_over env w body e :
  openaiService env = true ->
  fst (processWebhookResponse body env w) = Throw e ->
  exists w' events,
    Routes.webhookResponseHandler body env w
    = (Ok (Next (u16 "Webhook response processing failed") (message e)), w')
    /\ trace w' = trace w ++ events
    /\ sleepsOf events = [500; 500]
    /\ requests w' = requests w
    /\ store w' = store w.
Proof.
  apply route_refusal.
Qed.

Lemma refused_result_handed_over_witness :
  exists details w',
    Routes.webhookResponseHandler blank_mismatched_response offline_env sample_world
    = (Ok (Next (u16 "Webhook response processing failed") details), w')
    /\ sleepsOf (trace w') = [500; 500]
    /\ store w' = store sample_world.
Proof.
  destruct (processWebhookResponse blank_mismatched_response offline_env
              sample_world) as [[resp|e] w1] eqn:Hrun.
  { vm_compute in Hrun. discriminate. }
  destruct (refused_result_handed_over offline_env sample_world
              blank_mismatched_response e eq_refl)
    as (w' & events & Hhandler & Htrace & Hsleeps & _ & Hstore).
  { by rewrite Hrun. }
  exists (message e), w'. split; [exact Hhandler|]. split; [|exact Hstore].
  rewrite Htrace. exact Hsleeps.
Defined.

(** X17.  As the application serves it, a request to POST /webhook-response
    whose result [processWebhookResponse] refuses gets no reply from
    [errorHandler]: the route hands to [next] an object without [message],
    and the error handler throws a TypeError when it reads
    [err.message.includes]; the store is as it was. *)
Theorem refused_result_crashes_error_handler env w body e development :
  openaiService env = true ->
  Validation.validateWebhookResponse body = None ->
  fst (processWebhookResponse body env w) = Throw e ->
  exists w',
    Middleware.serveWebhookResponse development body env w
    = (Throw (mkError (u16 "Cannot read properties of undefined (reading 'includes')")),
       w')
    /\ requests w' = requests w
    /\ store w' = store w.
Proof.
  intros Hsvc Hvalid Hrun.
  destruct (route_refusal env w body e Hsvc Hrun)
    as (w' & events & Hhandler & _ & _ & Hreq & Hstore).
  exists w'. split; [|by split].
  unfold Middleware.serveWebhookResponse, Routes.webhookResponseRoute.
  rewrite Hvalid, bind_eq, Hhandler. reflexivity.
Qed.

Lemma refused_result_crashes_error_handler_witness :
  exists w',
    Middleware.serveWebhookResponse false blank_mismatched_response
      offline_env sample_world
    = (Throw (mkError (u16 "Cannot read properties of undefined (reading 'includes')")),
       w')
    /\ store w' = store sample_world.
Proof.
  destruct (processWebhookResponse blank_mismatched_response offline_env
              sample_world) as [[resp|e] w1] eqn:Hrun.
  { vm_compute in Hrun. discriminate. }
  destruct (refused_result_crashes_error_handler offline_env sample_world
              blank_mismatched_response e false eq_refl eq_refl)
    as (w' & Hserve & _ & Hstore).
  { by rewrite Hrun. }
  exists w'. split; [exact Hserve|exact Hstore].
Defined.

(** X18.  POST /webhook-response removes the pending call before the result
    reaches the provider: when the result correlates and each of the five
    submissions of the tool output fails (they are 2000 ms apart), the
    handler hands an error to [next], and the call's entry is gone from the
    store all the same. *)
Theorem failed_submission_loses_call env w body id pc s :
  openaiService env = true ->
  ResponseData.tool_call_id body = JStr id ->
  store w !! id = Some pc ->
  ResponseData.thread_id body = JStr (PendingCall.threadId pc) ->
  ResponseData.run_id body = JStr (PendingCall.runId pc) ->
  validationErrors body = [] ->
  normalizeOutput (ResponseData.output body) = Ok s ->
  (forall n, exists e,
      provider_submitToolOutputs env n (PendingCall.threadId pc)
        (PendingCall.runId pc) (JStr id) s = Throw e) ->
  exists details w' events,
    Routes.webhookResponseHandler body env w
    = (Ok (Next (u16 "Webhook response processing failed") details), w')
    /\ store w' = delete id (store w)
    /\ trace w' = trace w ++ events
    /\ mutations events
       = repeat (SubmitToolOutputs (PendingCall.threadId pc)
                   (PendingCall.runId pc) (JStr id) s) 5
    /\ sleepsOf events = [2000; 2000; 2000; 2000]
    /\ requests w' = (requests w + 5)%nat.
Proof.
  intros Hsvc Hid Hpc Hthread Hrun Hv Ho Hfail.
  unfold Routes.webhookResponseHandler.
  rewrite try_catch_eq, bind_eq. cbn [getEnv]. rewrite Hsvc. cbn [negb].
  rewrite bind_eq.
  destruct (getPendingCalls_calls env w) as (views & w1 & -> & Hh & Hreq & Htr & _).
  rewrite bind_eq, retrying_eq.
  rewrite (processWebhookResponse_match body env w1 s pc Hv Ho).
  2: { rewrite Hid. cbn. unfold store. by rewrite Hh. }
  2: { rewrite Hthread. by apply differs_false. }
  2: { rewrite Hrun. by apply differs_false. }
  rewrite bind_eq.
  lazymatch goal with
  | |- context [getPendingCalls env ?w0] =>
      destruct (getPendingCalls_calls env w0)
        as (views2 & w3 & -> & Hh3 & Hreq3 & Htr3 & _)
  end.
  cbn in Hh3, Hreq3, Htr3.
  rewrite bind_eq. unfold Routes.submitRequest.
  cbn [ProcessedResponse.thread_id ProcessedResponse.run_id
       ProcessedResponse.tool_call_id ProcessedResponse.output].
  rewrite Hid, Hthread, Hrun. cbn [str_of].
  lazymatch goal with
  | |- context [Routes.retrying 4 2000 (Routes.provider ?c ?k) _ _ env w3] =>
      destruct (retrying_provider_fails c k 2000 env Hfail 4 w3)
        as (e & events & -> & _ & Hevents);
      destruct (retried_requests_mutations c 2000 4 eq_refl) as [Hmut Hsl]
  end.
  rewrite <- Hevents in Hmut, Hsl.
  eexists _, _, (outputSignals (ResponseData.output body) ++ events).
  split; [reflexivity|]. cbn [handler reads requests trace store].
  unfold store. rewrite Hh3, Htr3, Hreq3, Hh, Htr, Hreq. cbn.
  split_and!.
  - rewrite Hid. cbn [mapDelete mapSet]. unfold store. rewrite Hh.
    apply delete_insert_eq.
  - by rewrite app_assoc.
  - by rewrite mutations_app, outputSignals_silent.
  - by rewrite sleepsOf_app, outputSignals_quiet.
  - done.
Qed.

Lemma failed_submission_loses_call_witness :
  exists details w',
    Routes.webhookResponseHandler
      (responseOf "call_1" (JStr (u16 "done")) "thread_1" "run_1")
      unsubmitting_env sample_world
    = (Ok (Next (u16 "Webhook response processing failed") details), w')
    /\ store w' = delete (u16 "call_1") (store sample_world)
    /\ requests w' = 5%nat.
Proof.
  destruct (failed_submission_loses_call unsubmitting_env sample_world
              (responseOf "call_1" (JStr (u16 "done")) "thread_1" "run_1")
              (u16 "call_1") sample_call (u16 "done")
              eq_refl eq_refl eq_refl eq_refl eq_refl eq_refl eq_refl)
    as (details & w' & events & Hrun & Hstore & _ & _ & _ & Hreq).
  { intros n. by eexists. }
  exists details, w'. split; [exact Hrun|]. split; [exact Hstore|exact Hreq].
Defined.

(** X19.  A first turn (no thread named) whose thread cannot be created:
    POST /ask asks the provider for a thread three times, 1000 ms apart,
    then hands to [next] an error whose details are the message of the
    third failure; no message is appended, no run is started, and the
    handler is unchanged. *)
Theorem thread_creation_exhausted env w body employeeConfig :
  openaiService env = true ->
  AskRequest.thread_id body = None ->
  employees env !! default (u16 "brenden") (AskRequest.employee body)
    = Some employeeConfig ->
  includes (Employee.assistantId employeeConfig) (u16 "placeholder") = false ->
  (forall n, exists e, provider_createThread env n = Throw e) ->
  exists e w',
    provider_createThread env (requests w + 2)%nat = Throw e
    /\ Routes.askHandler body env w
       = (Ok (Next (u16 "Request processing failed") (message e)), w')
    /\ handler w' = handler w
    /\ trace w'
       = trace w ++ [EvProvider CreateThread; EvSleep 1000;
                     EvProvider CreateThread; EvSleep 1000;
                     EvProvider CreateThread].
Proof.
  intros Hsvc Hthread Hemp Hasst Hfail.
  unfold Routes.askHandler. rewrite try_catch_eq, bind_eq. cbn [getEnv].
  rewrite Hsvc. cbn [negb]. rewrite Hthread, Hemp, Hasst.
  rewrite bind_eq.
  lazymatch goal with
  | |- context [Routes.retrying 2 1000 (Routes.provider ?c ?k) _ _ env w] =>
      destruct (retrying_provider_fails c k 1000 env Hfail 2 w)
        as (e & events & -> & He & ->)
  end.
  exists e. eexists. split; [exact He|]. split; [reflexivity|]. by split.
Qed.

Lemma thread_creation_exhausted_witness :
  exists w',
    Routes.askHandler first_turn threadless_env empty_world
    = (Ok (Next (u16 "Request processing failed")
             (u16 "Failed to create conversation thread")), w')
    /\ sleepsOf (trace w') = [1000; 1000].
Proof.
  destruct (thread_creation_exhausted threadless_env empty_world first_turn
              (Employee.mk (u16 "asst_MvlMZ3IOvQrTkbsENRSzGRwZ") (u16 "AI Brenden")
                 (u16 "lead scraper") (u16 "Lead Research Specialist")
                 (u16 "https://hook.eu2.make.com/lxa5qab0magprieff0sujnfkfycwu9x7"))
              eq_refl eq_refl eq_refl eq_refl)
    as (e & w' & He & Hrun & _ & Htrace).
  { intros n. by eexists. }
  injection He as <-.
  exists w'. split; [exact Hrun|]. rewrite Htrace. reflexivity.
Defined.

(** X20.  When the provider refuses the message of a turn because a run is
    active on the thread (its error says 'while a run' and 'is active'),
    POST /ask does not try again: after that one request it hands to
    [next] the error 'Cannot add message to <name>'s thread while
    processing...', without waiting and without starting a run. *)
Theorem active_run_error_not_retried env w message_ threadId employeeId
    assistantId employeeConfig e :
  provider_addMessage env (requests w) threadId message_ = Throw e ->
  message e <> [] ->
  includes (message e) (u16 "while a run") = true ->
  includes (message e) (u16 "is active") = true ->
  Routes.runTurn message_ threadId employeeId assistantId employeeConfig env w
  = (Throw (mkError (u16 "Cannot add message to " ++ Employee.name employeeConfig
                       ++ u16 "'s thread while processing. Please wait for the current operation to complete or check for pending tool calls.")),
     mkWorld (handler w) (reads w) (S (requests w))
       (trace w ++ [EvProvider (AddMessage threadId message_)])).
Proof.
  intros Hadd Hne Hrun Hactive.
  unfold Routes.runTurn. rewrite bind_eq, retrying_eq, provider_eq, Hadd.
  unfold Routes.activeRunError. rewrite Hrun, Hactive.
  by destruct (message e).
Qed.

Lemma active_run_error_not_retried_witness :
  exists e,
    Routes.runTurn (u16 "ping") (u16 "thread_1") (u16 "brenden")
      (u16 "asst_MvlMZ3IOvQrTkbsENRSzGRwZ")
      (Employee.mk (u16 "asst_MvlMZ3IOvQrTkbsENRSzGRwZ") (u16 "AI Brenden")
         (u16 "lead scraper") (u16 "Lead Research Specialist")
         (u16 "https://hook.eu2.make.com/lxa5qab0magprieff0sujnfkfycwu9x7"))
      offline_env empty_world
    = (Throw e,
       mkWorld (handler empty_world) 0 1
         [EvProvider (AddMessage (u16 "thread_1") (u16 "ping"))]).
Proof.
  eexists.
  apply (active_run_error_not_retried offline_env empty_world (u16 "ping")
           (u16 "thread_1") (u16 "brenden") (u16 "asst_MvlMZ3IOvQrTkbsENRSzGRwZ")
           _ (mkError (u16 "Can't add messages to thread_1 while a run run_1 is active.")));
    [reflexivity|discriminate|reflexivity|reflexivity].
Defined.

(** X21.  POST /ask never dispatches tool calls for an employee whose
    webhook URL is empty or a placeholder: when the run asks for tool calls,
    the turn ends after the three provider requests that started it, with
    no webhook request and the store untouched; the answer is 503 'Webhook
    not configured' listing the tool calls, or, when the arguments of one of
    them do not parse, the parser's error. *)
Theorem unconfigured_webhook_never_dispatched env w message_ threadId employeeId
    assistantId employeeConfig runId toolCalls :
  provider_addMessage env (requests w) threadId message_ = Ok tt ->
  provider_runAssistant env (S (requests w)) threadId assistantId = Ok runId ->
  provider_pollRunStatus env (S (S (requests w))) threadId runId
  = Ok (PollResult.mk (u16 "requires_action") (Some toolCalls)) ->
  negb (truthy (JStr (Employee.webhookUrl employeeConfig)))
  || includes (Employee.webhookUrl employeeConfig) (u16 "placeholder") = true ->
  Routes.runTurn message_ threadId employeeId assistantId employeeConfig env w
  = (match describeResult env toolCalls with
     | Ok described =>
         Ok (Respond 503
               (WebhookNotConfigured employeeConfig described threadId runId))
     | Throw e => Throw e
     end,
     afterTurnStart w message_ threadId assistantId runId).
Proof.
  intros Hadd Hrun Hpoll Hurl.
  rewrite (runTurn_start env w message_ threadId employeeId assistantId
             employeeConfig runId _ Hadd Hrun Hpoll eq_refl).
  cbv zeta. rewrite Hurl, bind_eq. cbn [Routes.toolCallsOf PollResult.toolCalls ret].
  rewrite bind_eq, describeToolCalls_eq.
  by destruct (describeResult env toolCalls).
Qed.

Lemma unconfigured_webhook_never_dispatched_witness :
  exists answer w',
    Routes.runTurn (u16 "ping") (u16 "thread_1") (u16 "angel") (u16 "asst_1")
      (Employee.mk (u16 "asst_1") (u16 "AI Angel") (u16 "voice caller")
         (u16 "Voice Outreach Manager")
         (u16 "https://hook.eu2.make.com/angel_webhook_placeholder"))
      acting_env empty_world
    = (Ok (Respond 503 answer), w')
    /\ store w' = ∅
    /\ postAttempts (trace w') = [].
Proof.
  eexists _, _. split; [|split].
  - apply (unconfigured_webhook_never_dispatched acting_env empty_world
             (u16 "ping") (u16 "thread_1") (u16 "angel") (u16 "asst_1") _
             (u16 "run_2") [sample_toolCall]); reflexivity.
  - reflexivity.
  - reflexivity.
Defined.

(** X22.  For an employee with a usable webhook URL, a turn whose run asks
    for tool calls dispatches them once, right after the three provider
    requests that started it: [sendToolCalls] returns one record per tool
    call, and the store then holds the calls whose arguments parse, filed
    for this thread, run and employee.  The answer is 200 'requires_action'
    with those records; but when the arguments of one tool call do not
    parse, the turn fails with the parser's error although the other calls
    have been dispatched and stored. *)
Theorem turn_dispatches_tool_calls env w message_ threadId employeeId
    assistantId employeeConfig runId toolCalls :
  provider_addMessage env (requests w) threadId message_ = Ok tt ->
  provider_runAssistant env (S (requests w)) threadId assistantId = Ok runId ->
  provider_pollRunStatus env (S (S (requests w))) threadId runId
  = Ok (PollResult.mk (u16 "requires_action") (Some toolCalls)) ->
  employees env !! employeeId = Some employeeConfig ->
  negb (truthy (JStr (Employee.webhookUrl employeeConfig)))
  || includes (Employee.webhookUrl employeeConfig) (u16 "placeholder") = false ->
  exists results w1,
    sendToolCalls toolCalls threadId runId employeeId env
      (afterTurnStart w message_ threadId assistantId runId)
    = (Ok results, w1)
    /\ Forall2 (fun tc r => DeliveryResult.toolCallId r = ToolCall.id tc)
         toolCalls results
    /\ recorded env toolCalls threadId runId employeeId (store w) (store w1)
    /\ exists w',
         snd (Routes.runTurn message_ threadId employeeId assistantId
                employeeConfig env w) = w'
         /\ handler w' = handler w1
         /\ requests w' = requests w1
         /\ trace w' = trace w1
         /\ match describeResult env toolCalls with
            | Ok described =>
                exists stamp,
                  fst (Routes.runTurn message_ threadId employeeId assistantId
                         employeeConfig env w)
                  = Ok (Respond 200
                          (TurnRequiresAction threadId runId assistantId
                             employeeConfig described results stamp))
            | Throw e =>
                fst (Routes.runTurn message_ threadId employeeId assistantId
                       employeeConfig env w) = Throw e
            end.
Proof.
  intros Hadd Hrun Hpoll Hemp Hurl.
  set (w0 := afterTurnStart w message_ threadId assistantId runId).
  assert (Hres : resolves env employeeId (Employee.webhookUrl employeeConfig)).
  { exists employeeConfig. apply orb_false_iff in Hurl as [Hne Hph].
    split_and!; try done. intros E. by rewrite E in Hne. }
  pose proof (sendToolCalls_eq toolCalls threadId runId employeeId _ env w0 Hres)
    as Heq.
  destruct (sendToolCalls_loop_total toolCalls threadId runId employeeId
              (Employee.webhookUrl employeeConfig) env [] w0)
    as (results & w1 & events & Hloop & Hall & _).
  cbn [app] in Hloop. rewrite Hloop in Heq.
  pose proof (sendToolCalls_loop_frame _ _ _ _ _ _ _ Hemp _ _ _ _ Hloop)
    as [Hrec _].
  exists results, w1. split; [exact Heq|]. split; [exact Hall|].
  split; [exact Hrec|].
  rewrite (runTurn_start env w message_ threadId employeeId assistantId
             employeeConfig runId _ Hadd Hrun Hpoll eq_refl).
  cbv zeta. fold w0. rewrite Hurl, bind_eq.
  cbn [Routes.toolCallsOf PollResult.toolCalls ret].
  rewrite bind_eq, retrying_eq, Heq, bind_eq, describeToolCalls_eq.
  destruct (describeResult env toolCalls) as [described|e].
  - rewrite bind_eq. cbn [now ret fst snd].
    eexists. split; [reflexivity|]. split_and!; try done. by eexists.
  - cbn [fst snd]. eexists. split; [reflexivity|]. by split_and!.
Qed.

Lemma turn_dispatches_tool_calls_witness :
  exists results w1,
    sendToolCalls [sample_toolCall] (u16 "thread_1") (u16 "run_2") (u16 "brenden")
      acting_env
      (afterTurnStart empty_world (u16 "ping") (u16 "thread_1")
         (u16 "asst_MvlMZ3IOvQrTkbsENRSzGRwZ") (u16 "run_2"))
    = (Ok results, w1)
    /\ Forall2 (fun tc r => DeliveryResult.toolCallId r = ToolCall.id tc)
         [sample_toolCall] results
    /\ recorded acting_env [sample_toolCall] (u16 "thread_1") (u16 "run_2")
         (u16 "brenden") ∅ (store w1).
Proof.
  destruct (turn_dispatches_tool_calls acting_env empty_world (u16 "ping")
              (u16 "thread_1") (u16 "brenden") (u16 "asst_MvlMZ3IOvQrTkbsENRSzGRwZ")
              (Employee.mk (u16 "asst_MvlMZ3IOvQrTkbsENRSzGRwZ") (u16 "AI Brenden")
                 (u16 "lead scraper") (u16 "Lead Research Specialist")
                 (u16 "https://hook.eu2.make.com/lxa5qab0magprieff0sujnfkfycwu9x7"))
              (u16 "run_2") [sample_toolCall]
              eq_refl eq_refl eq_refl eq_refl eq_refl)
    as (results & w1 & Hsend & Hall & Hrec & _).
  exists results, w1. split; [exact Hsend|]. split; [exact Hall|exact Hrec].
Defined.

(** X23.  A result for a call that is not stored is still submitted to the
    provider, under the thread and the run named in the request; and when
    the run then asks for more tool calls, none of them is dispatched: the
    result carries the employee 'unknown', for which [sendToolCalls] throws,
    and the handler ignores that failure.  No webhook request is made, the
    store is untouched, and the answer is still 200 'requires_action' (or
    the parser's error, handed to [next], when the arguments of a tool call
    do not parse). *)
Theorem unknown_result_never_redispatched env w body s submitted toolCall toolCalls :
  openaiService env = true ->
  employees env !! u16 "unknown" = None ->
  validationErrors body = [] ->
  normalizeOutput (ResponseData.output body) = Ok s ->
  mapGet (store w) (ResponseData.tool_call_id body) = None ->
  provider_submitToolOutputs env (requests w)
    (str_of (ResponseData.thread_id body)) (str_of (ResponseData.run_id body))
    (ResponseData.tool_call_id body) s = Ok submitted ->
  provider_pollRunStatus env (S (requests w))
    (str_of (ResponseData.thread_id body)) (str_of (ResponseData.run_id body))
  = Ok (PollResult.mk (u16 "requires_action") (Some (toolCall :: toolCalls))) ->
  exists outcome w' events,
    Routes.webhookResponseHandler body env w = (Ok outcome, w')
    /\ match describeResult env (toolCall :: toolCalls) with
       | Ok described =>
           exists resp stamp,
             outcome = Respond 200 (ResumeRequiresAction resp described stamp)
             /\ ProcessedResponse.employee_id resp = u16 "unknown"
       | Throw e =>
           outcome = Next (u16 "Webhook response processing failed") (message e)
       end
    /\ store w' = store w
    /\ trace w' = trace w ++ events
    /\ postAttempts events = []
    /\ mutations events
       = [SubmitToolOutputs (str_of (ResponseData.thread_id body))
            (str_of (ResponseData.run_id body))
            (ResponseData.tool_call_id body) s].
Proof.
  intros Hsvc Hunknown Hv Ho Hmiss Hsubmit Hpoll.
  unfold Routes.webhookResponseHandler.
  rewrite try_catch_eq, bind_eq. cbn [getEnv]. rewrite Hsvc. cbn [negb].
  rewrite bind_eq.
  destruct (getPendingCalls_calls env w) as (views & w1 & -> & Hh & Hreq & Htr & _).
  rewrite bind_eq, retrying_eq.
  rewrite (processWebhookResponse_miss body env w1 s Hv Ho)
    by (unfold store; by rewrite Hh).
  rewrite bind_eq.
  lazymatch goal with
  | |- context [getPendingCalls env ?w0] =>
      destruct (getPendingCalls_calls env w0)
        as (views2 & w3 & -> & Hh3 & Hreq3 & Htr3 & _)
  end.
  cbn in Hh3, Hreq3, Htr3.
  rewrite bind_eq, retrying_eq. unfold Routes.submitRequest.
  cbn [ProcessedResponse.thread_id ProcessedResponse.run_id
       ProcessedResponse.tool_call_id ProcessedResponse.output
       ProcessedResponse.employee_id].
  rewrite provider_eq, Hreq3, Hreq, Hsubmit.
  rewrite bind_eq, retrying_eq, provider_eq. cbn [requests].
  rewrite Hpoll.
  cbn [PollResult.status PollResult.toolCalls].
  rewrite bool_decide_eq_false_2 by discriminate.
  rewrite bool_decide_eq_true_2 by done.
  rewrite bind_eq, try_catch_eq, bind_eq.
  rewrite (sendToolCalls_unresolved env _ _ _ _ (u16 "unknown")
             (unresolved_unknown env _ Hunknown)).
  cbn [ret]. rewrite bind_eq, describeToolCalls_eq.
  set (events := outputSignals (ResponseData.output body)
                 ++ missSignals (store w1) (ResponseData.tool_call_id body)
                 ++ [EvProvider
                       (SubmitToolOutputs (str_of (ResponseData.thread_id body))
                          (str_of (ResponseData.run_id body))
                          (ResponseData.tool_call_id body) s);
                     EvProvider
                       (PollRunStatus (str_of (ResponseData.thread_id body))
                          (str_of (ResponseData.run_id body)) 90 2000)]).
  assert (Hevents : postAttempts events = []
                    /\ mutations events
                       = [SubmitToolOutputs (str_of (ResponseData.thread_id body))
                            (str_of (ResponseData.run_id body))
                            (ResponseData.tool_call_id body) s]).
  { subst events.
    destruct (missSignals_quiet (store w1) (ResponseData.tool_call_id body))
      as (Hp & Hm & _).
    rewrite !postAttempts_app, !mutations_app, outputSignals_unposted,
      outputSignals_silent, Hp, Hm. done. }
  destruct Hevents as [Hposts Hmut].
  destruct (describeResult env (toolCall :: toolCalls)) as [described|e].
  - eexists _, _, events. split; [reflexivity|].
    cbn [handler reads requests trace store]. unfold store.
    rewrite Hh3, Htr3, Htr. cbn [handler]. rewrite Hh.
    split_and!; try done.
    + by eexists _, _.
    + subst events. by rewrite <- !app_assoc.
  - eexists _, _, events. split; [reflexivity|].
    cbn [handler reads requests trace store message]. unfold store.
    rewrite Hh3, Htr3, Htr. cbn [handler]. rewrite Hh.
    split_and!; try done.
    subst events. by rewrite <- !app_assoc.
Qed.

Lemma unknown_result_never_redispatched_witness :
  exists outcome w',
    Routes.webhookResponseHandler
      (responseOf "call_9" (JStr (u16 "done")) "thread_1" "run_1")
      acting_env empty_world
    = (Ok outcome, w')
    /\ store w' = ∅
    /\ postAttempts (trace w') = [].
Proof.
  destruct (unknown_result_never_redispatched acting_env empty_world
              (responseOf "call_9" (JStr (u16 "done")) "thread_1" "run_1")
              (u16 "done") (u16 "queued") sample_toolCall []
              eq_refl eq_refl eq_refl eq_refl eq_refl eq_refl eq_refl)
    as (outcome & w' & events & Hrun & _ & Hstore & Htrace & Hposts & _).
  exists outcome, w'. split; [exact Hrun|]. split; [exact Hstore|].
  rewrite Htrace. exact Hposts.
Defined.

(** X24.  For an error that has a message, [errorHandler] always answers,
    and with a well-formed error reply: the status code is one of 400, 401,
    404, 408, 429, 500, 502 and 503, the [error] text is not empty, the
    reply is stamped with the current time, and the [details] are not empty
    either, except in development for an error whose message is empty.
    Outside development an error of no known kind is answered 500 with
    details that do not show its message. *)
Theorem error_reply_well_formed text development env w :
  exists reply,
    Middleware.errorHandler (Some text) development env w
    = (Ok reply, mkWorld (handler w) (S (reads w)) (requests w) (trace w))
    /\ ErrorReply.statusCode reply ∈ [400; 401; 404; 408; 429; 500; 502; 503]
    /\ ErrorReply.error reply <> []
    /\ ErrorReply.timestamp reply = Some (clock env (reads w))
    /\ (development = false \/ text <> [] -> ErrorReply.details reply <> [])
    /\ (development = false -> ErrorReply.statusCode reply = 500 ->
        ErrorReply.details reply = u16 "An unexpected error occurred").
Proof.
  assert (Hfix : forall (c fallback : jsstring),
             c <> [] -> (if truthy (JStr c) then c else fallback) = c).
  { intros [|] ? ?; done. }
  unfold Middleware.errorHandler, Middleware.classify.
  repeat lazymatch goal with
  | |- context [if includes text ?p then _ else _] =>
      destruct (includes text p) eqn:?
  end;
  (eexists; split; [reflexivity|]);
  cbn [ErrorReply.statusCode ErrorReply.error ErrorReply.details
       ErrorReply.timestamp];
  (split; [set_solver|]);
  (split; [intros H; vm_compute in H; discriminate H|]);
  (split; [reflexivity|]).
  all: try (rewrite Hfix by (intros H; vm_compute in H; discriminate H);
            split; [intros _ H; vm_compute in H; discriminate H|by intros _]).
  - assert (text <> []) as Hne.
    { intros ->. vm_compute in Heqb3. discriminate. }
    rewrite Hfix by done. split; [done|]. intros _ H. discriminate H.
  - assert (text <> []) as Hne.
    { intros ->. vm_compute in Heqb4. discriminate. }
    rewrite Hfix by done. split; [done|]. intros _ H. discriminate H.
  - split.
    + intros [->|Hne]; [intros H; vm_compute in H; discriminate H|].
      destruct development; [done|]. intros H; vm_compute in H; discriminate H.
    + by intros ->.
Qed.

(** X25.  GET /debug/pending never answers 500 and changes nothing: it
    makes no request and leaves the handler as it was; the [count] it
    reports is the number of stored calls, it equals the
    [total_pending] of the statistics in the same answer, and the calls
    listed are the stored entries under their identifiers. *)
Theorem debug_listing_consistent env w :
  exists answer w',
    DebugRoutes.debugPending env w = (Ok (inl answer), w')
    /\ handler w' = handler w
    /\ requests w' = requests w
    /\ DebugPending.count answer = Z.of_nat (size (store w))
    /\ Stats.total_pending (DebugPending.statistics answer)
       = DebugPending.count answer
    /\ List.map (fun v => (PendingView.toolCallId v, PendingView.call v))
         (DebugPending.calls answer)
       = map_to_list (store w).
Proof.
  unfold DebugRoutes.debugPending. rewrite try_catch_eq, bind_eq.
  destruct (getPendingCalls_entries env w)
    as (views & w1 & -> & Hh & Hreq & Htr & Hentries).
  rewrite bind_eq.
  destruct (getStatistics_spec env w1)
    as (stats & w2 & -> & Hh2 & Hreq2 & _ & Htotal & _).
  rewrite bind_eq. cbn [now ret].
  assert (Hlen : length views = size (store w)).
  { by rewrite <- length_map_to_list, <- Hentries, length_map. }
  eexists _, _. split; [reflexivity|].
  cbn [handler requests DebugPending.count DebugPending.statistics
       DebugPending.calls].
  rewrite Hh2, Hh, Hreq2, Hreq, Htotal, Hlen. unfold store. rewrite Hh.
  by split_and!.
Qed.
